(** * Verification of [utils.py]

    A shallow embedding of the helper module [utils.py] (data loading,
    per-receptor dataset construction, seeding, the early-stopping training
    loop and the plotting helpers), together with the properties its
    specification states about it.

    Conventions.
    - Python [int] values are [Z].  Real-valued table cells are rationals
      ([Q]); missing values (NaN) are left out of the tables.  The trainer
      works with any score type that carries a strict comparison, among
      them [Z], [Q] and IEEE doubles.
    - A call that can raise returns a [result]; the exception is a value of
      [exn].
    - Objects supplied by the caller (the model, the featurizer) and the
      external libraries (pandas, RDKit, DeepChem, NumPy, matplotlib) are
      parameters of the sections that use them.
    - Output written to the terminal or to disk is recorded as a list of
      events. *)

From Stdlib Require Import ZArith QArith Floats List String Bool Lia Permutation Sorted.
Import ListNotations.

Open Scope Z_scope.

(** ** Exceptions and fallible results *)

Inductive exn : Type :=
| ZeroDivisionError
| KeyError (key : string)
| NameError (name : string)
| TypeError
| ValueError
| AttributeError (attribute : string)
| ImportError (module : string).

Inductive result (A : Type) : Type :=
| Ok (a : A)
| Raise (e : exn).

Arguments Ok {A} a.
Arguments Raise {A} e.

Definition bind {A B : Type} (r : result A) (k : A -> result B) : result B :=
  match r with
  | Ok a => k a
  | Raise e => Raise e
  end.

Notation "x <- r ;; k" := (bind r (fun x => k))
  (at level 61, r at next level, right associativity).

(** [a % b] on Python integers: the result has the sign of the divisor,
    as [Z.modulo] has; a zero divisor raises. *)
Definition py_mod (a b : Z) : result Z :=
  if b =? 0 then Raise ZeroDivisionError else Ok (a mod b).

(** [range(n)]: the integers [0, 1, ..., n-1], empty when [n <= 0]. *)
Definition range_from (k len : nat) : list Z := map Z.of_nat (seq k len).
Definition range (n : Z) : list Z := range_from 0 (Z.to_nat n).

(** [x < y] on rationals. *)
Definition Qltb (x y : Q) : bool := negb (Qle_bool y x).

(** * The early-stopping trainer, [fit_best_model] *)

Module Trainer.

(** Validation scores are compared with [<]; a score type comes with that
    comparison, which no value satisfies against itself. *)
Class ScoreOrder (Score : Type) : Type := {
  score_lt : Score -> Score -> bool;
  score_lt_irrefl : forall s, score_lt s s = false
}.

#[export] Instance Z_ScoreOrder : ScoreOrder Z :=
  {| score_lt := Z.ltb; score_lt_irrefl := Z.ltb_irrefl |}.

Lemma Qltb_irrefl (x : Q) : Qltb x x = false.
Proof.
  unfold Qltb. replace (Qle_bool x x) with true; [reflexivity|].
  symmetry. apply Qle_bool_iff. apply Qle_refl.
Qed.

#[export] Instance Q_ScoreOrder : ScoreOrder Q :=
  {| score_lt := Qltb; score_lt_irrefl := Qltb_irrefl |}.

(** Python floats are IEEE 754 doubles: [nan < x] and [x < nan] are both
    false. *)
Lemma SFltb_irrefl (s : SpecFloat.spec_float) : SpecFloat.SFltb s s = false.
Proof.
  unfold SpecFloat.SFltb.
  destruct s as [b|b| |b m e]; cbn.
  - reflexivity.
  - destruct b; reflexivity.
  - reflexivity.
  - destruct b; rewrite Z.compare_refl, Pos.compare_cont_refl; reflexivity.
Qed.

Lemma float_ltb_irrefl (x : float) : PrimFloat.ltb x x = false.
Proof. rewrite ltb_spec. apply SFltb_irrefl. Qed.

#[export] Instance float_ScoreOrder : ScoreOrder float :=
  {| score_lt := PrimFloat.ltb; score_lt_irrefl := float_ltb_irrefl |}.

(** How a run of the loop ends: [Break] is the early stop, [Continue] the
    exhaustion of [range(nb_epoch)]. *)
Inductive flow : Type := Continue | Break.

Section FitBestModel.
Context {Score : Type} {score_order : ScoreOrder Score}.
(** The model object's state and the dataset objects. *)
Variables Mdl Dataset : Type.

(** The capability the trainer needs from [model]:
    [fit(dataset, nb_epoch=1)] updates the model,
    [evaluate(dataset, metric, transformers)[metric[0].name]] reads a
    score off it. *)
Record Model : Type := {
  fit : Dataset -> Mdl -> Mdl;
  evaluate : Dataset -> Mdl -> Score
}.

(** What a run prints and writes. *)
Inductive event : Type :=
| PrintEpoch (epoch nb_epoch : Z)
| PrintScores (valid_score : Score)
| SaveCheckpoint (model_dir : string) (snapshot : Mdl)
| PrintEarlyStop (epoch : Z)
| PrintBest (best_epoch : option Z) (best_score : option Score).

Definition entry : Type := (Z * Score * Score)%type.

(** The local variables of [fit_best_model], the model object and the
    output produced so far. *)
Record locals : Type := {
  model : Mdl;
  best_score : option Score;
  best_epoch : option Z;
  list_scores : list entry;
  wait : Z;
  out : list event
}.

Variable mdl : Model.
Variables train_dataset valid_dataset : Dataset.
Variables nb_epoch patience interval : Z.

Definition print (e : event) (st : locals) : locals :=
  {| model := model st; best_score := best_score st;
     best_epoch := best_epoch st; list_scores := list_scores st;
     wait := wait st; out := out st ++ [e] |}.

(** [best_score is None or valid_score < best_score] *)
Definition improves (best : option Score) (valid_score : Score) : bool :=
  match best with
  | None => true
  | Some b => score_lt valid_score b
  end.

(** The body of [for epoch in range(nb_epoch)]. *)
Definition epoch_body (st : locals) (epoch : Z) : result (locals * flow) :=
  let st := print (PrintEpoch (epoch + 1) nb_epoch) st in
  let st := {| model := fit mdl train_dataset (model st);
               best_score := best_score st; best_epoch := best_epoch st;
               list_scores := list_scores st; wait := wait st;
               out := out st |} in
  r <- py_mod (epoch + 1) interval ;;
  if r =? 0 then
    let valid_score := evaluate mdl valid_dataset (model st) in
    let st := print (PrintScores valid_score) st in
    let training_score := evaluate mdl train_dataset (model st) in
    let st := {| model := model st; best_score := best_score st;
                 best_epoch := best_epoch st;
                 list_scores :=
                   list_scores st ++ [(epoch + 1, valid_score, training_score)];
                 wait := wait st; out := out st |} in
    if improves (best_score st) valid_score then
      Ok ({| model := model st; best_score := Some valid_score;
             best_epoch := Some (epoch + 1);
             list_scores := list_scores st; wait := 0;
             out := out st ++ [SaveCheckpoint "model.ckpt" (model st)] |},
          Continue)
    else
      let st := {| model := model st; best_score := best_score st;
                   best_epoch := best_epoch st;
                   list_scores := list_scores st; wait := wait st + 1;
                   out := out st |} in
      if wait st >=? patience then
        Ok (print (PrintEarlyStop (epoch + 1)) st, Break)
      else Ok (st, Continue)
  else Ok (st, Continue).

(** The [for] loop over a list of epochs, left by [break] or by the end
    of the list. *)
Fixpoint for_epochs (epochs : list Z) (st : locals) : result (locals * flow) :=
  match epochs with
  | [] => Ok (st, Continue)
  | epoch :: rest =>
      match epoch_body st epoch with
      | Ok (st', Continue) => for_epochs rest st'
      | Ok (st', Break) => Ok (st', Break)
      | Raise e => Raise e
      end
  end.

Definition initial (m0 : Mdl) : locals :=
  {| model := m0; best_score := None; best_epoch := None;
     list_scores := []; wait := 0; out := [] |}.

(** The whole call: final locals (with the model and the output) and the
    way the loop ended. *)
Definition fit_best_model_run (m0 : Mdl) : result (locals * flow) :=
  r <- for_epochs (range nb_epoch) (initial m0) ;;
  let (st, fl) := r in
  Ok (print (PrintBest (best_epoch st) (best_score st)) st, fl).

(** The value [fit_best_model] returns. *)
Definition fit_best_model (m0 : Mdl) : result (list entry) :=
  r <- fit_best_model_run m0 ;;
  Ok (list_scores (fst r)).

(** ** Notions used to state the properties *)

(** The model [fit_best_model] is called on. *)
Variable m0 : Mdl.

(** The model after [k] calls of [fit]. *)
Definition fits (k : nat) : Mdl := Nat.iter k (fit mdl train_dataset) m0.

(** The history entry of a validation check made at epoch number [e]. *)
Definition entry_at (e : nat) : entry :=
  (Z.of_nat e, evaluate mdl valid_dataset (fits e),
   evaluate mdl train_dataset (fits e)).

(** [(epoch + 1) % interval == 0], for the epoch number [e = epoch + 1]. *)
Definition is_check (e : nat) : bool := Z.of_nat e mod interval =? 0.

(** The epoch numbers among [1..n] at which a validation check is made. *)
Definition check_epochs (n : nat) : list nat := filter is_check (seq 1 n).

Definition is_PrintEpoch (e : event) : bool :=
  match e with PrintEpoch _ _ => true | _ => false end.

Definition is_PrintScores (e : event) : bool :=
  match e with PrintScores _ => true | _ => false end.

(** Epochs started and validation checks made, read off the output. *)
Definition epochs_run (st : locals) : nat := List.length (filter is_PrintEpoch (out st)).
Definition checks_run (st : locals) : nat := List.length (filter is_PrintScores (out st)).

Definition epoch_of (e : entry) : Z := fst (fst e).
Definition valid_of (e : entry) : Score := snd (fst e).

(** Checkpoints written, oldest first: directory and model snapshot. *)
Definition checkpoints (st : locals) : list (string * Mdl) :=
  flat_map (fun e => match e with
                     | SaveCheckpoint d m => [(d, m)]
                     | _ => []
                     end) (out st).

(** The bookkeeping as the specification words it, replayed on a score
    history: the best entry under strict improvement, the number of checks
    since it, and the entries at which a checkpoint is due. *)
Record tracker : Type := {
  t_best : option entry;
  t_wait : Z;
  t_saved : list entry
}.

Definition track (t : tracker) (e : entry) : tracker :=
  match t_best t with
  | None => {| t_best := Some e; t_wait := 0; t_saved := t_saved t ++ [e] |}
  | Some b =>
      if score_lt (valid_of e) (valid_of b)
      then {| t_best := Some e; t_wait := 0; t_saved := t_saved t ++ [e] |}
      else {| t_best := t_best t; t_wait := t_wait t + 1; t_saved := t_saved t |}
  end.

Definition replay (h : list entry) : tracker :=
  fold_left track h {| t_best := None; t_wait := 0; t_saved := [] |}.

Definition checkpoint_of (e : entry) : string * Mdl :=
  ("model.ckpt"%string, fits (Z.to_nat (epoch_of e))).

(** The locals agree with the replayed bookkeeping. *)
Record tracked (st : locals) : Prop := {
  tr_score : best_score st = option_map valid_of (t_best (replay (list_scores st)));
  tr_epoch : best_epoch st = option_map epoch_of (t_best (replay (list_scores st)));
  tr_wait : wait st = t_wait (replay (list_scores st));
  tr_saved : checkpoints st = map checkpoint_of (t_saved (replay (list_scores st)))
}.

(** What holds of the locals once [n] epochs have been processed. *)
Record run_inv (n : nat) (st : locals) : Prop := {
  inv_model : model st = fits n;
  inv_scores : list_scores st = map entry_at (check_epochs n);
  inv_epochs : epochs_run st = n;
  inv_checks : checks_run st = List.length (list_scores st);
  inv_tracked : tracked st
}.

(** What a check that improves leaves behind, and what one that does not. *)
Definition improved (st : locals) (epoch : Z) (st' : locals) (fl : flow) : Prop :=
  let m := fit mdl train_dataset (model st) in
  best_score st' = Some (evaluate mdl valid_dataset m) /\
  best_epoch st' = Some (epoch + 1) /\
  wait st' = 0 /\
  checkpoints st' = checkpoints st ++ [("model.ckpt"%string, m)] /\
  fl = Continue.

Definition not_improved (st st' : locals) : Prop :=
  best_score st' = best_score st /\
  best_epoch st' = best_epoch st /\
  wait st' = wait st + 1 /\
  checkpoints st' = checkpoints st.

(** Checks are made every [period] epochs. *)
Definition period : nat := Z.abs_nat interval.

Definition valid_at (e : nat) : Score := evaluate mdl valid_dataset (fits e).

Definition epoch_lines (r : nat) : list event :=
  map (fun e => PrintEpoch (Z.of_nat e) nb_epoch) (seq 1 r).

(** The locals after [r] epochs, none of which reached a check. *)
Definition warmup_state (r : nat) : locals :=
  {| model := fits r; best_score := None; best_epoch := None;
     list_scores := []; wait := 0; out := epoch_lines r |}.

(** The locals right after the first validation check. *)
Definition first_check_state : locals :=
  {| model := fits period; best_score := Some (valid_at period);
     best_epoch := Some (Z.of_nat period);
     list_scores := [entry_at period]; wait := 0;
     out := epoch_lines period ++
            [PrintScores (valid_at period);
             SaveCheckpoint "model.ckpt" (fits period)] |}.

(** The counter is compared with the patience only after it has been
    incremented, so it is at least 1 when the loop stops. *)
Definition checks_to_stop : nat := Z.to_nat (Z.max 1 patience).

Definition never_improves : Prop :=
  forall c : nat, (2 <= c)%nat ->
    score_lt (valid_at (c * period)) (valid_at period) = false.

(** The locals after [c >= 1] checks and [r] further epochs, when no check
    after the first improved. *)
Record stalled_inv (c r : nat) (st : locals) : Prop := {
  si_model : model st = fits (c * period + r);
  si_best : best_score st = Some (valid_at period);
  si_wait : wait st = Z.of_nat c - 1;
  si_scores : List.length (list_scores st) = c;
  si_epochs : epochs_run st = (c * period + r)%nat;
  si_checks : checks_run st = c
}.

(** ** Properties of one epoch *)

Lemma py_mod_nonzero (a b : Z) : b <> 0 -> py_mod a b = Ok (a mod b).
Proof.
  intros Hb. unfold py_mod. destruct (Z.eqb_spec b 0); [contradiction|reflexivity].
Qed.

(** An epoch whose number is not a multiple of the interval only trains. *)
Lemma epoch_body_skip (st : locals) (epoch : Z) :
  interval <> 0 -> (epoch + 1) mod interval <> 0 ->
  epoch_body st epoch =
  Ok ({| model := fit mdl train_dataset (model st);
         best_score := best_score st; best_epoch := best_epoch st;
         list_scores := list_scores st; wait := wait st;
         out := out st ++ [PrintEpoch (epoch + 1) nb_epoch] |}, Continue).
Proof.
  intros Hi Hm. unfold epoch_body. rewrite py_mod_nonzero by assumption.
  cbn. destruct (Z.eqb_spec ((epoch + 1) mod interval) 0); [contradiction|reflexivity].
Qed.

(** A validation check that improves on the best score. *)
Lemma epoch_body_improve (st : locals) (epoch : Z) :
  interval <> 0 -> (epoch + 1) mod interval = 0 ->
  improves (best_score st)
    (evaluate mdl valid_dataset (fit mdl train_dataset (model st))) = true ->
  epoch_body st epoch =
  Ok (let m := fit mdl train_dataset (model st) in
      let v := evaluate mdl valid_dataset m in
      {| model := m; best_score := Some v; best_epoch := Some (epoch + 1);
         list_scores :=
           list_scores st ++ [(epoch + 1, v, evaluate mdl train_dataset m)];
         wait := 0;
         out := out st ++ [PrintEpoch (epoch + 1) nb_epoch; PrintScores v;
                           SaveCheckpoint "model.ckpt" m] |}, Continue).
Proof.
  intros Hi Hm Himp. unfold epoch_body. rewrite py_mod_nonzero by assumption.
  cbn. rewrite Hm. cbn. rewrite Himp. cbn. rewrite <- !app_assoc. reflexivity.
Qed.

(** A validation check that does not improve on the best score. *)
Lemma epoch_body_stall (st : locals) (epoch : Z) :
  interval <> 0 -> (epoch + 1) mod interval = 0 ->
  improves (best_score st)
    (evaluate mdl valid_dataset (fit mdl train_dataset (model st))) = false ->
  epoch_body st epoch =
  let m := fit mdl train_dataset (model st) in
  let v := evaluate mdl valid_dataset m in
  let scores := list_scores st ++ [(epoch + 1, v, evaluate mdl train_dataset m)] in
  if wait st + 1 >=? patience then
    Ok ({| model := m; best_score := best_score st; best_epoch := best_epoch st;
           list_scores := scores; wait := wait st + 1;
           out := out st ++ [PrintEpoch (epoch + 1) nb_epoch; PrintScores v;
                             PrintEarlyStop (epoch + 1)] |}, Break)
  else
    Ok ({| model := m; best_score := best_score st; best_epoch := best_epoch st;
           list_scores := scores; wait := wait st + 1;
           out := out st ++ [PrintEpoch (epoch + 1) nb_epoch; PrintScores v] |},
        Continue).
Proof.
  intros Hi Hm Himp. unfold epoch_body. rewrite py_mod_nonzero by assumption.
  cbn -[Z.geb]. rewrite Hm. cbn -[Z.geb]. rewrite Himp. cbn -[Z.geb].
  destruct (wait st + 1 >=? patience); unfold print; cbn;
    rewrite <- !app_assoc; reflexivity.
Qed.

Lemma range_from_S (k len : nat) :
  range_from k (S len) = Z.of_nat k :: range_from (S k) len.
Proof. reflexivity. Qed.

Lemma check_epochs_S (n : nat) :
  check_epochs (S n) = check_epochs n ++ (if is_check (S n) then [S n] else []).
Proof.
  unfold check_epochs. rewrite seq_S, filter_app. cbn.
  destruct (is_check (S n)); reflexivity.
Qed.

Lemma succ_epoch (k : nat) : Z.of_nat k + 1 = Z.of_nat (S k).
Proof. lia. Qed.

Lemma is_check_true (k : nat) :
  is_check (S k) = true -> (Z.of_nat k + 1) mod interval = 0.
Proof. unfold is_check. rewrite succ_epoch. apply Z.eqb_eq. Qed.

Lemma is_check_false (k : nat) :
  is_check (S k) = false -> (Z.of_nat k + 1) mod interval <> 0.
Proof. unfold is_check. rewrite succ_epoch. apply Z.eqb_neq. Qed.

Lemma replay_snoc (h : list entry) (e : entry) :
  replay (h ++ [e]) = track (replay h) e.
Proof. unfold replay. rewrite fold_left_app. reflexivity. Qed.

Lemma tracked_initial : tracked (initial m0).
Proof. constructor; reflexivity. Qed.

Lemma run_inv_initial : run_inv 0 (initial m0).
Proof. constructor; try reflexivity. apply tracked_initial. Qed.

Ltac count_out :=
  unfold epochs_run, checks_run in *; cbn [out list_scores] in *;
  rewrite ?filter_app, ?length_app, ?length_map in *; cbn in *; lia.

Lemma tracked_skip (st : locals) (m : Mdl) (e n : Z) :
  tracked st ->
  tracked {| model := m; best_score := best_score st;
             best_epoch := best_epoch st; list_scores := list_scores st;
             wait := wait st; out := out st ++ [PrintEpoch e n] |}.
Proof.
  intros [Hs He Hw Hc]. constructor; cbn [best_score best_epoch wait list_scores];
    try assumption.
  unfold checkpoints in *. cbn [out]. rewrite flat_map_app. cbn.
  rewrite app_nil_r. assumption.
Qed.

Lemma tracked_improve (st : locals) (k : nat) (v t : Score) (n : Z) :
  tracked st -> improves (best_score st) v = true ->
  tracked {| model := fits (S k); best_score := Some v;
             best_epoch := Some (Z.of_nat (S k));
             list_scores := list_scores st ++ [(Z.of_nat (S k), v, t)];
             wait := 0;
             out := out st ++ [PrintEpoch (Z.of_nat (S k)) n; PrintScores v;
                               SaveCheckpoint "model.ckpt" (fits (S k))] |}.
Proof.
  intros [Hs He Hw Hc] Himp.
  assert (Ht : track (replay (list_scores st)) (Z.of_nat (S k), v, t) =
               {| t_best := Some (Z.of_nat (S k), v, t); t_wait := 0;
                  t_saved := t_saved (replay (list_scores st)) ++
                             [(Z.of_nat (S k), v, t)] |}).
  { unfold track. destruct (t_best (replay (list_scores st))) as [b|]; [|reflexivity].
    rewrite Hs in Himp. cbn in Himp. cbn [valid_of fst snd]. rewrite Himp.
    reflexivity. }
  constructor; cbn [best_score best_epoch wait list_scores];
    rewrite replay_snoc, Ht; cbn [t_best t_wait t_saved]; try reflexivity.
  unfold checkpoints in *. cbn [out]. rewrite flat_map_app, map_app, Hc.
  cbn [flat_map map app]. unfold checkpoint_of. cbn [epoch_of fst].
  rewrite Nat2Z.id. reflexivity.
Qed.

Lemma tracked_stall (st : locals) (m : Mdl) (e : entry) (evs : list event) :
  tracked st -> improves (best_score st) (valid_of e) = false ->
  checkpoints {| model := m; best_score := None; best_epoch := None;
                 list_scores := []; wait := 0; out := evs |} = [] ->
  tracked {| model := m; best_score := best_score st;
             best_epoch := best_epoch st;
             list_scores := list_scores st ++ [e];
             wait := wait st + 1; out := out st ++ evs |}.
Proof.
  intros [Hs He Hw Hc] Himp Hevs.
  assert (Ht : track (replay (list_scores st)) e =
               {| t_best := t_best (replay (list_scores st));
                  t_wait := t_wait (replay (list_scores st)) + 1;
                  t_saved := t_saved (replay (list_scores st)) |}).
  { unfold track. destruct (t_best (replay (list_scores st))) as [b|].
    - rewrite Hs in Himp. cbn in Himp. rewrite Himp. reflexivity.
    - rewrite Hs in Himp. discriminate. }
  constructor; cbn [best_score best_epoch wait list_scores];
    rewrite replay_snoc, Ht; cbn [t_best t_wait t_saved]; try assumption.
  - rewrite Hw. reflexivity.
  - unfold checkpoints in *. cbn [out] in *. rewrite flat_map_app, Hevs, app_nil_r.
    assumption.
Qed.

(** Processing epoch [k] (epoch number [k + 1]) keeps the invariant, whatever
    branch is taken. *)
Lemma epoch_body_run_inv (k : nat) (st : locals) :
  interval <> 0 -> run_inv k st ->
  exists st' fl,
    epoch_body st (Z.of_nat k) = Ok (st', fl) /\ run_inv (S k) st' /\
    (fl = Break -> exists o, out st' = o ++ [PrintEarlyStop (Z.of_nat (S k))]).
Proof.
  intros Hi [Hm Hs He Hc Ht].
  assert (Hfit : fit mdl train_dataset (model st) = fits (S k))
    by (rewrite Hm; reflexivity).
  destruct (is_check (S k)) eqn:Hchk.
  - apply is_check_true in Hchk as Hmod.
    assert (Hsc : forall v t,
               list_scores st ++ [(Z.of_nat (S k), v, t)] =
               map entry_at (check_epochs k) ++ [(Z.of_nat (S k), v, t)])
      by (intros; rewrite Hs; reflexivity).
    destruct (improves (best_score st)
                (evaluate mdl valid_dataset (fit mdl train_dataset (model st))))
      eqn:Himp.
    + rewrite epoch_body_improve by assumption. cbv zeta.
      rewrite Hfit, succ_epoch in *.
      eexists _, _. split; [reflexivity|]. split; [|discriminate].
      constructor; cbn [model list_scores].
      * reflexivity.
      * rewrite check_epochs_S, Hchk, map_app, Hs. reflexivity.
      * count_out.
      * count_out.
      * apply tracked_improve; assumption.
    + rewrite epoch_body_stall by assumption. cbv zeta.
      rewrite Hfit, succ_epoch in *.
      destruct (wait st + 1 >=? patience).
      * eexists _, _. split; [reflexivity|]. split.
        -- constructor; cbn [model list_scores].
           ++ reflexivity.
           ++ rewrite check_epochs_S, Hchk, map_app, Hs. reflexivity.
           ++ count_out.
           ++ count_out.
           ++ apply tracked_stall; [assumption|assumption|reflexivity].
        -- intros _. cbn [out].
           exists (out st ++ [PrintEpoch (Z.of_nat (S k)) nb_epoch;
                              PrintScores (evaluate mdl valid_dataset (fits (S k)))]).
           rewrite <- app_assoc. reflexivity.
      * eexists _, _. split; [reflexivity|]. split; [|discriminate].
        constructor; cbn [model list_scores].
        -- reflexivity.
        -- rewrite check_epochs_S, Hchk, map_app, Hs. reflexivity.
        -- count_out.
        -- count_out.
        -- apply tracked_stall; [assumption|assumption|reflexivity].
  - apply is_check_false in Hchk as Hmod.
    rewrite epoch_body_skip by assumption. rewrite Hfit, succ_epoch.
    eexists _, _. split; [reflexivity|]. split; [|discriminate].
    constructor; cbn [model list_scores].
    + reflexivity.
    + rewrite check_epochs_S, Hchk, app_nil_r. assumption.
    + count_out.
    + count_out.
    + apply tracked_skip. assumption.
Qed.

(** The loop from epoch [k] on: it returns, after some [n] epochs in all,
    by exhaustion or by an early stop reported for epoch [n]. *)
Lemma for_epochs_run_inv (len : nat) :
  interval <> 0 ->
  forall (k : nat) (st : locals),
    run_inv k st ->
    exists st' fl n,
      for_epochs (range_from k len) st = Ok (st', fl) /\ run_inv n st' /\
      (k <= n <= k + len)%nat /\
      (fl = Continue -> n = (k + len)%nat) /\
      (fl = Break ->
       (k < n)%nat /\ exists o, out st' = o ++ [PrintEarlyStop (Z.of_nat n)]).
Proof.
  intros Hi. induction len as [|len IH]; intros k st Hinv.
  - exists st, Continue, k. cbn.
    split; [reflexivity|]. split; [assumption|]. split; [lia|].
    split; [intros _; lia | discriminate].
  - rewrite range_from_S. cbn [for_epochs].
    destruct (epoch_body_run_inv k st Hi Hinv) as (st1 & fl1 & Hstep & Hinv1 & Hbrk).
    rewrite Hstep. destruct fl1.
    + destruct (IH (S k) st1 Hinv1) as (st' & fl & n & Hrun & Hinv' & Hn & Hc & Hb).
      exists st', fl, n.
      split; [assumption|]. split; [assumption|]. split; [lia|].
      split.
      * intros E. specialize (Hc E). lia.
      * intros E. destruct (Hb E) as [Hlt Ho]. split; [lia | assumption].
    + exists st1, Break, (S k).
      split; [reflexivity|]. split; [assumption|]. split; [lia|].
      split; [discriminate|].
      intros _. split; [lia|]. apply Hbrk. reflexivity.
Qed.

Lemma for_epochs_app (l1 l2 : list Z) (st : locals) :
  for_epochs (l1 ++ l2) st =
  match for_epochs l1 st with
  | Ok (st', Continue) => for_epochs l2 st'
  | r => r
  end.
Proof.
  revert st. induction l1 as [|e l1 IH]; intros st; cbn; [reflexivity|].
  destruct (epoch_body st e) as [[st' []]|]; [apply IH|reflexivity|reflexivity].
Qed.

Lemma range_from_app (k n m : nat) :
  range_from k (n + m) = range_from k n ++ range_from (k + n) m.
Proof. unfold range_from. rewrite seq_app, map_app. reflexivity. Qed.

(** Checks fall exactly on the multiples of [|interval|]. *)
Lemma is_check_decomp (c r : nat) :
  interval <> 0 -> (r < Z.abs_nat interval)%nat ->
  is_check (c * Z.abs_nat interval + r) = (r =? 0)%nat.
Proof.
  intros Hi Hr. unfold is_check.
  assert (Ha : Z.of_nat (Z.abs_nat interval) = Z.abs interval) by lia.
  rewrite Nat2Z.inj_add, Nat2Z.inj_mul, Ha.
  destruct (Nat.eqb_spec r 0) as [->|Hr0].
  - apply Z.eqb_eq. apply Z.mod_divide; [assumption|].
    cbn. rewrite Z.add_0_r. apply Z.divide_mul_r. apply Z.divide_abs_r.
    apply Z.divide_refl.
  - apply Z.eqb_neq. intros Hm. apply Z.mod_divide in Hm; [|assumption].
    assert (Hd : (interval | Z.of_nat r)).
    { apply (Z.divide_add_cancel_r _ (Z.of_nat c * Z.abs interval)); [|assumption].
      apply Z.divide_mul_r. apply Z.divide_abs_r. apply Z.divide_refl. }
    apply Z.divide_abs_l in Hd.
    apply Z.divide_pos_le in Hd; lia.
Qed.

Lemma seq_sorted (n a : nat) : StronglySorted lt (seq a n).
Proof.
  revert a. induction n as [|n IH]; intros a; cbn; constructor.
  - apply IH.
  - apply Forall_forall. intros x Hx. apply in_seq in Hx. lia.
Qed.

Lemma filter_sorted {A : Type} (R : A -> A -> Prop) (f : A -> bool) (l : list A) :
  StronglySorted R l -> StronglySorted R (filter f l).
Proof.
  induction 1 as [|x l Hs IH Hx]; cbn; [constructor|].
  destruct (f x); [|assumption].
  constructor; [assumption|].
  apply Forall_forall. intros y Hy. apply filter_In in Hy.
  rewrite Forall_forall in Hx. apply Hx. tauto.
Qed.

Lemma of_nat_sorted (l : list nat) :
  StronglySorted lt l -> StronglySorted Z.lt (map Z.of_nat l).
Proof.
  induction 1 as [|x l Hs IH Hx]; cbn; constructor; [assumption|].
  apply Forall_forall. intros y Hy. apply in_map_iff in Hy as (n & <- & Hn).
  rewrite Forall_forall in Hx. specialize (Hx n Hn). lia.
Qed.

Lemma app_assoc_cons_tail {A : Type} (l : list A) (x y z : A) :
  l ++ [x; y; z] = (l ++ [x; y]) ++ [z].
Proof. rewrite <- app_assoc. reflexivity. Qed.

Lemma epochs_of_entries (l : list nat) :
  map epoch_of (map entry_at l) = map Z.of_nat l.
Proof. rewrite map_map. reflexivity. Qed.

Lemma history_epochs_sorted (n : nat) :
  StronglySorted Z.lt (map epoch_of (map entry_at (check_epochs n))).
Proof.
  rewrite epochs_of_entries. apply of_nat_sorted, filter_sorted, seq_sorted.
Qed.

Lemma in_check_epochs (n e : nat) :
  interval <> 0 ->
  In e (check_epochs n) <-> (1 <= e <= n)%nat /\ (interval | Z.of_nat e).
Proof.
  intros Hi. unfold check_epochs, is_check.
  rewrite filter_In, in_seq, Z.eqb_eq, (Z.mod_divide _ _ Hi). split.
  - intros [H1 H2]. split; [lia|assumption].
  - intros [H1 H2]. split; [lia|assumption].
Qed.

Lemma tracked_print (st : locals) (e : event) :
  (forall d m, e <> SaveCheckpoint d m) -> tracked st -> tracked (print e st).
Proof.
  intros Hne [Hs He Hw Hc]. constructor; cbn [print best_score best_epoch wait list_scores];
    try assumption.
  unfold checkpoints in *. cbn [print out]. rewrite flat_map_app, <- Hc.
  destruct e; cbn; try apply app_nil_r. exfalso. eapply Hne. reflexivity.
Qed.

(** The whole call returns whenever the interval is not zero, and the loop
    invariant holds of what it returns. *)
Lemma fit_best_model_run_inv :
  interval <> 0 ->
  exists st fl n,
    fit_best_model_run m0 = Ok (st, fl) /\ run_inv n st /\
    (n <= Z.to_nat nb_epoch)%nat /\
    (fl = Continue -> n = Z.to_nat nb_epoch) /\
    (fl = Break -> In (PrintEarlyStop (Z.of_nat n)) (out st)).
Proof.
  intros Hi.
  destruct (for_epochs_run_inv (Z.to_nat nb_epoch) Hi 0 (initial m0) run_inv_initial)
    as (st & fl & n & Hrun & [Hm Hs He Hc Ht] & Hn & Hcont & Hbrk).
  exists (print (PrintBest (best_epoch st) (best_score st)) st), fl, n.
  split; [|split; [|split; [|split]]].
  - unfold fit_best_model_run, range. rewrite Hrun. reflexivity.
  - constructor; cbn [print model list_scores]; try assumption.
    + unfold epochs_run in *. cbn [print out]. rewrite filter_app, length_app. cbn. lia.
    + unfold checks_run in *. cbn [print out]. rewrite filter_app, length_app. cbn. lia.
    + apply tracked_print; [discriminate|assumption].
  - lia.
  - intros E. specialize (Hcont E). lia.
  - intros E. destruct (Hbrk E) as [_ [o Ho]]. cbn [print out]. rewrite Ho.
    apply in_or_app. left. apply in_or_app. right. left. reflexivity.
Qed.

(** C7. Whenever the interval is not zero, [fit_best_model] returns its
    score history, whether the loop was left by the early stop ([Break]) or
    by exhausting [range(nb_epoch)] ([Continue]).  With [n] the number of
    epochs processed, the history holds one (epoch, validation score,
    training score) triple per validation check, in order, for exactly the
    epoch numbers [1..n] that the interval divides, each with the scores the
    model had after that many calls of [fit]; the epoch numbers increase
    strictly. *)
Theorem history_one_entry_per_check :
  interval <> 0 ->
  exists st fl n,
    fit_best_model_run m0 = Ok (st, fl) /\
    fit_best_model m0 = Ok (list_scores st) /\
    epochs_run st = n /\
    (n <= Z.to_nat nb_epoch)%nat /\
    (fl = Continue -> n = Z.to_nat nb_epoch) /\
    (fl = Break -> In (PrintEarlyStop (Z.of_nat n)) (out st)) /\
    list_scores st = map entry_at (check_epochs n) /\
    (forall e, In e (check_epochs n) <->
               (1 <= e <= n)%nat /\ (interval | Z.of_nat e)) /\
    checks_run st = List.length (list_scores st) /\
    StronglySorted Z.lt (map epoch_of (list_scores st)).
Proof.
  intros Hi.
  destruct (fit_best_model_run_inv Hi)
    as (st & fl & n & Hrun & [Hm Hs He Hc Ht] & Hn & Hcont & Hbrk).
  exists st, fl, n.
  split; [assumption|]. split; [unfold fit_best_model; rewrite Hrun; reflexivity|].
  split; [assumption|]. split; [assumption|]. split; [assumption|].
  split; [assumption|]. split; [assumption|].
  split; [intros e; apply in_check_epochs; assumption|].
  split; [assumption|].
  rewrite Hs. apply history_epochs_sorted.
Qed.

Lemma check_improved (st : locals) (epoch : Z) :
  interval <> 0 -> (epoch + 1) mod interval = 0 ->
  improves (best_score st)
    (evaluate mdl valid_dataset (fit mdl train_dataset (model st))) = true ->
  exists st' fl, epoch_body st epoch = Ok (st', fl) /\ improved st epoch st' fl.
Proof.
  intros Hi Hm Himp. rewrite epoch_body_improve by assumption. cbv zeta.
  eexists _, _. split; [reflexivity|].
  unfold improved, checkpoints. cbn [best_score best_epoch wait out].
  rewrite flat_map_app. cbn. repeat split; reflexivity.
Qed.

Lemma check_not_improved (st : locals) (epoch : Z) :
  interval <> 0 -> (epoch + 1) mod interval = 0 ->
  improves (best_score st)
    (evaluate mdl valid_dataset (fit mdl train_dataset (model st))) = false ->
  exists st' fl,
    epoch_body st epoch = Ok (st', fl) /\ not_improved st st' /\
    fl = (if wait st + 1 >=? patience then Break else Continue).
Proof.
  intros Hi Hm Himp. rewrite epoch_body_stall by assumption. cbv zeta.
  destruct (wait st + 1 >=? patience); eexists _, _;
    (split; [reflexivity|]); (split; [|reflexivity]);
    unfold not_improved, checkpoints; cbn [best_score best_epoch wait out];
    rewrite flat_map_app; cbn; rewrite app_nil_r; repeat split; reflexivity.
Qed.

(** C2. At every validation check the new validation score [v] is compared
    with the best score so far by strict less-than.  When there is no best
    score yet, or [v < best], the check is an improvement: best score and
    best epoch become [v] and the current epoch number, one checkpoint of
    the current model is written to "model.ckpt", the counter is reset to 0
    and the loop goes on.  Otherwise (in particular when [v] ties with the
    best score) best score and epoch stay, no checkpoint is written and the
    counter grows by one.  Over a whole run this makes the best score, best
    epoch, counter and checkpoints those of the bookkeeping replayed on the
    returned history. *)
Theorem improvement_by_strict_less_than :
  interval <> 0 ->
  (forall (st : locals) (epoch : Z),
      (epoch + 1) mod interval = 0 ->
      let v := evaluate mdl valid_dataset (fit mdl train_dataset (model st)) in
      exists st' fl,
        epoch_body st epoch = Ok (st', fl) /\
        match best_score st with
        | None => improved st epoch st' fl
        | Some b =>
            if score_lt v b then improved st epoch st' fl
            else not_improved st st'
        end /\
        (best_score st = Some v -> not_improved st st')) /\
  (exists st fl, fit_best_model_run m0 = Ok (st, fl) /\ tracked st).
Proof.
  intros Hi. split.
  - intros st epoch Hm v.
    destruct (improves (best_score st) v) eqn:Himp.
    + destruct (check_improved st epoch Hi Hm Himp) as (st' & fl & Hrun & Himpd).
      exists st', fl. split; [assumption|]. split.
      * destruct (best_score st) as [b|]; [|assumption].
        cbn in Himp. rewrite Himp. assumption.
      * intros Hb. rewrite Hb in Himp. cbn in Himp.
        rewrite score_lt_irrefl in Himp. discriminate.
    + destruct (check_not_improved st epoch Hi Hm Himp) as (st' & fl & Hrun & Hni & _).
      exists st', fl. split; [assumption|]. split.
      * destruct (best_score st) as [b|]; [|discriminate].
        cbn in Himp. rewrite Himp. assumption.
      * intros _. assumption.
  - destruct (fit_best_model_run_inv Hi) as (st & fl & n & Hrun & [_ _ _ _ Ht] & _).
    exists st, fl. split; assumption.
Qed.

Lemma period_pos : interval <> 0 -> (0 < period)%nat.
Proof. unfold period. lia. Qed.

Lemma epoch_lines_S (r : nat) :
  epoch_lines (S r) = epoch_lines r ++ [PrintEpoch (Z.of_nat (S r)) nb_epoch].
Proof. unfold epoch_lines. rewrite seq_S, map_app. reflexivity. Qed.

Lemma range_from_snoc (r : nat) :
  range_from 0 (S r) = range_from 0 r ++ [Z.of_nat r].
Proof. unfold range_from. rewrite seq_S, map_app. reflexivity. Qed.

Lemma warmup (r : nat) :
  interval <> 0 -> (r < period)%nat ->
  for_epochs (range_from 0 r) (initial m0) = Ok (warmup_state r, Continue).
Proof.
  intros Hi. induction r as [|r IH]; intros Hr; [reflexivity|].
  rewrite range_from_snoc, for_epochs_app, IH by lia. cbn [for_epochs].
  rewrite epoch_body_skip.
  - cbn [warmup_state model best_score best_epoch list_scores wait out].
    rewrite succ_epoch, <- epoch_lines_S. reflexivity.
  - assumption.
  - apply is_check_false.
    change (S r) with (0 * Z.abs_nat interval + S r)%nat.
    apply is_check_decomp; assumption.
Qed.

Lemma first_check :
  interval <> 0 ->
  for_epochs (range_from 0 period) (initial m0) = Ok (first_check_state, Continue).
Proof.
  intros Hi. pose proof (period_pos Hi) as Hp.
  unfold first_check_state.
  destruct period as [|r] eqn:Hper; [lia|].
  rewrite range_from_snoc, for_epochs_app, warmup by (assumption || lia).
  cbn [for_epochs]. rewrite epoch_body_improve.
  - cbn [warmup_state model best_score best_epoch list_scores wait out app].
    rewrite succ_epoch, epoch_lines_S, <- app_assoc. reflexivity.
  - assumption.
  - apply is_check_true.
    replace (S r) with (1 * Z.abs_nat interval + 0)%nat by (unfold period in Hper; lia).
    apply is_check_decomp; [assumption|lia].
  - reflexivity.
Qed.

(** Once the first check is passed the loop goes on from its state. *)
Lemma loop_after_first_check :
  interval <> 0 -> (period <= Z.to_nat nb_epoch)%nat ->
  for_epochs (range nb_epoch) (initial m0) =
    for_epochs (range_from period (Z.to_nat nb_epoch - period)) first_check_state.
Proof.
  intros Hi Hn. unfold range.
  replace (Z.to_nat nb_epoch) with (period + (Z.to_nat nb_epoch - period))%nat at 1
    by lia.
  rewrite range_from_app, for_epochs_app, (first_check Hi). reflexivity.
Qed.

(** C10. In a run that reaches a validation check (the interval is not zero
    and [range(nb_epoch)] holds at least [|interval|] epochs), the first
    check, at epoch number [|interval|], is an improvement whatever the
    score is: it leaves that score as best score, its epoch as best epoch,
    the counter at 0 and a checkpoint of the current model in "model.ckpt"
    as the last thing written, and the loop goes on with the epochs that
    remain.  This holds for every patience, so the early stop is never
    triggered by the first check. *)
Theorem first_check_improves :
  interval <> 0 -> (period <= Z.to_nat nb_epoch)%nat ->
  for_epochs (range_from 0 period) (initial m0) = Ok (first_check_state, Continue) /\
  for_epochs (range nb_epoch) (initial m0) =
    for_epochs (range_from period (Z.to_nat nb_epoch - period)) first_check_state /\
  list_scores first_check_state = [entry_at period] /\
  best_score first_check_state = Some (valid_at period) /\
  best_epoch first_check_state = Some (Z.of_nat period) /\
  wait first_check_state = 0 /\
  checkpoints first_check_state = [("model.ckpt"%string, fits period)] /\
  (forall e, ~ In (PrintEarlyStop e) (out first_check_state)).
Proof.
  intros Hi Hn. pose proof (first_check Hi) as Hfc.
  split; [assumption|]. split.
  - unfold range.
    replace (Z.to_nat nb_epoch) with (period + (Z.to_nat nb_epoch - period))%nat at 1
      by lia.
    rewrite range_from_app, for_epochs_app, Hfc. reflexivity.
  - repeat split.
    + unfold checkpoints, first_check_state. cbn [out]. rewrite flat_map_app.
      replace (flat_map _ (epoch_lines period)) with (@nil (string * Mdl)).
      * reflexivity.
      * symmetry. unfold epoch_lines. induction (seq 1 period); [reflexivity|].
        cbn. assumption.
    + intros e He. unfold first_check_state in He. cbn [out] in He.
      apply in_app_or in He as [He|He].
      * unfold epoch_lines in He. apply in_map_iff in He as (x & Hx & _). discriminate.
      * cbn in He. destruct He as [He|[He|[]]]; discriminate.
Qed.

Lemma stalled_first_check : interval <> 0 -> stalled_inv 1 0 first_check_state.
Proof.
  intros Hi. constructor; cbn [first_check_state model best_score wait list_scores];
    try reflexivity.
  - f_equal. lia.
  - unfold epochs_run, first_check_state, epoch_lines. cbn [out].
    rewrite filter_app, length_app. cbn.
    replace (filter is_PrintEpoch _) with
      (map (fun e => PrintEpoch (Z.of_nat e) nb_epoch) (seq 1 period)).
    + rewrite length_map, length_seq. lia.
    + symmetry. induction (seq 1 period) as [|x l IH]; [reflexivity|].
      cbn. rewrite IH. reflexivity.
  - unfold checks_run, first_check_state, epoch_lines. cbn [out].
    rewrite filter_app, length_app. cbn.
    replace (filter is_PrintScores _) with (@nil event); [reflexivity|].
    symmetry. induction (seq 1 period) as [|x l IH]; [reflexivity|].
    cbn. assumption.
Qed.

Lemma stalled_run (len : nat) :
  interval <> 0 -> never_improves ->
  forall (c r : nat) (st : locals),
    (1 <= c <= checks_to_stop)%nat -> (r < period)%nat ->
    stalled_inv c r st ->
    ((1 + checks_to_stop) * period <= c * period + r + len)%nat ->
    exists st',
      for_epochs (range_from (c * period + r) len) st = Ok (st', Break) /\
      List.length (list_scores st') = (1 + checks_to_stop)%nat /\
      epochs_run st' = ((1 + checks_to_stop) * period)%nat /\
      checks_run st' = (1 + checks_to_stop)%nat /\
      wait st' = Z.of_nat checks_to_stop /\
      exists o,
        out st' = o ++ [PrintEarlyStop (Z.of_nat ((1 + checks_to_stop) * period))].
Proof.
  intros Hi Hnever. pose proof (period_pos Hi) as Hp.
  induction len as [|len IH]; intros c r st Hc Hr [Hm Hb Hw Hs He Hk] Hlen.
  - exfalso.
    assert (c * period <= checks_to_stop * period)%nat
      by (apply Nat.mul_le_mono_r; lia).
    lia.
  - rewrite range_from_S. cbn [for_epochs].
    assert (Hfit : fit mdl train_dataset (model st) = fits (S (c * period + r)))
      by (rewrite Hm; reflexivity).
    destruct (Nat.eq_dec (S r) period) as [Hlast|Hmid].
    + (* epoch number (c + 1) * period: a check, and no improvement *)
      assert (Hnext : S (c * period + r) = (S c * period)%nat) by lia.
      rewrite epoch_body_stall.
      * cbv zeta. rewrite Hfit, succ_epoch, Hnext.
        destruct (wait st + 1 >=? patience) eqn:Hge.
        -- assert (Hceq : c = checks_to_stop).
           { apply Z.geb_le in Hge. unfold checks_to_stop in *. lia. }
           rewrite <- Hceq. eexists. split; [reflexivity|].
           cbn [list_scores wait out].
           split; [rewrite length_app, Hs; cbn; lia|].
           split; [count_out|]. split; [count_out|]. split; [lia|].
           eexists. rewrite app_assoc_cons_tail. reflexivity.
        -- assert (c < checks_to_stop)%nat.
           { rewrite Z.geb_leb in Hge. apply Z.leb_gt in Hge.
             unfold checks_to_stop in *. lia. }
           replace (S c * period)%nat with (S c * period + 0)%nat by lia.
           apply IH; try lia.
           constructor; cbn [model best_score wait list_scores].
           ++ reflexivity.
           ++ assumption.
           ++ lia.
           ++ rewrite length_app, Hs. cbn. lia.
           ++ count_out.
           ++ count_out.
      * assumption.
      * apply is_check_true.
        replace (S (c * period + r)) with (S c * Z.abs_nat interval + 0)%nat
          by (unfold period in *; lia).
        apply is_check_decomp; [assumption|unfold period in *; lia].
      * rewrite Hfit, Hnext, Hb. apply Hnever. lia.
    + (* an epoch between two checks *)
      rewrite epoch_body_skip.
      * rewrite Hfit, succ_epoch.
        replace (S (c * period + r)) with (c * period + S r)%nat by lia.
        apply IH; try lia.
        constructor; cbn [model best_score wait list_scores]; try assumption.
        -- reflexivity.
        -- count_out.
        -- count_out.
      * assumption.
      * apply is_check_false.
        replace (S (c * period + r)) with (c * Z.abs_nat interval + S r)%nat
          by (unfold period in *; lia).
        apply is_check_decomp; [assumption|unfold period in *; lia].
Qed.

(** C3 (amended). A validation check that does not improve increments the
    counter, and the loop is left at once, whatever epochs remain, exactly
    when the incremented counter is at least the patience.  Hence, when the
    validation score never improves after the first check and
    [range(nb_epoch)] is long enough, the run stops early after exactly
    [max(1, patience)] checks beyond the first: [patience] of them whenever
    [patience >= 1]. *)
Theorem early_stop_after_patience_checks :
  interval <> 0 ->
  (forall (st : locals) (epoch : Z) (rest : list Z),
      (epoch + 1) mod interval = 0 ->
      improves (best_score st)
        (evaluate mdl valid_dataset (fit mdl train_dataset (model st))) = false ->
      exists st' fl,
        epoch_body st epoch = Ok (st', fl) /\
        wait st' = wait st + 1 /\
        (fl = Break <-> patience <= wait st + 1) /\
        (fl = Break -> for_epochs (epoch :: rest) st = Ok (st', Break))) /\
  (1 <= patience -> Z.of_nat checks_to_stop = patience) /\
  (((1 + checks_to_stop) * period <= Z.to_nat nb_epoch)%nat ->
   never_improves ->
   exists st,
     fit_best_model_run m0 = Ok (st, Break) /\
     fit_best_model m0 = Ok (list_scores st) /\
     List.length (list_scores st) = (1 + checks_to_stop)%nat /\
     checks_run st = (1 + checks_to_stop)%nat /\
     epochs_run st = ((1 + checks_to_stop) * period)%nat /\
     wait st = Z.of_nat checks_to_stop /\
     In (PrintEarlyStop (Z.of_nat ((1 + checks_to_stop) * period))) (out st)).
Proof.
  intros Hi. split; [|split].
  - intros st epoch rest Hm Himp.
    destruct (check_not_improved st epoch Hi Hm Himp) as (st' & fl & Hrun & Hni & Hfl).
    exists st', fl. split; [assumption|].
    split; [apply Hni|]. split.
    + rewrite Hfl. destruct (wait st + 1 >=? patience) eqn:Hge.
      * apply Z.geb_le in Hge. tauto.
      * rewrite Z.geb_leb in Hge. apply Z.leb_gt in Hge.
        split; [discriminate|lia].
    + intros ->. cbn [for_epochs]. rewrite Hrun. reflexivity.
  - unfold checks_to_stop. lia.
  - intros Hlen Hnever. pose proof (period_pos Hi) as Hp.
    assert (Hper : (period <= Z.to_nat nb_epoch)%nat) by lia.
    pose proof (loop_after_first_check Hi Hper) as Hsplit.
    destruct (stalled_run (Z.to_nat nb_epoch - period) Hi Hnever 1 0 first_check_state)
      as (st & Hrun & Hs & He & Hk & Hw & o & Ho).
    + unfold checks_to_stop. lia.
    + assumption.
    + apply stalled_first_check. assumption.
    + lia.
    + replace (1 * period + 0)%nat with period in Hrun by lia.
      exists (print (PrintBest (best_epoch st) (best_score st)) st).
      split; [unfold fit_best_model_run; rewrite Hsplit, Hrun; reflexivity|].
      split; [unfold fit_best_model, fit_best_model_run; rewrite Hsplit, Hrun;
              reflexivity|].
      cbn [print list_scores wait out].
      split; [assumption|].
      split; [unfold checks_run in *; cbn [print out];
              rewrite filter_app, length_app; cbn; lia|].
      split; [unfold epochs_run in *; cbn [print out];
              rewrite filter_app, length_app; cbn; lia|].
      split; [assumption|].
      rewrite Ho. apply in_or_app. left. apply in_or_app. right. left. reflexivity.
Qed.

(** ** Further properties of whole runs *)

(** The checks made in [n] epochs are those of the epochs [period],
    [2 * period], ..., one per full period. *)
Lemma check_epochs_closed (n : nat) :
  interval <> 0 ->
  check_epochs n = map (fun i => (S i * period)%nat) (seq 0 (n / period)).
Proof.
  intros Hi. pose proof (period_pos Hi) as Hp.
  induction n as [|n IH].
  - rewrite Nat.Div0.div_0_l. reflexivity.
  - rewrite check_epochs_S, IH.
    pose proof (Nat.div_mod_eq (S n) period) as Hdm.
    pose proof (Nat.mod_upper_bound (S n) period ltac:(lia)) as Hr.
    set (q := (S n / period)%nat) in *. set (r := (S n mod period)%nat) in *.
    assert (Hchk : is_check (S n) = (r =? 0)%nat).
    { replace (S n) with (q * Z.abs_nat interval + r)%nat
        by (unfold period in *; lia).
      apply is_check_decomp; [assumption|exact Hr]. }
    rewrite Hchk. destruct (Nat.eqb_spec r 0) as [Hr0|Hr0].
    + assert (Hq : (1 <= q)%nat) by nia.
      assert (Hn : (n / period = q - 1)%nat).
      { symmetry. apply (Nat.div_unique n period (q - 1) (period - 1)); nia. }
      rewrite Hn. replace q with (S (q - 1)) at 2 by lia.
      rewrite seq_S, map_app. cbn [map Nat.add]. do 3 f_equal. nia.
    + assert (Hn : (n / period = q)%nat).
      { symmetry. apply (Nat.div_unique n period q (r - 1)); lia. }
      rewrite Hn, app_nil_r. reflexivity.
Qed.

(** The loop never goes on with a counter that has reached the patience:
    going on, the counter is 0 or below the patience. *)
Definition waiting (st : locals) : Prop :=
  0 <= wait st /\ (wait st = 0 \/ wait st < patience).

Lemma epoch_body_waiting (k : nat) (st : locals) :
  interval <> 0 -> run_inv k st -> waiting st ->
  exists st' fl,
    epoch_body st (Z.of_nat k) = Ok (st', fl) /\ run_inv (S k) st' /\
    (fl = Continue -> waiting st') /\
    (fl = Break -> is_check (S k) = true /\ wait st' = Z.max 1 patience).
Proof.
  intros Hi Hinv [Hw0 Hw].
  destruct (epoch_body_run_inv k st Hi Hinv) as (st' & fl & Hstep & Hinv' & _).
  exists st', fl. split; [exact Hstep|]. split; [exact Hinv'|].
  destruct (is_check (S k)) eqn:Hchk.
  - apply is_check_true in Hchk as Hmod.
    destruct (improves (best_score st)
                (evaluate mdl valid_dataset (fit mdl train_dataset (model st))))
      eqn:Himp.
    + rewrite epoch_body_improve in Hstep by assumption. cbv zeta in Hstep.
      injection Hstep as <- <-. split; [|discriminate].
      intros _. unfold waiting. cbn [wait]. lia.
    + rewrite epoch_body_stall in Hstep by assumption. cbv zeta in Hstep.
      destruct (wait st + 1 >=? patience) eqn:Hge; injection Hstep as <- <-.
      * apply Z.geb_le in Hge. split; [discriminate|].
        intros _. split; [reflexivity|]. cbn [wait]. lia.
      * rewrite Z.geb_leb in Hge. apply Z.leb_gt in Hge. split; [|discriminate].
        intros _. unfold waiting. cbn [wait]. lia.
  - apply is_check_false in Hchk as Hmod.
    rewrite epoch_body_skip in Hstep by assumption.
    injection Hstep as <- <-. split; [|discriminate].
    intros _. unfold waiting. cbn [wait]. lia.
Qed.

Lemma for_epochs_waiting (len : nat) :
  interval <> 0 ->
  forall (k : nat) (st : locals),
    run_inv k st -> waiting st ->
    exists st' fl n,
      for_epochs (range_from k len) st = Ok (st', fl) /\ run_inv n st' /\
      (n <= k + len)%nat /\
      (fl = Continue -> n = (k + len)%nat /\ waiting st') /\
      (fl = Break -> is_check n = true /\ wait st' = Z.max 1 patience).
Proof.
  intros Hi. induction len as [|len IH]; intros k st Hinv Hw.
  - exists st, Continue, k. cbn.
    split; [reflexivity|]. split; [assumption|]. split; [lia|].
    split; [intros _; split; [lia|assumption] | discriminate].
  - rewrite range_from_S. cbn [for_epochs].
    destruct (epoch_body_waiting k st Hi Hinv Hw)
      as (st1 & fl1 & Hstep & Hinv1 & Hc1 & Hb1).
    rewrite Hstep. destruct fl1.
    + destruct (IH (S k) st1 Hinv1 (Hc1 eq_refl))
        as (st' & fl & n & Hrun & Hinv' & Hn & Hc & Hb).
      exists st', fl, n.
      split; [assumption|]. split; [assumption|]. split; [lia|].
      split; [|assumption].
      intros E. destruct (Hc E) as [Hk Hw']. split; [lia|assumption].
    + exists st1, Break, (S k).
      split; [reflexivity|]. split; [assumption|]. split; [lia|].
      split; [discriminate|]. intros _. apply Hb1. reflexivity.
Qed.

(** A whole call seen through its loop. *)
Lemma fit_best_model_run_loop (st : locals) (fl : flow) :
  fit_best_model_run m0 = Ok (st, fl) ->
  exists st0,
    for_epochs (range nb_epoch) (initial m0) = Ok (st0, fl) /\
    st = print (PrintBest (best_epoch st0) (best_score st0)) st0.
Proof.
  unfold fit_best_model_run.
  destruct (for_epochs (range nb_epoch) (initial m0)) as [[st0 fl0]|e]; cbn.
  - intros H. injection H as <- <-. exists st0. split; reflexivity.
  - discriminate.
Qed.

Lemma waiting_initial : waiting (initial m0).
Proof. unfold waiting. cbn. lia. Qed.

(** The locals a call returns satisfy the loop invariant for the number of
    epochs it ran; after an early stop that number is a check epoch and the
    counter is [max(1, patience)]. *)
Lemma fit_best_model_run_facts (st : locals) (fl : flow) :
  interval <> 0 ->
  fit_best_model_run m0 = Ok (st, fl) ->
  run_inv (epochs_run st) st /\
  (epochs_run st <= Z.to_nat nb_epoch)%nat /\
  (fl = Continue -> epochs_run st = Z.to_nat nb_epoch) /\
  (fl = Break ->
   is_check (epochs_run st) = true /\ wait st = Z.max 1 patience).
Proof.
  intros Hi Hrun.
  apply fit_best_model_run_loop in Hrun as (st0 & Hloop & ->).
  destruct (for_epochs_waiting (Z.to_nat nb_epoch) Hi 0 (initial m0)
              run_inv_initial waiting_initial)
    as (st' & fl' & n & Hloop' & Hinv & Hn & Hc & Hb).
  unfold range in Hloop. rewrite Hloop in Hloop'. injection Hloop' as <- <-.
  assert (He : epochs_run (print (PrintBest (best_epoch st0) (best_score st0)) st0) = n).
  { destruct Hinv as [_ _ He _ _]. unfold epochs_run in *. cbn [print out].
    rewrite filter_app, length_app. cbn. lia. }
  rewrite He. destruct Hinv as [Hm Hs He0 Hc0 Ht].
  split; [|split; [lia|split]].
  - constructor; cbn [print model list_scores]; try assumption.
    + unfold checks_run in *. cbn [print out]. rewrite filter_app, length_app.
      cbn. lia.
    + apply tracked_print; [discriminate|assumption].
  - intros E. destruct (Hc E) as [Hk _]. lia.
  - intros E. exact (Hb E).
Qed.

(** *** The bookkeeping replayed on a history *)

Lemma replay_best_None (h : list entry) :
  t_best (replay h) = None -> h = [].
Proof.
  induction h as [|e h _] using rev_ind; [reflexivity|].
  rewrite replay_snoc. unfold track.
  destruct (t_best (replay h)) as [b|]; [|discriminate].
  destruct (score_lt (valid_of e) (valid_of b)); cbn; discriminate.
Qed.

(** The best entry is the one [t_wait] places before the last. *)
Lemma replay_index (h : list entry) :
  h <> [] ->
  0 <= t_wait (replay h) < Z.of_nat (List.length h) /\
  t_best (replay h) =
    nth_error h (List.length h - 1 - Z.to_nat (t_wait (replay h))).
Proof.
  induction h as [|e h IH] using rev_ind; [congruence|]. intros _.
  rewrite replay_snoc, length_app. cbn [List.length]. unfold track.
  assert (Hlast : nth_error (h ++ [e]) (List.length h + 1 - 1 - Z.to_nat 0) = Some e).
  { replace (List.length h + 1 - 1 - Z.to_nat 0)%nat with (List.length h) by lia.
    rewrite nth_error_app2, Nat.sub_diag by lia. reflexivity. }
  destruct (t_best (replay h)) as [b|] eqn:Hb.
  - destruct (score_lt (valid_of e) (valid_of b)); cbn [t_wait t_best].
    + split; [lia|]. symmetry. exact Hlast.
    + assert (Hne : h <> []) by (intros ->; discriminate).
      destruct (IH Hne) as [Hw Hn]. split; [lia|].
      rewrite ?Hb in Hn. rewrite Hn.
      rewrite nth_error_app1 by lia. f_equal. lia.
  - cbn [t_wait t_best]. split; [lia|]. symmetry. exact Hlast.
Qed.

Lemma replay_best_in (h : list entry) (b : entry) :
  t_best (replay h) = Some b -> In b h.
Proof.
  intros Hb. assert (Hne : h <> []) by (intros ->; discriminate).
  destruct (replay_index h Hne) as [_ Hn]. rewrite Hb in Hn.
  symmetry in Hn. eapply nth_error_In. exact Hn.
Qed.

(** The checkpoint written last is the one of the best entry. *)
Lemma replay_saved_last (h : list entry) (b : entry) :
  t_best (replay h) = Some b -> exists s, t_saved (replay h) = s ++ [b].
Proof.
  revert b. induction h as [|e h IH] using rev_ind; intros b; [discriminate|].
  rewrite replay_snoc. unfold track.
  destruct (t_best (replay h)) as [b0|] eqn:Hb.
  - destruct (score_lt (valid_of e) (valid_of b0)); cbn [t_best t_saved].
    + intros H. injection H as <-. eexists. reflexivity.
    + intros H. injection H as <-. apply IH. reflexivity.
  - cbn [t_best t_saved]. intros H. injection H as <-. eexists. reflexivity.
Qed.

(** When [<] is transitive, no entry of the history has a score below the
    best one. *)
Lemma replay_minimal (h : list entry) :
  (forall a b c, score_lt a b = true -> score_lt b c = true -> score_lt a c = true) ->
  forall b, t_best (replay h) = Some b ->
            forall e, In e h -> score_lt (valid_of e) (valid_of b) = false.
Proof.
  intros Htrans. induction h as [|x h IH] using rev_ind; intros b; [discriminate|].
  rewrite replay_snoc. unfold track.
  destruct (t_best (replay h)) as [b0|] eqn:Hb.
  - destruct (score_lt (valid_of x) (valid_of b0)) eqn:Hlt; cbn [t_best];
      intros H; injection H as <-; intros e He; apply in_app_or in He as [He|He].
    + destruct (score_lt (valid_of e) (valid_of x)) eqn:Hex; [|reflexivity].
      rewrite <- (IH b0 eq_refl e He). symmetry.
      exact (Htrans _ _ _ Hex Hlt).
    + destruct He as [<-|[]]. apply score_lt_irrefl.
    + exact (IH b0 eq_refl e He).
    + destruct He as [<-|[]]. exact Hlt.
  - cbn [t_best]. intros H. injection H as <-. intros e He.
    apply replay_best_None in Hb. subst h. destruct He as [<-|[]].
    apply score_lt_irrefl.
Qed.

Lemma no_checkpoint_in_epoch_lines (r : nat) (st : locals) :
  out st = epoch_lines r -> checkpoints st = [].
Proof.
  unfold checkpoints, epoch_lines. intros ->.
  induction (seq 1 r) as [|x l IH]; [reflexivity|]. cbn. exact IH.
Qed.

Lemma is_check_multiple (n : nat) :
  interval <> 0 -> is_check n = true -> n = (n / period * period)%nat.
Proof.
  intros Hi Hchk. pose proof (period_pos Hi) as Hp.
  pose proof (Nat.div_mod_eq n period) as Hdm.
  pose proof (Nat.mod_upper_bound n period ltac:(lia)) as Hr.
  replace n with (n / period * Z.abs_nat interval + n mod period)%nat in Hchk at 1
    by (unfold period in *; lia).
  rewrite is_check_decomp in Hchk by assumption.
  apply Nat.eqb_eq in Hchk. lia.
Qed.


(** X2. The history a run returns has one entry per full period of
    [|interval|] epochs that it ran: after [n] epochs, [n / |interval|]
    entries, the [i]-th made at epoch [i * |interval|].  A run that exhausts
    its epochs returns [nb_epoch / |interval|] entries; a run stopped early
    stopped at the epoch of its last entry. *)
Theorem history_has_one_entry_per_period (st : locals) (fl : flow) :
  interval <> 0 ->
  fit_best_model_run m0 = Ok (st, fl) ->
  list_scores st =
    map (fun i => entry_at (S i * period)) (seq 0 (epochs_run st / period)) /\
  List.length (list_scores st) = (epochs_run st / period)%nat /\
  (fl = Continue ->
   List.length (list_scores st) = (Z.to_nat nb_epoch / period)%nat) /\
  (fl = Break ->
   epochs_run st = (List.length (list_scores st) * period)%nat).
Proof.
  intros Hi Hrun.
  destruct (fit_best_model_run_facts st fl Hi Hrun) as ([_ Hs _ _ _] & _ & Hc & Hb).
  assert (Hh : list_scores st =
               map (fun i => entry_at (S i * period))
                   (seq 0 (epochs_run st / period))).
  { rewrite Hs, check_epochs_closed by assumption. apply map_map. }
  assert (Hlen : List.length (list_scores st) = (epochs_run st / period)%nat).
  { rewrite Hh at 1. rewrite length_map, length_seq. reflexivity. }
  split; [exact Hh|]. split; [exact Hlen|]. split.
  - intros E. rewrite Hlen, (Hc E). reflexivity.
  - intros E. destruct (Hb E) as [Hchk _]. rewrite Hlen.
    apply is_check_multiple; assumption.
Qed.

(** X3. When [nb_epoch] is smaller than [|interval|] no validation check is
    ever made: every epoch is trained, the history returned is empty, no
    checkpoint is written and the summary reports no best epoch. *)
Theorem no_check_when_interval_exceeds_epochs :
  (Z.to_nat nb_epoch < period)%nat ->
  fit_best_model_run m0 =
    Ok ({| model := fits (Z.to_nat nb_epoch); best_score := None;
           best_epoch := None; list_scores := []; wait := 0;
           out := epoch_lines (Z.to_nat nb_epoch) ++ [PrintBest None None] |},
        Continue) /\
  fit_best_model m0 = Ok [] /\
  forall st fl, fit_best_model_run m0 = Ok (st, fl) -> checkpoints st = [].
Proof.
  intros Hlt.
  assert (Hi : interval <> 0) by (unfold period in Hlt; lia).
  assert (Hrun : fit_best_model_run m0 =
                 Ok ({| model := fits (Z.to_nat nb_epoch); best_score := None;
                        best_epoch := None; list_scores := []; wait := 0;
                        out := epoch_lines (Z.to_nat nb_epoch) ++
                               [PrintBest None None] |}, Continue)).
  { unfold fit_best_model_run, range. rewrite (warmup _ Hi Hlt). reflexivity. }
  split; [exact Hrun|]. split.
  - unfold fit_best_model. rewrite Hrun. reflexivity.
  - intros st fl Hst. rewrite Hrun in Hst. injection Hst as <- _.
    unfold checkpoints. cbn [out]. rewrite flat_map_app. cbn.
    rewrite app_nil_r.
    apply (no_checkpoint_in_epoch_lines (Z.to_nat nb_epoch)
             (warmup_state (Z.to_nat nb_epoch))). reflexivity.
Qed.

(** X4. When the comparison [<] of the scores is transitive, the best score
    a run ends with is minimal: no entry of the returned history has a
    validation score strictly below it, and it is the validation score of
    the entry made at the best epoch. *)
Theorem best_score_is_minimal (st : locals) (fl : flow) (b : Score) :
  interval <> 0 ->
  (forall x y z, score_lt x y = true -> score_lt y z = true -> score_lt x z = true) ->
  fit_best_model_run m0 = Ok (st, fl) ->
  best_score st = Some b ->
  (forall e, In e (list_scores st) -> score_lt (valid_of e) b = false) /\
  exists e, In e (list_scores st) /\ valid_of e = b /\
            best_epoch st = Some (epoch_of e).
Proof.
  intros Hi Htrans Hrun Hbest.
  destruct (fit_best_model_run_facts st fl Hi Hrun) as ([_ _ _ _ Ht] & _).
  destruct Ht as [Hs He _ _].
  destruct (t_best (replay (list_scores st))) as [x|] eqn:Hx;
    [|rewrite Hbest in Hs; discriminate].
  rewrite Hbest in Hs. cbn in Hs. injection Hs as ->.
  split.
  - intros e Hin. exact (replay_minimal _ Htrans x Hx e Hin).
  - exists x. split; [exact (replay_best_in _ _ Hx)|].
    split; [reflexivity|exact He].
Qed.

(** X5. What a run leaves behind.  The model object has been trained for
    every epoch that ran and is not set back to the best one.  Every
    checkpoint went to ["model.ckpt"], and the one written last, which is
    what the path holds, is the model as it was at the best epoch, the epoch
    of a history entry whose validation score is the best score.  A run
    without any check writes no checkpoint. *)
Theorem checkpoint_holds_best_model (st : locals) (fl : flow) :
  interval <> 0 ->
  fit_best_model_run m0 = Ok (st, fl) ->
  model st = fits (epochs_run st) /\
  Forall (fun c => fst c = "model.ckpt"%string) (checkpoints st) /\
  (list_scores st = [] ->
   checkpoints st = [] /\ best_epoch st = None /\ best_score st = None) /\
  (list_scores st <> [] ->
   exists e cs,
     (e <= epochs_run st)%nat /\
     In (entry_at e) (list_scores st) /\
     best_epoch st = Some (Z.of_nat e) /\
     best_score st = Some (valid_at e) /\
     checkpoints st = cs ++ [("model.ckpt"%string, fits e)]).
Proof.
  intros Hi Hrun.
  destruct (fit_best_model_run_facts st fl Hi Hrun) as ([Hm Hh _ _ Ht] & _).
  destruct Ht as [Hs He _ Hc].
  split; [exact Hm|]. split; [|split].
  - rewrite Hc. apply Forall_forall. intros c Hin.
    apply in_map_iff in Hin as (x & <- & _). reflexivity.
  - intros Hnil. rewrite Hnil in Hs, He, Hc. cbn in Hs, He, Hc. tauto.
  - intros Hne.
    destruct (t_best (replay (list_scores st))) as [x|] eqn:Hx;
      [|apply replay_best_None in Hx; contradiction].
    pose proof (replay_best_in _ _ Hx) as Hin.
    rewrite Hh in Hin. apply in_map_iff in Hin as (e & <- & Hchk).
    destruct (replay_saved_last _ _ Hx) as [s Hsaved].
    exists e, (map checkpoint_of s).
    split; [apply (in_check_epochs _ _ Hi) in Hchk; lia|].
    split; [rewrite Hh; apply in_map; exact Hchk|].
    split; [exact He|]. split; [exact Hs|].
    rewrite Hc, Hsaved, map_app. cbn [map]. unfold checkpoint_of at 2.
    cbn [entry_at epoch_of fst]. rewrite Nat2Z.id. reflexivity.
Qed.

(** X6. After an early stop the counter is exactly [max(1, patience)], the
    run stopped at a validation check, at least [1 + max(1, patience)]
    checks were made, and the best epoch lies exactly [max(1, patience)]
    checks before the epoch of the stop. *)
Theorem early_stop_is_patience_checks_after_best (st : locals) :
  interval <> 0 ->
  fit_best_model_run m0 = Ok (st, Break) ->
  wait st = Z.max 1 patience /\
  epochs_run st = (List.length (list_scores st) * period)%nat /\
  (1 + checks_to_stop <= List.length (list_scores st))%nat /\
  best_epoch st = Some (Z.of_nat (epochs_run st - checks_to_stop * period)).
Proof.
  intros Hi Hrun.
  destruct (fit_best_model_run_facts st Break Hi Hrun)
    as ([_ Hh _ _ Ht] & _ & _ & Hb).
  destruct (Hb eq_refl) as [Hchk Hw]. destruct Ht as [_ He Htw _].
  assert (Hclosed : list_scores st =
                    map (fun i => entry_at (S i * period))
                        (seq 0 (epochs_run st / period))).
  { rewrite Hh, check_epochs_closed by assumption. apply map_map. }
  assert (Hlen : List.length (list_scores st) = (epochs_run st / period)%nat).
  { rewrite Hclosed at 1. rewrite length_map, length_seq. reflexivity. }
  assert (Hn : epochs_run st = (List.length (list_scores st) * period)%nat).
  { rewrite Hlen. apply is_check_multiple; assumption. }
  assert (Hne : list_scores st <> []).
  { intros Hnil. rewrite Hnil in Htw. cbn in Htw. lia. }
  destruct (replay_index _ Hne) as [Hrange Hbest].
  rewrite <- Htw, Hw in Hrange, Hbest.
  fold checks_to_stop in Hbest.
  assert (Hp : Z.of_nat checks_to_stop = Z.max 1 patience)
    by (unfold checks_to_stop; lia).
  split; [exact Hw|]. split; [exact Hn|]. split; [lia|].
  rewrite He, Hbest.
  set (m := List.length (list_scores st)) in *.
  rewrite Hclosed, <- Hlen.
  rewrite nth_error_map, nth_error_seq.
  destruct (Nat.ltb_spec (m - 1 - checks_to_stop) m) as [_|Hge]; [|lia].
  cbn [option_map entry_at epoch_of fst]. do 2 f_equal.
  rewrite Hn. nia.
Qed.


(** *** Runs in which every check improves *)

Lemma replay_improving (h : list entry) (e : entry) :
  (forall i a b, nth_error (h ++ [e]) i = Some a ->
                 nth_error (h ++ [e]) (S i) = Some b ->
                 score_lt (valid_of b) (valid_of a) = true) ->
  replay (h ++ [e]) = {| t_best := Some e; t_wait := 0; t_saved := h ++ [e] |}.
Proof.
  revert e. induction h as [|a h IH] using rev_ind; intros e Hchain.
  - reflexivity.
  - rewrite replay_snoc, IH.
    + unfold track. cbn [t_best t_wait t_saved].
      rewrite (Hchain (List.length h) a e); [reflexivity| |].
      * rewrite <- app_assoc. rewrite nth_error_app2 by lia.
        rewrite Nat.sub_diag. reflexivity.
      * rewrite nth_error_app2 by (rewrite length_app; cbn; lia).
        rewrite length_app. cbn [List.length].
        replace (S (List.length h) - (List.length h + 1))%nat with 0%nat by lia.
        reflexivity.
    + intros i x y Hx Hy.
      assert (Hi : (S i < List.length (h ++ [a]))%nat)
        by (apply nth_error_Some; congruence).
      apply (Hchain i x y).
      * rewrite nth_error_app1 by lia. exact Hx.
      * rewrite nth_error_app1 by lia. exact Hy.
Qed.

Lemma nth_error_map_seq {A : Type} (f : nat -> A) (m i : nat) (a : A) :
  nth_error (map f (seq 0 m)) i = Some a -> (i < m)%nat /\ a = f i.
Proof.
  intros H.
  assert (Hi : (i < m)%nat).
  { pose proof (proj1 (nth_error_Some (map f (seq 0 m)) i)) as Hlt.
    rewrite length_map, length_seq in Hlt. apply Hlt. congruence. }
  split; [exact Hi|].
  rewrite nth_error_map in H.
  rewrite (nth_error_nth' (seq 0 m) 0%nat) in H by (rewrite length_seq; exact Hi).
  rewrite seq_nth in H by exact Hi. cbn in H. congruence.
Qed.

Lemma snoc_cases {A : Type} (l : list A) :
  l = [] \/ exists l' a, l = l' ++ [a].
Proof.
  induction l as [|a l _] using rev_ind; [left; reflexivity|].
  right. exists l, a. reflexivity.
Qed.

(** X22. When every validation check improves on the check before it, the
    run is never stopped early, whatever the patience: all [nb_epoch]
    epochs are trained, the counter is back at 0, every check has written
    a checkpoint, and the best epoch is the last check. *)
Theorem steady_improvement_runs_to_the_end :
  interval <> 0 ->
  (forall i, (S (S i) * period <= Z.to_nat nb_epoch)%nat ->
             score_lt (valid_at (S (S i) * period)) (valid_at (S i * period)) = true) ->
  exists st,
    fit_best_model_run m0 = Ok (st, Continue) /\
    epochs_run st = Z.to_nat nb_epoch /\
    wait st = 0 /\
    list_scores st = map entry_at (check_epochs (Z.to_nat nb_epoch)) /\
    checkpoints st =
      map (fun e => ("model.ckpt"%string, fits e)) (check_epochs (Z.to_nat nb_epoch)) /\
    (forall h e, list_scores st = h ++ [e] ->
                 best_epoch st = Some (epoch_of e) /\
                 best_score st = Some (valid_of e)).
Proof.
  intros Hi Hsteady.
  destruct (fit_best_model_run_inv Hi) as (st & fl & n0 & Hrun & _).
  destruct (fit_best_model_run_facts st fl Hi Hrun)
    as ([_ Hh _ _ Ht] & Hle & Hcont & Hbrk).
  destruct Ht as [Hs He Hw Hc].
  assert (Hclosed : list_scores st =
                    map (fun i => entry_at (S i * period))
                        (seq 0 (epochs_run st / period))).
  { rewrite Hh, check_epochs_closed by assumption. apply map_map. }
  assert (Hchain : forall i a b,
             nth_error (list_scores st) i = Some a ->
             nth_error (list_scores st) (S i) = Some b ->
             score_lt (valid_of b) (valid_of a) = true).
  { intros i a b Ha Hb. rewrite Hclosed in Ha, Hb.
    apply nth_error_map_seq in Ha as [_ ->].
    apply nth_error_map_seq in Hb as [Hlt ->].
    apply Hsteady.
    pose proof (Nat.Div0.mul_div_le (epochs_run st) period) as Hdiv.
    assert (S (S i) * period <= epochs_run st / period * period)%nat
      by (apply Nat.mul_le_mono_r; lia).
    lia. }
  assert (Hreplay : t_wait (replay (list_scores st)) = 0 /\
                    t_saved (replay (list_scores st)) = list_scores st /\
                    forall h e, list_scores st = h ++ [e] ->
                                t_best (replay (list_scores st)) = Some e).
  { destruct (snoc_cases (list_scores st)) as [Hnil|(h & e & Hsnoc)].
    - rewrite Hnil. cbn. split; [reflexivity|]. split; [reflexivity|].
      intros h e Habs. destruct h; discriminate.
    - rewrite Hsnoc in Hchain |- *. rewrite (replay_improving h e Hchain).
      cbn [t_wait t_saved t_best]. split; [reflexivity|]. split; [reflexivity|].
      intros h' e' Heq. apply app_inj_tail in Heq as [_ ->]. reflexivity. }
  destruct Hreplay as (Hw0 & Hsaved & Hbest).
  assert (Hfl : fl = Continue).
  { destruct fl; [reflexivity|]. destruct (Hbrk eq_refl) as [_ Hmax]. lia. }
  subst fl. pose proof (Hcont eq_refl) as Hn. rewrite Hn in Hh.
  exists st. split; [exact Hrun|]. split; [exact Hn|].
  split; [lia|]. split; [exact Hh|]. split.
  - rewrite Hc, Hsaved, Hh, map_map. apply map_ext. intros e.
    unfold checkpoint_of. cbn [entry_at epoch_of fst]. rewrite Nat2Z.id. reflexivity.
  - intros h e Hsnoc. rewrite Hs, He, (Hbest h e Hsnoc). split; reflexivity.
Qed.

(** *** What a run prints *)

Definition is_final (e : event) : bool :=
  match e with
  | PrintEarlyStop _ | PrintBest _ _ => true
  | _ => false
  end.

(** The output of the first [n] epochs, up to an early-stop message: the
    epoch lines, the score lines of the checks, and no closing line. *)
Record out_inv (n : nat) (o : list event) : Prop := {
  oi_epochs : filter is_PrintEpoch o = epoch_lines n;
  oi_scores : filter is_PrintScores o =
              map (fun e => PrintScores (valid_at e)) (check_epochs n);
  oi_final : filter is_final o = []
}.

Definition stop_line (fl : flow) (n : nat) : list event :=
  match fl with
  | Break => [PrintEarlyStop (Z.of_nat n)]
  | Continue => []
  end.

Lemma epoch_body_out (k : nat) (st st' : locals) (fl : flow) :
  interval <> 0 -> model st = fits k -> out_inv k (out st) ->
  epoch_body st (Z.of_nat k) = Ok (st', fl) ->
  exists o, out_inv (S k) o /\ out st' = o ++ stop_line fl (S k).
Proof.
  intros Hi Hm [Hpe Hps Hfin] Hbody.
  assert (Hfit : fit mdl train_dataset (model st) = fits (S k))
    by (rewrite Hm; reflexivity).
  destruct (is_check (S k)) eqn:Hchk.
  - pose proof (is_check_true k Hchk) as Hmod.
    assert (Hinv : out_inv (S k)
                     (out st ++ [PrintEpoch (Z.of_nat k + 1) nb_epoch;
                                 PrintScores (valid_at (S k))])).
    { constructor.
      - rewrite filter_app, Hpe, epoch_lines_S, <- succ_epoch. reflexivity.
      - rewrite filter_app, Hps, check_epochs_S, Hchk, map_app. reflexivity.
      - rewrite filter_app, Hfin. reflexivity. }
    destruct (improves (best_score st)
                (evaluate mdl valid_dataset (fit mdl train_dataset (model st))))
      eqn:Himp.
    + rewrite (epoch_body_improve st _ Hi Hmod Himp) in Hbody.
      cbv zeta in Hbody. injection Hbody as <- <-. cbn [out stop_line].
      rewrite Hfit. fold (valid_at (S k)).
      exists (out st ++ [PrintEpoch (Z.of_nat k + 1) nb_epoch;
                         PrintScores (valid_at (S k));
                         SaveCheckpoint "model.ckpt" (fits (S k))]).
      split; [|rewrite app_nil_r; reflexivity].
      constructor.
      * rewrite filter_app, Hpe, epoch_lines_S, <- succ_epoch. reflexivity.
      * rewrite filter_app, Hps, check_epochs_S, Hchk, map_app. reflexivity.
      * rewrite filter_app, Hfin. reflexivity.
    + rewrite (epoch_body_stall st _ Hi Hmod Himp) in Hbody.
      cbv zeta in Hbody. rewrite Hfit in Hbody. fold (valid_at (S k)) in Hbody.
      destruct (wait st + 1 >=? patience); injection Hbody as <- <-;
        cbn [out stop_line]; eexists; (split; [exact Hinv|]).
      * rewrite <- app_assoc, <- succ_epoch. reflexivity.
      * rewrite app_nil_r. reflexivity.
  - pose proof (is_check_false k Hchk) as Hmod.
    rewrite (epoch_body_skip st _ Hi Hmod) in Hbody. injection Hbody as <- <-.
    cbn [out stop_line]. eexists. split; [|rewrite app_nil_r; reflexivity].
    constructor.
    + rewrite filter_app, Hpe, epoch_lines_S, <- succ_epoch. reflexivity.
    + rewrite filter_app, Hps, check_epochs_S, Hchk, !app_nil_r. reflexivity.
    + rewrite filter_app, Hfin. reflexivity.
Qed.

Lemma for_epochs_out (len : nat) :
  interval <> 0 ->
  forall (k : nat) (st st' : locals) (fl : flow),
    run_inv k st -> out_inv k (out st) ->
    for_epochs (range_from k len) st = Ok (st', fl) ->
    exists n o, out_inv n o /\ out st' = o ++ stop_line fl n.
Proof.
  intros Hi. induction len as [|len IH]; intros k st st' fl Hinv Hout Hloop.
  - cbn in Hloop. injection Hloop as <- <-. exists k, (out st).
    split; [exact Hout|]. cbn. rewrite app_nil_r. reflexivity.
  - rewrite range_from_S in Hloop. cbn [for_epochs] in Hloop.
    destruct (epoch_body_run_inv k st Hi Hinv) as (st1 & fl1 & Hbody & Hinv1 & _).
    rewrite Hbody in Hloop.
    destruct (epoch_body_out k st st1 fl1 Hi (inv_model _ _ Hinv) Hout Hbody)
      as (o & Ho & Hst1).
    destruct fl1.
    + apply (IH (S k) st1 st' fl Hinv1); [|exact Hloop].
      cbn in Hst1. rewrite app_nil_r in Hst1. rewrite Hst1. exact Ho.
    + injection Hloop as <- <-. exists (S k), o. split; assumption.
Qed.

Lemma out_inv_initial : out_inv 0 (out (initial m0)).
Proof. constructor; reflexivity. Qed.

(** X23. What a run prints and writes, in order.  First come the lines of
    the loop: one line [Epoch e/nb_epoch] per epoch trained, numbered from
    1, the validation scores once per check, and the checkpoints.  Then
    comes the early-stop message, naming the last epoch trained, exactly
    when the loop was left early.  The line naming the best epoch and score
    closes the output on every run, also when there was no check and both
    are [None]. *)
Theorem console_output (st : locals) (fl : flow) :
  interval <> 0 ->
  fit_best_model_run m0 = Ok (st, fl) ->
  exists o,
    out st = o ++ stop_line fl (epochs_run st)
               ++ [PrintBest (best_epoch st) (best_score st)] /\
    filter is_PrintEpoch o =
      map (fun e => PrintEpoch (Z.of_nat e) nb_epoch) (seq 1 (epochs_run st)) /\
    filter is_PrintScores o =
      map (fun e => PrintScores (valid_at e)) (check_epochs (epochs_run st)) /\
    (forall e, In e o -> is_final e = false) /\
    (list_scores st = [] -> best_epoch st = None /\ best_score st = None).
Proof.
  intros Hi Hrun.
  destruct (fit_best_model_run_facts st fl Hi Hrun) as ([_ _ _ _ Ht] & _).
  apply fit_best_model_run_loop in Hrun as (st0 & Hloop & ->).
  unfold range in Hloop.
  destruct (for_epochs_out (Z.to_nat nb_epoch) Hi 0 (initial m0) st0 fl
              run_inv_initial out_inv_initial Hloop)
    as (n & o & [Hpe Hps Hfin] & Hout).
  assert (Hn : epochs_run (print (PrintBest (best_epoch st0) (best_score st0)) st0) = n).
  { unfold epochs_run. cbn [print out]. rewrite Hout, !filter_app, Hpe.
    unfold epoch_lines. rewrite !length_app, length_map, length_seq.
    destruct fl; cbn; lia. }
  rewrite Hn. exists o. cbn [print out best_epoch best_score list_scores].
  split; [rewrite Hout, <- app_assoc; reflexivity|].
  split; [exact Hpe|]. split; [exact Hps|]. split.
  - intros e Hin. destruct (is_final e) eqn:Hf; [|reflexivity].
    assert (Habs : In e (filter is_final o)) by (apply filter_In; split; assumption).
    rewrite Hfin in Habs. contradiction.
  - intros Hnil. destruct Ht as [Hs He _ _].
    cbn [print best_score best_epoch list_scores] in Hs, He.
    rewrite Hnil in Hs, He. split; assumption.
Qed.

End FitBestModel.

(** ** A scripted model

    A model whose state is the number of [fit] calls so far and whose
    validation score after the [n]-th call is the [n]-th element of a list
    (a default score beyond its end); the training scores are arbitrary. *)

Inductive dataset_tag : Type := TrainSet | ValidSet.

Definition scripted {Score : Type} (default : Score) (valid_scores : list Score)
    (training_score : nat -> Score) : @Model Score nat dataset_tag :=
  {| fit := fun _ n => S n;
     evaluate := fun d n =>
       match d with
       | ValidSet => nth (n - 1) valid_scores default
       | TrainSet => training_score n
       end |}.

(** Two scripted models for the concrete runs below: validation scores
    5, 4, 3, 3, 3, 6, 0, 0, ... and a validation score that is always 0. *)
Definition plateau : @Model Q nat dataset_tag :=
  scripted 0%Q [5; 4; 3; 3; 3; 6]%Q (fun _ => 0%Q).

Definition flat : @Model Q nat dataset_tag := scripted 0%Q [] (fun _ => 0%Q).

(** C1. [fit_best_model] with [nb_epoch = 10], [patience = 2],
    [interval = 1] on a model whose successive validation scores are
    5, 4, 3, 3, 3, 6, ... (any continuation, any training scores): the best
    score is reached at epoch 3, the two checks that follow do not improve
    on it, the early stop is reported for epoch 5 after 5 epochs, and the
    returned history has exactly the 5 entries of epochs 1 to 5. *)
Theorem example_scenario_stops_at_epoch_5 (rest : list Q) (training_score : nat -> Q) :
  let mdl := scripted 0%Q (5 :: 4 :: 3 :: 3 :: 3 :: 6 :: rest)%Q training_score in
  let history :=
    [(1, 5%Q, training_score 1%nat); (2, 4%Q, training_score 2%nat);
     (3, 3%Q, training_score 3%nat); (4, 3%Q, training_score 4%nat);
     (5, 3%Q, training_score 5%nat)] in
  fit_best_model nat dataset_tag mdl TrainSet ValidSet 10 2 1 0%nat = Ok history /\
  List.length history = 5%nat /\
  fit_best_model_run nat dataset_tag mdl TrainSet ValidSet 10 2 1 0%nat =
    Ok ({| model := 5%nat; best_score := Some 3%Q; best_epoch := Some 3;
           list_scores := history; wait := 2;
           out := [PrintEpoch nat 1 10; PrintScores nat 5%Q;
                   SaveCheckpoint nat "model.ckpt" 1%nat;
                   PrintEpoch nat 2 10; PrintScores nat 4%Q;
                   SaveCheckpoint nat "model.ckpt" 2%nat;
                   PrintEpoch nat 3 10; PrintScores nat 3%Q;
                   SaveCheckpoint nat "model.ckpt" 3%nat;
                   PrintEpoch nat 4 10; PrintScores nat 3%Q;
                   PrintEpoch nat 5 10; PrintScores nat 3%Q;
                   PrintEarlyStop nat 5;
                   PrintBest nat (Some 3) (Some 3%Q)] |}, Break).
Proof.
  cbv zeta. split; [|split].
  - vm_compute. reflexivity.
  - reflexivity.
  - vm_compute. reflexivity.
Qed.

Lemma flat_never_improves (interval : Z) :
  never_improves nat dataset_tag flat TrainSet ValidSet interval 0%nat.
Proof.
  intros c _. unfold valid_at. cbn [evaluate flat scripted].
  assert (Hnil : forall k, nth k (@nil Q) 0%Q = 0%Q) by (intros [|k]; reflexivity).
  rewrite !Hnil. reflexivity.
Qed.

Lemma history_one_entry_per_check_witness :
  2 <> 0 /\
  exists st fl n,
    fit_best_model_run nat dataset_tag plateau TrainSet ValidSet 10 2 2 0%nat =
      Ok (st, fl) /\
    epochs_run nat st = n /\
    list_scores nat st =
      map (entry_at nat dataset_tag plateau TrainSet ValidSet 0%nat) (check_epochs 2 n).
Proof.
  split; [discriminate|].
  destruct (history_one_entry_per_check nat dataset_tag plateau TrainSet ValidSet
              10 2 2 0%nat)
    as (st & fl & n & H1 & _ & H3 & _ & _ & _ & H7 & _); [discriminate|].
  exists st, fl, n. split; [assumption|]. split; assumption.
Defined.

Lemma improvement_by_strict_less_than_witness :
  1 <> 0 /\
  exists st fl,
    fit_best_model_run nat dataset_tag plateau TrainSet ValidSet 10 2 1 0%nat =
      Ok (st, fl) /\
    tracked nat dataset_tag plateau TrainSet 0%nat st.
Proof.
  split; [discriminate|].
  apply (improvement_by_strict_less_than nat dataset_tag plateau TrainSet ValidSet
           10 2 1 0%nat).
  discriminate.
Defined.

Lemma first_check_improves_witness :
  2 <> 0 /\ (period 2 <= Z.to_nat 10)%nat /\
  for_epochs nat dataset_tag plateau TrainSet ValidSet 10 2 2
    (range_from 0 (period 2)) (initial nat 0%nat) =
  Ok (first_check_state nat dataset_tag plateau TrainSet ValidSet 10 2 0%nat, Continue).
Proof.
  assert (Hi : 2 <> 0) by discriminate.
  assert (Hn : (period 2 <= Z.to_nat 10)%nat) by (vm_compute; lia).
  split; [assumption|]. split; [assumption|].
  apply (first_check_improves nat dataset_tag plateau TrainSet ValidSet 10 2 2 0%nat
           Hi Hn).
Defined.

Lemma early_stop_after_patience_checks_witness :
  1 <> 0 /\ ((1 + checks_to_stop 2) * period 1 <= Z.to_nat 10)%nat /\
  never_improves nat dataset_tag flat TrainSet ValidSet 1 0%nat /\
  exists st,
    fit_best_model_run nat dataset_tag flat TrainSet ValidSet 10 2 1 0%nat =
      Ok (st, Break) /\
    List.length (list_scores nat st) = (1 + checks_to_stop 2)%nat.
Proof.
  assert (Hi : 1 <> 0) by discriminate.
  assert (Hn : ((1 + checks_to_stop 2) * period 1 <= Z.to_nat 10)%nat)
    by (vm_compute; lia).
  split; [assumption|]. split; [assumption|].
  split; [apply flat_never_improves|].
  destruct (early_stop_after_patience_checks nat dataset_tag flat TrainSet ValidSet
              10 2 1 0%nat Hi) as (_ & _ & Hrun).
  destruct (Hrun Hn (flat_never_improves 1)) as (st & H1 & _ & H3 & _).
  exists st. split; assumption.
Defined.

(** With float scores a [nan] at the first check becomes the best score and
    is never improved on, since no score is less than [nan]. *)
Lemma nan_is_never_improved_on :
  fit_best_model_run nat dataset_tag
    (scripted 0%float [nan; 1%float; 0.5%float] (fun _ => 0%float))
    TrainSet ValidSet 10 2 1 0%nat =
  Ok ({| model := 3%nat; best_score := Some nan; best_epoch := Some 1;
         list_scores := [(1, nan, 0%float); (2, 1%float, 0%float);
                         (3, 0.5%float, 0%float)];
         wait := 2;
         out := [PrintEpoch nat 1 10; PrintScores nat nan;
                 SaveCheckpoint nat "model.ckpt" 1%nat;
                 PrintEpoch nat 2 10; PrintScores nat 1%float;
                 PrintEpoch nat 3 10; PrintScores nat 0.5%float;
                 PrintEarlyStop nat 3;
                 PrintBest nat (Some 1) (Some nan)] |}, Break).
Proof. vm_compute. reflexivity. Qed.

(** C3, as stated, fails in two ways.  With [patience = 0] and a validation
    score that never improves, the loop stops after one check beyond the
    first, not after [patience = 0] of them: the counter is compared with
    the patience only after an increment.  With [nb_epoch = 2] and
    [patience = 5] the run ends by exhaustion after one check beyond the
    first, not after 5. *)
Lemma patience_checks_counterexample :
  (never_improves nat dataset_tag flat TrainSet ValidSet 1 0%nat /\
   exists st,
     fit_best_model_run nat dataset_tag flat TrainSet ValidSet 10 0 1 0%nat =
       Ok (st, Break) /\
     List.length (list_scores nat st) = 2%nat /\
     Z.of_nat (List.length (list_scores nat st)) <> 1 + 0) /\
  (exists st,
     fit_best_model_run nat dataset_tag flat TrainSet ValidSet 2 5 1 0%nat =
       Ok (st, Continue) /\
     List.length (list_scores nat st) = 2%nat /\
     Z.of_nat (List.length (list_scores nat st)) <> 1 + 5).
Proof.
  split; [split; [apply flat_never_improves|]|].
  - eexists. split; [vm_compute; reflexivity|]. split; [reflexivity|]. cbn. lia.
  - eexists. split; [vm_compute; reflexivity|]. split; [reflexivity|]. cbn. lia.
Qed.

Lemma Qltb_trans (x y z : Q) :
  Qltb x y = true -> Qltb y z = true -> Qltb x z = true.
Proof.
  unfold Qltb. rewrite !negb_true_iff. intros Hxy Hyz.
  destruct (Qle_bool z x) eqn:Hzx; [|reflexivity].
  apply Qle_bool_iff in Hzx.
  assert (Hyx : (y <= x)%Q).
  { apply Qnot_lt_le. intros Hlt.
    assert (Hzy : ~ (z <= y)%Q) by (intros H; apply Qle_bool_iff in H; congruence).
    apply Hzy. apply Qle_trans with x; [exact Hzx|]. apply Qlt_le_weak. exact Hlt. }
  apply Qle_bool_iff in Hyx. congruence.
Qed.

Lemma history_has_one_entry_per_period_witness :
  2 <> 0 /\
  exists st fl,
    fit_best_model_run nat dataset_tag plateau TrainSet ValidSet 10 2 2 0%nat =
      Ok (st, fl) /\
    List.length (list_scores nat st) = (epochs_run nat st / period 2)%nat.
Proof.
  assert (Hi : 2 <> 0) by discriminate. split; [exact Hi|].
  destruct (fit_best_model_run nat dataset_tag plateau TrainSet ValidSet 10 2 2 0%nat)
    as [[st fl]|e] eqn:Hrun; [|vm_compute in Hrun; discriminate].
  exists st, fl. split; [reflexivity|].
  exact (proj1 (proj2 (history_has_one_entry_per_period nat dataset_tag plateau
                         TrainSet ValidSet 10 2 2 0%nat st fl Hi Hrun))).
Defined.

Lemma no_check_when_interval_exceeds_epochs_witness :
  (Z.to_nat 3 < period 5)%nat /\
  fit_best_model nat dataset_tag plateau TrainSet ValidSet 3 2 5 0%nat = Ok [].
Proof.
  assert (Hlt : (Z.to_nat 3 < period 5)%nat) by (vm_compute; lia).
  split; [exact Hlt|].
  exact (proj1 (proj2 (no_check_when_interval_exceeds_epochs nat dataset_tag plateau
                         TrainSet ValidSet 3 2 5 0%nat Hlt))).
Defined.

Lemma best_score_is_minimal_witness :
  1 <> 0 /\
  exists st fl,
    fit_best_model_run nat dataset_tag plateau TrainSet ValidSet 10 2 1 0%nat =
      Ok (st, fl) /\
    best_score nat st = Some 3%Q /\
    forall e, In e (list_scores nat st) -> Qltb (valid_of e) 3 = false.
Proof.
  assert (Hi : 1 <> 0) by discriminate. split; [exact Hi|].
  destruct (fit_best_model_run nat dataset_tag plateau TrainSet ValidSet 10 2 1 0%nat)
    as [[st fl]|e] eqn:Hrun; [|vm_compute in Hrun; discriminate].
  assert (Hbest : best_score nat st = Some 3%Q).
  { vm_compute in Hrun. injection Hrun as <- _. reflexivity. }
  exists st, fl. split; [reflexivity|]. split; [exact Hbest|].
  exact (proj1 (best_score_is_minimal nat dataset_tag plateau TrainSet ValidSet
                  10 2 1 0%nat st fl 3%Q Hi Qltb_trans Hrun Hbest)).
Defined.

Lemma checkpoint_holds_best_model_witness :
  1 <> 0 /\
  exists st fl,
    fit_best_model_run nat dataset_tag plateau TrainSet ValidSet 10 2 1 0%nat =
      Ok (st, fl) /\
    model nat st = fits nat dataset_tag plateau TrainSet 0%nat (epochs_run nat st).
Proof.
  assert (Hi : 1 <> 0) by discriminate. split; [exact Hi|].
  destruct (fit_best_model_run nat dataset_tag plateau TrainSet ValidSet 10 2 1 0%nat)
    as [[st fl]|e] eqn:Hrun; [|vm_compute in Hrun; discriminate].
  exists st, fl. split; [reflexivity|].
  exact (proj1 (checkpoint_holds_best_model nat dataset_tag plateau TrainSet ValidSet
                  10 2 1 0%nat st fl Hi Hrun)).
Defined.

Lemma early_stop_is_patience_checks_after_best_witness :
  1 <> 0 /\
  exists st,
    fit_best_model_run nat dataset_tag plateau TrainSet ValidSet 10 2 1 0%nat =
      Ok (st, Break) /\
    wait nat st = Z.max 1 2.
Proof.
  assert (Hi : 1 <> 0) by discriminate. split; [exact Hi|].
  destruct (fit_best_model_run nat dataset_tag plateau TrainSet ValidSet 10 2 1 0%nat)
    as [[st [|]]|e] eqn:Hrun;
    [vm_compute in Hrun; discriminate| |vm_compute in Hrun; discriminate].
  exists st. split; [reflexivity|].
  exact (proj1 (early_stop_is_patience_checks_after_best nat dataset_tag plateau
                  TrainSet ValidSet 10 2 1 0%nat st Hi Hrun)).
Defined.


(** A model whose validation score falls at every epoch: 5, 4, 3, 2, 1. *)
Definition descent : @Model Q nat dataset_tag :=
  scripted 0%Q [5; 4; 3; 2; 1]%Q (fun _ => 0%Q).

Lemma steady_improvement_runs_to_the_end_witness :
  1 <> 0 /\
  exists st,
    fit_best_model_run nat dataset_tag descent TrainSet ValidSet 5 1 1 0%nat =
      Ok (st, Continue) /\
    epochs_run nat st = 5%nat /\
    wait nat st = 0 /\
    checkpoints nat st =
      [("model.ckpt"%string, 1%nat); ("model.ckpt"%string, 2%nat);
       ("model.ckpt"%string, 3%nat); ("model.ckpt"%string, 4%nat);
       ("model.ckpt"%string, 5%nat)].
Proof.
  assert (Hi : 1 <> 0) by discriminate. split; [exact Hi|].
  assert (Hsteady : forall i,
             (S (S i) * period 1 <= Z.to_nat 5)%nat ->
             score_lt (valid_at nat dataset_tag descent TrainSet ValidSet 0%nat
                         (S (S i) * period 1))
                      (valid_at nat dataset_tag descent TrainSet ValidSet 0%nat
                         (S i * period 1)) = true).
  { intros i Hle. destruct i as [|[|[|[|i]]]]; try (vm_compute; reflexivity).
    exfalso. change (period 1) with 1%nat in Hle.
    change (Z.to_nat 5) with 5%nat in Hle. lia. }
  destruct (steady_improvement_runs_to_the_end nat dataset_tag descent TrainSet
              ValidSet 5 1 1 0%nat Hi Hsteady)
    as (st & Hrun & Hn & Hw & _ & Hc & _).
  exists st. split; [exact Hrun|]. split; [exact Hn|]. split; [exact Hw|].
  rewrite Hc. vm_compute. reflexivity.
Defined.

Lemma console_output_witness :
  1 <> 0 /\
  exists st o,
    fit_best_model_run nat dataset_tag plateau TrainSet ValidSet 10 2 1 0%nat =
      Ok (st, Break) /\
    out nat st = o ++ [PrintEarlyStop nat 5; PrintBest nat (Some 3) (Some 3%Q)] /\
    filter (is_PrintEpoch nat) o =
      [PrintEpoch nat 1 10; PrintEpoch nat 2 10; PrintEpoch nat 3 10;
       PrintEpoch nat 4 10; PrintEpoch nat 5 10].
Proof.
  assert (Hi : 1 <> 0) by discriminate. split; [exact Hi|].
  destruct (fit_best_model_run nat dataset_tag plateau TrainSet ValidSet 10 2 1 0%nat)
    as [[st [|]]|e] eqn:Hrun;
    [vm_compute in Hrun; discriminate| |vm_compute in Hrun; discriminate].
  destruct (console_output nat dataset_tag plateau TrainSet ValidSet 10 2 1 0%nat
              st Break Hi Hrun) as (o & Hout & Hpe & _).
  assert (Hst : epochs_run nat st = 5%nat /\ best_epoch nat st = Some 3 /\
                best_score nat st = Some 3%Q).
  { vm_compute in Hrun. injection Hrun as <-. repeat split. }
  destruct Hst as (Hn & He & Hs).
  exists st, o. split; [reflexivity|].
  rewrite Hn, He, Hs in Hout. rewrite Hn in Hpe.
  split; [exact Hout|exact Hpe].
Defined.

End Trainer.

(** * Calls into external libraries

    A computation that calls into external libraries records every call it
    attempts, in order; a call may raise, and what was recorded before stays
    recorded. *)

Module Effects.

Section Monad.
Variable action : Type.

Definition M (A : Type) : Type := list action -> result A * list action.

Definition ret {A : Type} (a : A) : M A := fun tr => (Ok a, tr).

Definition raise {A : Type} (e : exn) : M A := fun tr => (Raise e, tr).

Definition bindM {A B : Type} (m : M A) (k : A -> M B) : M B :=
  fun tr =>
    match m tr with
    | (Ok a, tr') => k a tr'
    | (Raise e, tr') => (Raise e, tr')
    end.

(** An external call: whether it raises is decided by the environment
    [fails]; the attempt is recorded either way. *)
Definition call (fails : action -> option exn) (a : action) : M unit :=
  fun tr =>
    (match fails a with Some e => Raise e | None => Ok tt end, tr ++ [a]).

(** [try: body / except: handler], with a bare [except] that catches every
    exception. *)
Definition try_except {A : Type} (body handler : M A) : M A :=
  fun tr =>
    match body tr with
    | (Ok a, tr') => (Ok a, tr')
    | (Raise _, tr') => handler tr'
    end.

(** [if flag: body] *)
Definition when (flag : bool) (body : M unit) : M unit :=
  if flag then body else ret tt.

End Monad.

Arguments ret {action A} a.
Arguments raise {action A} e.
Arguments bindM {action A B} m k.
Arguments call {action} fails a.
Arguments try_except {action A} body handler.
Arguments when {action} flag body.

Declare Scope eff_scope.
Delimit Scope eff_scope with eff.
Notation "x <- m ;; k" := (bindM m (fun x => k))
  (at level 61, m at next level, right associativity) : eff_scope.
Notation "m ;; k" := (bindM m (fun _ => k))
  (at level 61, right associativity) : eff_scope.

End Effects.

(** * The seed setter, [set_seed] *)

Module Seeding.
Import Effects.

(** What [set_seed] may ask of the libraries and of the terminal. *)
Inductive action : Type :=
| ImportTensorflow
| TfRandomSetSeed (seed : Z)
| ImportTorch
| TorchManualSeed (seed : Z)
| TorchCudaIsAvailable
| TorchCudaManualSeedAll (seed : Z)
| SetCudnnDeterministic (value : bool)
| SetCudnnBenchmark (value : bool)
| ImportNumpy
| ImportRandom
| NpRandomSeed (seed : Z)
| RandomSeed (seed : Z)
| Print (message : string).

(** The libraries as [set_seed] finds them: which calls raise, and what
    [torch.cuda.is_available()] answers. *)
Record libraries : Type := {
  fails : action -> option exn;
  cuda_available : bool
}.

Section SetSeed.
Variable libs : libraries.
Variable seed : Z.
Variables tensorflow pytorch : bool.

Local Open Scope eff_scope.

Definition tensorflow_message : string :=
  "Please import Tensorflow as tf to set its seed.".
Definition pytorch_message : string :=
  "Please import PyTorch to set its seed.".
Definition numpy_message : string :=
  "You must import numpy as np and random to set up seeds.".

(** [print] itself does not raise. *)
Definition print (message : string) : M action unit :=
  fun tr => (Ok tt, tr ++ [Print message]).

(** The bodies of the three [try] statements. *)
Definition tensorflow_body : M action unit :=
  when tensorflow
    (call (fails libs) ImportTensorflow ;;
     call (fails libs) (TfRandomSetSeed seed)).

Definition pytorch_body : M action unit :=
  when pytorch
    (call (fails libs) ImportTorch ;;
     call (fails libs) (TorchManualSeed seed) ;;
     call (fails libs) TorchCudaIsAvailable ;;
     when (cuda_available libs)
       (call (fails libs) (TorchCudaManualSeedAll seed) ;;
        call (fails libs) (SetCudnnDeterministic true) ;;
        call (fails libs) (SetCudnnBenchmark false))).

Definition numpy_body : M action unit :=
  call (fails libs) ImportNumpy ;;
  call (fails libs) ImportRandom ;;
  call (fails libs) (NpRandomSeed seed) ;;
  call (fails libs) (RandomSeed seed).

Definition tensorflow_block : M action unit :=
  try_except tensorflow_body (print tensorflow_message).

Definition pytorch_block : M action unit :=
  try_except pytorch_body (print pytorch_message).

Definition numpy_block : M action unit :=
  try_except numpy_body (print numpy_message).

Definition set_seed : M action unit :=
  tensorflow_block ;; pytorch_block ;; numpy_block.

(** What a block attempts and prints when it is run on its own. *)
Definition events (block : M action unit) : list action := snd (block []).

Definition raises (block : M action unit) : Prop :=
  exists e, fst (block []) = Raise e.

Ltac run_calls :=
  cbn;
  repeat (match goal with
          | |- context [fails ?l ?a] => destruct (fails l a) eqn:?; cbn
          | |- context [cuda_available ?l] => destruct (cuda_available l) eqn:?; cbn
          end);
  rewrite <- ?app_assoc; cbn.

Lemma tensorflow_block_runs (tr : list action) :
  tensorflow_block tr = (Ok tt, tr ++ events tensorflow_block).
Proof.
  unfold events, tensorflow_block, tensorflow_body, try_except, when, bindM, call,
    print, ret.
  destruct tensorflow; run_calls; rewrite ?app_nil_r; reflexivity.
Qed.

Lemma pytorch_block_runs (tr : list action) :
  pytorch_block tr = (Ok tt, tr ++ events pytorch_block).
Proof.
  unfold events, pytorch_block, pytorch_body, try_except, when, bindM, call,
    print, ret.
  destruct pytorch; run_calls; rewrite ?app_nil_r; reflexivity.
Qed.

Lemma numpy_block_runs (tr : list action) :
  numpy_block tr = (Ok tt, tr ++ events numpy_block).
Proof.
  unfold events, numpy_block, numpy_body, try_except, when, bindM, call,
    print, ret.
  run_calls; reflexivity.
Qed.

(** Whether [random.seed] is reached inside the last block. *)
Lemma random_seed_attempted :
  In (RandomSeed seed) (events numpy_block) <->
  fails libs ImportNumpy = None /\ fails libs ImportRandom = None /\
  fails libs (NpRandomSeed seed) = None.
Proof.
  unfold events, numpy_block, numpy_body, try_except, when, bindM, call,
    print, ret. cbn.
  destruct (fails libs ImportNumpy) eqn:H1; cbn.
  { split; [intros [H|[H|[]]]; discriminate | intros (H & _); discriminate]. }
  destruct (fails libs ImportRandom) eqn:H2; cbn.
  { split; [intros [H|[H|[H|[]]]]; discriminate | intros (_ & H & _); discriminate]. }
  destruct (fails libs (NpRandomSeed seed)) eqn:H3; cbn.
  { split; [intros [H|[H|[H|[H|[]]]]]; discriminate | intros (_ & _ & H); discriminate]. }
  split; [tauto|]. intros _.
  destruct (fails libs (RandomSeed seed)); cbn; tauto.
Qed.

(** A [try] whose handler prints a diagnostic: the diagnostic is printed
    exactly when the body raises, after what the body attempted, and it is
    all that the failure produces. *)
Lemma diagnostic_on_failure (body : M action unit) (message : string) :
  events (try_except body (print message)) =
  events body ++
  match fst (body []) with
  | Raise _ => [Print message]
  | Ok _ => []
  end.
Proof.
  unfold events, try_except, print.
  destruct (body []) as [[u|e] tr]; cbn; [rewrite app_nil_r|]; reflexivity.
Qed.

(** C9 (amended). [set_seed] never raises.  Its three [try] blocks
    (TensorFlow; PyTorch with CUDA; NumPy with [random]) are isolated from
    one another: what a block attempts and prints is the same whatever
    happened in the blocks before it; a block that fails prints its
    diagnostic and nothing else comes of the failure; an enabled backend is
    always attempted, and the NumPy block is entered whatever the two flags
    are.  Inside the NumPy block, however, [random.seed] is attempted only
    when importing [numpy] and [random] and [np.random.seed] all
    succeeded. *)
Theorem set_seed_blocks_isolated (tr : list action) :
  set_seed tr =
    (Ok tt, tr ++ events tensorflow_block ++ events pytorch_block ++
            events numpy_block) /\
  events tensorflow_block =
    events tensorflow_body ++
    match fst (tensorflow_body []) with
    | Raise _ => [Print tensorflow_message]
    | Ok _ => []
    end /\
  events pytorch_block =
    events pytorch_body ++
    match fst (pytorch_body []) with
    | Raise _ => [Print pytorch_message]
    | Ok _ => []
    end /\
  events numpy_block =
    events numpy_body ++
    match fst (numpy_body []) with
    | Raise _ => [Print numpy_message]
    | Ok _ => []
    end /\
  (tensorflow = true -> In ImportTensorflow (events tensorflow_block)) /\
  (pytorch = true -> In ImportTorch (events pytorch_block)) /\
  In ImportNumpy (events numpy_block) /\
  (In (RandomSeed seed) (events numpy_block) <->
   fails libs ImportNumpy = None /\ fails libs ImportRandom = None /\
   fails libs (NpRandomSeed seed) = None).
Proof.
  split; [|split; [|split; [|split; [|split; [|split; [|split]]]]]].
  - unfold set_seed, bindM.
    rewrite tensorflow_block_runs, pytorch_block_runs, numpy_block_runs.
    rewrite <- !app_assoc. reflexivity.
  - apply diagnostic_on_failure.
  - apply diagnostic_on_failure.
  - apply diagnostic_on_failure.
  - intros Hflag.
    unfold events, tensorflow_block, tensorflow_body, try_except, when, bindM, call,
    print, ret.
    rewrite Hflag. run_calls; left; reflexivity.
  - intros Hflag.
    unfold events, pytorch_block, pytorch_body, try_except, when, bindM, call,
    print, ret.
    rewrite Hflag. run_calls; left; reflexivity.
  - unfold events, numpy_block, numpy_body, try_except, when, bindM, call,
    print, ret.
    run_calls; left; reflexivity.
  - apply random_seed_attempted.
Qed.

(** ** Further properties of [set_seed] *)

(** The seed a call passes to a library, if it passes one. *)
Definition seed_of (a : action) : option Z :=
  match a with
  | TfRandomSetSeed s | TorchManualSeed s | TorchCudaManualSeedAll s
  | NpRandomSeed s | RandomSeed s => Some s
  | _ => None
  end.

Ltac decide_in H :=
  cbn in H; repeat (destruct H as [H|H]; [try discriminate|]); try contradiction.

(** X7. A backend whose flag is false is left alone: nothing of TensorFlow
    (resp. PyTorch) is imported or called and nothing is printed for it.
    With both flags false [set_seed] only goes through the NumPy block. *)
Theorem disabled_backends_untouched :
  (tensorflow = false -> events tensorflow_block = []) /\
  (pytorch = false -> events pytorch_block = []) /\
  (tensorflow = false -> pytorch = false ->
   forall tr, set_seed tr = (Ok tt, tr ++ events numpy_block)).
Proof.
  assert (Ht : tensorflow = false -> events tensorflow_block = []).
  { intros Hf. unfold events, tensorflow_block, tensorflow_body, try_except, when.
    rewrite Hf. reflexivity. }
  assert (Hp : pytorch = false -> events pytorch_block = []).
  { intros Hf. unfold events, pytorch_block, pytorch_body, try_except, when.
    rewrite Hf. reflexivity. }
  split; [exact Ht|]. split; [exact Hp|].
  intros Hft Hfp tr. unfold set_seed, bindM.
  rewrite tensorflow_block_runs, pytorch_block_runs, numpy_block_runs.
  rewrite (Ht Hft), (Hp Hfp), !app_nil_r. reflexivity.
Qed.

(** X8. The CUDA generators are seeded only when PyTorch is enabled, its
    import, [torch.manual_seed] and [torch.cuda.is_available()] went through
    and CUDA is available; cuDNN is switched to deterministic only after
    that seeding succeeded, and its benchmark mode is switched off only
    after the deterministic switch succeeded. *)
Theorem cuda_seeded_only_when_available :
  (forall s, In (TorchCudaManualSeedAll s) (events pytorch_block) ->
             s = seed /\ pytorch = true /\ cuda_available libs = true /\
             fails libs ImportTorch = None /\
             fails libs (TorchManualSeed seed) = None /\
             fails libs TorchCudaIsAvailable = None) /\
  (forall v, In (SetCudnnDeterministic v) (events pytorch_block) ->
             v = true /\ In (TorchCudaManualSeedAll seed) (events pytorch_block) /\
             fails libs (TorchCudaManualSeedAll seed) = None) /\
  (forall v, In (SetCudnnBenchmark v) (events pytorch_block) ->
             v = false /\ In (SetCudnnDeterministic true) (events pytorch_block) /\
             fails libs (SetCudnnDeterministic true) = None).
Proof.
  unfold events, pytorch_block, pytorch_body, try_except, when, bindM, call,
    print, ret.
  destruct pytorch; run_calls;
    (split; [|split]); intros x Hin; decide_in Hin;
    try (injection Hin as <-); cbn; intuition congruence.
Qed.

(** X9. Every seed [set_seed] hands to a library is the seed it was given,
    and no library call is attempted twice, nor a diagnostic printed
    twice. *)
Theorem only_the_given_seed_is_used :
  (forall a s, In a (snd (set_seed [])) -> seed_of a = Some s -> s = seed) /\
  NoDup (snd (set_seed [])).
Proof.
  unfold set_seed, tensorflow_block, tensorflow_body, pytorch_block, pytorch_body,
    numpy_block, numpy_body, try_except, when, bindM, call, print, ret.
  destruct tensorflow, pytorch; run_calls;
    (split;
     [ intros a s Hin Hs; decide_in Hin; subst a; cbn in Hs; congruence
     | repeat (constructor;
               [ cbn; intros Hin;
                 repeat (destruct Hin as [Hin|Hin]; [discriminate|]); exact Hin | ]);
       constructor ]).
Qed.

(** X10. When no library call fails, [set_seed] prints nothing and seeds, in
    this order and each with the given seed, TensorFlow (if enabled),
    PyTorch (if enabled, its CUDA generators too when CUDA is available,
    then switching cuDNN to deterministic and its benchmark mode off),
    NumPy and [random]. *)
Theorem set_seed_when_nothing_fails (tr : list action) :
  (forall a, fails libs a = None) ->
  set_seed tr =
    (Ok tt,
     tr ++
     (if tensorflow then [ImportTensorflow; TfRandomSetSeed seed] else []) ++
     (if pytorch
      then [ImportTorch; TorchManualSeed seed; TorchCudaIsAvailable] ++
           (if cuda_available libs
            then [TorchCudaManualSeedAll seed; SetCudnnDeterministic true;
                  SetCudnnBenchmark false]
            else [])
      else []) ++
     [ImportNumpy; ImportRandom; NpRandomSeed seed; RandomSeed seed]).
Proof.
  intros Hok.
  unfold set_seed, tensorflow_block, tensorflow_body, pytorch_block, pytorch_body,
    numpy_block, numpy_body, try_except, when, bindM, call, print, ret.
  destruct tensorflow, pytorch, (cuda_available libs); cbn;
    rewrite ?Hok; cbn; rewrite <- ?app_assoc; reflexivity.
Qed.

End SetSeed.

(** NumPy as it is: [np.random.seed] accepts only seeds in [0, 2**32). *)
Definition numpy_checks_range : libraries :=
  {| fails := fun a =>
       match a with
       | NpRandomSeed s => if (0 <=? s) && (s <? 2 ^ 32) then None else Some ValueError
       | _ => None
       end;
     cuda_available := false |}.

(** C9, as stated, fails: [set_seed(-1)] attempts [np.random.seed(-1)],
    which raises, prints the NumPy diagnostic and returns without having
    attempted [random.seed(-1)]. *)
Lemma random_seed_skipped_counterexample :
  set_seed numpy_checks_range (-1) true true [] =
    (Ok tt,
     [ImportTensorflow; TfRandomSetSeed (-1); ImportTorch; TorchManualSeed (-1);
      TorchCudaIsAvailable; ImportNumpy; ImportRandom; NpRandomSeed (-1);
      Print numpy_message]) /\
  ~ In (RandomSeed (-1)) (snd (set_seed numpy_checks_range (-1) true true [])).
Proof.
  split; [reflexivity|].
  cbn. intros H. repeat (destruct H as [H|H]; try discriminate). contradiction.
Qed.

Lemma set_seed_when_nothing_fails_witness :
  (forall a, fails {| fails := fun _ => None; cuda_available := true |} a = None) /\
  set_seed {| fails := fun _ => None; cuda_available := true |} 42 true false [] =
    (Ok tt,
     [ImportTensorflow; TfRandomSetSeed 42;
      ImportNumpy; ImportRandom; NpRandomSeed 42; RandomSeed 42]).
Proof.
  assert (Hok : forall a,
             fails {| fails := fun _ => None; cuda_available := true |} a = None)
    by reflexivity.
  split; [exact Hok|].
  exact (set_seed_when_nothing_fails
           {| fails := fun _ => None; cuda_available := true |} 42 true false [] Hok).
Defined.

End Seeding.

(** * The plotting helpers *)

Module Plots.
Import Effects.

(** Objects a module-level name of [utils.py] can be bound to. *)
Inductive pyobj : Type :=
| PyModule (name : string)
| PyFunction (name : string)
| PyMetric (name : string).

Definition namespace : Type := list (string * pyobj).

(** The global namespace of [utils.py]: its two imports and its six
    functions. *)
Definition utils_globals : namespace :=
  [("pd", PyModule "pandas"); ("dc", PyModule "deepchem");
   ("load_data", PyFunction "load_data");
   ("receptor_data", PyFunction "receptor_data");
   ("set_seed", PyFunction "set_seed");
   ("fit_best_model", PyFunction "fit_best_model");
   ("plot_predictions", PyFunction "plot_predictions");
   ("plot_validation", PyFunction "plot_validation")]%string.

Fixpoint lookup (ns : namespace) (x : string) : option pyobj :=
  match ns with
  | [] => None
  | (y, o) :: ns' => if String.eqb x y then Some o else lookup ns' x
  end.

(** [min(l)] and [max(l)] raise on an empty list. *)
Definition py_min (l : list Z) : result Z :=
  match l with
  | [] => Raise ValueError
  | x :: l' => Ok (fold_left Z.min l' x)
  end.

Definition py_max (l : list Z) : result Z :=
  match l with
  | [] => Raise ValueError
  | x :: l' => Ok (fold_left Z.max l' x)
  end.

(** [range(lo, hi, step)] for a positive [step]. *)
Definition range_step (lo hi step : Z) : list Z :=
  map (fun i => lo + step * Z.of_nat i)
      (seq 0 (Z.to_nat ((hi - lo + step - 1) / step))).

Section Helpers.
Context {Score : Type}.
(** Arrays of labels and predictions, and the datasets that carry them. *)
Variables Arr Data : Type.

Inductive action : Type :=
| ImportPyplot
| PltPlotArrays (x y : Arr) (label : string)
| PltScatter (x y : Arr) (marker label : string)
| PltPlot (epochs : list Z) (scores : list Score) (label : string)
| PltGca
| AxesSet (xlabel ylabel title : string)
| PltXticks (ticks : list Z)
| PltLegend.

(** Which calls into matplotlib raise. *)
Variable fails : action -> option exn.

Local Open Scope eff_scope.

Definition lift {A : Type} (r : result A) : M action A :=
  match r with
  | Ok a => ret a
  | Raise e => raise e
  end.

(** Reading a name that the function does not bind: the module's globals
    are searched, and the name is an error when it is not there (no builtin
    is called [metric]). *)
Definition load_global (globals : namespace) (x : string) : M action pyobj :=
  match lookup globals x with
  | Some o => ret o
  | None => raise (NameError x)
  end.

(** [o.name] *)
Definition attr_name (o : pyobj) : M action string :=
  match o with
  | PyMetric n => ret n
  | _ => raise (AttributeError "name")
  end.

(** [plot_validation(trained_model)], defined in a module whose globals are
    [globals].  The last statement, [plt.show], names the function without
    calling it. *)
Definition plot_validation (globals : namespace)
    (trained_model : list (Z * Score * Score)) : M action unit :=
  call fails ImportPyplot ;;
  let epochs := map (fun x => fst (fst x)) trained_model in
  let valid_scores := map (fun x => snd (fst x)) trained_model in
  let train_scores := map (fun x => snd x) trained_model in
  call fails (PltPlot epochs train_scores "Training") ;;
  call fails (PltPlot epochs valid_scores "Validation") ;;
  call fails PltGca ;;
  metric <- load_global globals "metric" ;;
  ylabel <- attr_name metric ;;
  call fails (AxesSet "Epochs" ylabel "Validation") ;;
  lo <- lift (py_min epochs) ;;
  hi <- lift (py_max epochs) ;;
  call fails (PltXticks (range_step lo (hi + 1) 4)) ;;
  call fails PltLegend ;;
  ret tt.

(** The model's and the transformer's part in [plot_predictions]. *)
Record Predictor : Type := {
  predict : Data -> Arr;      (* model.predict(data, [transformer]).flatten() *)
  labels : Data -> Arr;       (* data.y *)
  untransform : Arr -> Arr    (* transformer.untransform *)
}.

Definition plot_predictions (p : Predictor) (training_data test_data : Data) :
  M action unit :=
  call fails ImportPyplot ;;
  let train_preds := predict p training_data in
  let test_preds := predict p test_data in
  let train_plot := untransform p (labels p training_data) in
  let test_plot := untransform p (labels p test_data) in
  call fails (PltPlotArrays train_plot train_plot "True values") ;;
  call fails (PltScatter train_plot train_preds "." "train preds") ;;
  call fails (PltScatter test_plot test_preds "." "test preds") ;;
  call fails PltLegend ;;
  ret tt.

(** In [utils.py] the name [metric] is bound nowhere, so [plot_validation]
    never returns: whatever the history and whatever matplotlib does, the
    call ends in an exception. *)
Lemma plot_validation_never_returns (trained_model : list (Z * Score * Score)) :
  exists e tr, plot_validation utils_globals trained_model [] = (Raise e, tr).
Proof.
  unfold plot_validation, bindM, call, load_global. cbn.
  destruct (fails ImportPyplot); [eexists _, _; reflexivity|].
  destruct (fails (PltPlot _ _ "Training")); [eexists _, _; reflexivity|].
  destruct (fails (PltPlot _ _ "Validation")); [eexists _, _; reflexivity|].
  destruct (fails PltGca); eexists _, _; reflexivity.
Qed.


(** ** [plot_validation] in a module that binds [metric] *)

Lemma fold_min_spec (l : list Z) (x : Z) :
  In (fold_left Z.min l x) (x :: l) /\
  forall e, In e (x :: l) -> fold_left Z.min l x <= e.
Proof.
  revert x. induction l as [|y l IH]; intros x.
  - cbn. split; [left; reflexivity|]. intros e [<-|[]]. lia.
  - cbn [fold_left]. destruct (IH (Z.min x y)) as [Hin Hle]. split.
    + destruct Hin as [Hm|Hin]; [|right; right; exact Hin].
      rewrite <- Hm. destruct (Z.min_spec x y) as [[_ ->]|[_ ->]];
        [left|right; left]; reflexivity.
    + intros e He.
      assert (Hmin : fold_left Z.min l (Z.min x y) <= Z.min x y)
        by (apply Hle; left; reflexivity).
      destruct He as [<-|[<-|He]]; [lia|lia|].
      apply Hle. right. exact He.
Qed.

Lemma fold_max_spec (l : list Z) (x : Z) :
  In (fold_left Z.max l x) (x :: l) /\
  forall e, In e (x :: l) -> e <= fold_left Z.max l x.
Proof.
  revert x. induction l as [|y l IH]; intros x.
  - cbn. split; [left; reflexivity|]. intros e [<-|[]]. lia.
  - cbn [fold_left]. destruct (IH (Z.max x y)) as [Hin Hle]. split.
    + destruct Hin as [Hm|Hin]; [|right; right; exact Hin].
      rewrite <- Hm. destruct (Z.max_spec x y) as [[_ ->]|[_ ->]];
        [right; left|left]; reflexivity.
    + intros e He.
      assert (Hmax : Z.max x y <= fold_left Z.max l (Z.max x y))
        by (apply Hle; left; reflexivity).
      destruct He as [<-|[<-|He]]; [lia|lia|].
      apply Hle. right. exact He.
Qed.

(** [range(lo, hi + 1, 4)] holds exactly the numbers from [lo] to [hi] that
    are a multiple of 4 away from [lo]. *)
Lemma range_step_4 (lo hi t : Z) :
  lo <= hi ->
  In t (range_step lo (hi + 1) 4) <-> lo <= t <= hi /\ (t - lo) mod 4 = 0.
Proof.
  intros Hle. unfold range_step. rewrite in_map_iff. split.
  - intros (i & <- & Hi). apply in_seq in Hi.
    assert (Hq : Z.of_nat i < (hi + 1 - lo + 4 - 1) / 4) by lia.
    replace (lo + 4 * Z.of_nat i - lo) with (Z.of_nat i * 4) by lia.
    rewrite Z.mod_mul by lia. split; [|reflexivity].
    assert (4 * ((hi + 1 - lo + 4 - 1) / 4) <= hi + 1 - lo + 4 - 1)
      by (apply Z.mul_div_le; lia).
    lia.
  - intros [Hrange Hmod].
    assert (Hk : t - lo = 4 * ((t - lo) / 4)).
    { pose proof (Z.div_mod (t - lo) 4 ltac:(lia)) as Hdm. lia. }
    exists (Z.to_nat ((t - lo) / 4)). split; [lia|].
    apply in_seq. split; [lia|]. cbn [Nat.add].
    apply Z2Nat.inj_lt; [lia| |].
    + apply Z.div_pos; lia.
    + apply Z.div_lt_upper_bound; [lia|].
      pose proof (Z.mul_succ_div_gt (hi + 1 - lo + 4 - 1) 4 ltac:(lia)). lia.
Qed.

(** X21. In a module that binds [metric] to a metric object, and with a
    matplotlib that raises nothing, [plot_validation] raises [ValueError]
    on an empty history, after the curves and the axis labels: [min] has
    nothing to work on.  On any other history it returns, and the ticks of
    the epoch axis are the numbers from the smallest to the largest recorded
    epoch that lie a multiple of 4 above the smallest. *)
Theorem plot_validation_with_metric_bound (globals : namespace) (name : string)
    (trained_model : list (Z * Score * Score)) :
  lookup globals "metric" = Some (PyMetric name) ->
  (forall a, fails a = None) ->
  let epochs := map (fun x => fst (fst x)) trained_model in
  let curves :=
    [ImportPyplot;
     PltPlot epochs (map (fun x => snd x) trained_model) "Training";
     PltPlot epochs (map (fun x => snd (fst x)) trained_model) "Validation";
     PltGca;
     AxesSet "Epochs" name "Validation"] in
  (trained_model = [] ->
   plot_validation globals trained_model [] = (Raise ValueError, curves)) /\
  (trained_model <> [] ->
   exists lo hi ticks,
     plot_validation globals trained_model [] =
       (Ok tt, curves ++ [PltXticks ticks; PltLegend]) /\
     In lo epochs /\ In hi epochs /\
     (forall e, In e epochs -> lo <= e <= hi) /\
     (forall t, In t ticks <-> lo <= t <= hi /\ (t - lo) mod 4 = 0)).
Proof.
  intros Hmetric Hfails epochs curves. split.
  - intros ->. unfold plot_validation, bindM, call, load_global.
    rewrite Hmetric. repeat (cbn; rewrite ?Hfails). reflexivity.
  - intros Hne. destruct trained_model as [|x rest]; [contradiction|].
    set (rest_epochs := map (fun x => fst (fst x)) rest).
    destruct (fold_min_spec rest_epochs (fst (fst x))) as [Hlo_in Hlo].
    destruct (fold_max_spec rest_epochs (fst (fst x))) as [Hhi_in Hhi].
    exists (fold_left Z.min rest_epochs (fst (fst x))),
           (fold_left Z.max rest_epochs (fst (fst x))).
    eexists. split.
    + unfold plot_validation, bindM, call, load_global.
      rewrite Hmetric. repeat (cbn -[range_step]; rewrite ?Hfails). reflexivity.
    + split; [exact Hlo_in|]. split; [exact Hhi_in|]. split.
      * intros e He. split; [apply Hlo|apply Hhi]; exact He.
      * intros t. apply range_step_4.
        apply Hlo. exact Hhi_in.
Qed.


(** ** [plot_predictions] and a matplotlib that raises *)


End Helpers.

(** C8 fails for [plot_validation].  When no call into matplotlib raises,
    [plot_validation] draws its two curves, asks for the axes and then
    raises [NameError] on the unbound name [metric], for every score
    history; [plot_predictions], in contrast, then returns [None]. *)
Theorem plot_validation_raises_NameError
    (Score Arr Data : Type) (trained_model : list (Z * Score * Score))
    (p : Predictor Arr Data) (training_data test_data : Data) :
  let epochs := map (fun x => fst (fst x)) trained_model in
  plot_validation Arr (fun _ => None) utils_globals trained_model [] =
    (Raise (NameError "metric"),
     [ImportPyplot Arr;
      PltPlot Arr epochs (map (fun x => snd x) trained_model) "Training";
      PltPlot Arr epochs (map (fun x => snd (fst x)) trained_model) "Validation";
      PltGca Arr]) /\
  fst (plot_predictions (Score := Score) Arr Data (fun _ => None) p
         training_data test_data []) = Ok tt.
Proof. split; reflexivity. Qed.

(** With [metric] bound at module level and a non-empty history the same
    function returns. *)
Lemma plot_validation_with_metric :
  plot_validation (Score := Q) unit (fun _ => None)
    (("metric"%string, PyMetric "rmse") :: utils_globals)
    [(1, 5%Q, 2%Q); (2, 4%Q, 1%Q)] [] =
  (Ok tt,
   [ImportPyplot unit;
    PltPlot unit [1; 2] [2%Q; 1%Q] "Training";
    PltPlot unit [1; 2] [5%Q; 4%Q] "Validation";
    PltGca unit;
    AxesSet unit "Epochs" "rmse" "Validation";
    PltXticks unit [1];
    PltLegend unit]).
Proof. reflexivity. Qed.


Lemma plot_validation_with_metric_bound_witness :
  lookup (("metric"%string, PyMetric "rmse") :: utils_globals) "metric" =
    Some (PyMetric "rmse") /\
  exists lo hi ticks,
    plot_validation (Score := Q) unit (fun _ => None)
      (("metric"%string, PyMetric "rmse") :: utils_globals)
      [(1, 5%Q, 2%Q); (5, 4%Q, 1%Q); (9, 4%Q, 1%Q); (11, 4%Q, 1%Q)] [] =
      (Ok tt,
       [ImportPyplot unit;
        PltPlot unit [1; 5; 9; 11] [2%Q; 1%Q; 1%Q; 1%Q] "Training";
        PltPlot unit [1; 5; 9; 11] [5%Q; 4%Q; 4%Q; 4%Q] "Validation";
        PltGca unit;
        AxesSet unit "Epochs" "rmse" "Validation";
        PltXticks unit ticks;
        PltLegend unit]) /\
    (forall t, In t ticks <-> lo <= t <= hi /\ (t - lo) mod 4 = 0).
Proof.
  split; [reflexivity|].
  pose proof (plot_validation_with_metric_bound (Score := Q) unit (fun _ => None)
                (("metric"%string, PyMetric "rmse") :: utils_globals) "rmse"
                [(1, 5%Q, 2%Q); (5, 4%Q, 1%Q); (9, 4%Q, 1%Q); (11, 4%Q, 1%Q)]
                eq_refl (fun _ => eq_refl)) as H.
  cbv zeta in H. destruct H as [_ H].
  destruct (H ltac:(discriminate)) as (lo & hi & ticks & Hrun & _ & _ & _ & Hticks).
  exists lo, hi, ticks. split; [exact Hrun|exact Hticks].
Defined.

End Plots.

(** * The molecule table: [load_data] and [receptor_data] *)

Module Tables.

Section DataFrames.
(** RDKit molecule objects, compared by identity. *)
Variable Mol : Type.
Variable Mol_eq_dec : forall a b : Mol, {a = b} + {a <> b}.

(** ** Tables

    A table cell holds a number, a string, a molecule object or [None].
    Index labels are cells too.  A row carries its label and its cells by
    column name; the table lists the columns it has. *)
Inductive cell : Type :=
| CNum (x : Q)
| CStr (s : string)
| CMol (m : Mol)
| CNone.

Definition cell_eqb (a b : cell) : bool :=
  match a, b with
  | CNum x, CNum y => Qeq_bool x y
  | CStr s, CStr t => String.eqb s t
  | CMol m, CMol n => if Mol_eq_dec m n then true else false
  | CNone, CNone => true
  | _, _ => false
  end.

Record row : Type := {
  row_label : cell;
  row_cells : string -> cell
}.

Record DataFrame : Type := {
  df_columns : list string;
  df_rows : list row
}.

(** [c in df.columns] *)
Definition has_column (df : DataFrame) (c : string) : bool :=
  existsb (String.eqb c) (df_columns df).

(** [df[c]]: the values of a column, in row order. *)
Definition getitem (df : DataFrame) (c : string) : result (list cell) :=
  if has_column df c then Ok (map (fun r => row_cells r c) (df_rows df))
  else Raise (KeyError c).

(** [df.index] *)
Definition index (df : DataFrame) : list cell := map row_label (df_rows df).

(** [df.set_index(c)]: the column becomes the index and leaves the
    columns. *)
Definition set_index (c : string) (df : DataFrame) : result DataFrame :=
  if has_column df c then
    Ok {| df_columns := filter (fun x => negb (String.eqb c x)) (df_columns df);
          df_rows := map (fun r => {| row_label := row_cells r c;
                                      row_cells := row_cells r |}) (df_rows df) |}
  else Raise (KeyError c).

Definition set_cell (c : string) (v : cell) (r : row) : row :=
  {| row_label := row_label r;
     row_cells := fun x => if String.eqb x c then v else row_cells r x |}.

(** [df[c] = values], for values computed from a column of [df] itself, so
    aligned with its rows. *)
Definition setitem (df : DataFrame) (c : string) (values : list cell) : DataFrame :=
  {| df_columns := if has_column df c then df_columns df else df_columns df ++ [c];
     df_rows := map (fun rv => set_cell c (snd rv) (fst rv))
                    (combine (df_rows df) values) |}.

(** [series.apply(f)] *)
Fixpoint apply (f : cell -> result cell) (series : list cell) : result (list cell) :=
  match series with
  | [] => Ok []
  | v :: rest =>
      w <- f v ;;
      ws <- apply f rest ;;
      Ok (w :: ws)
  end.

(** [df[mask]] for a boolean mask aligned with the rows. *)
Definition mask_select (df : DataFrame) (mask : list bool) : DataFrame :=
  {| df_columns := df_columns df;
     df_rows := map fst (filter snd (combine (df_rows df) mask)) |}.

(** [df[[c1, c2, ...]]] *)
Fixpoint missing_column (df : DataFrame) (cols : list string) : option string :=
  match cols with
  | [] => None
  | c :: rest => if has_column df c then missing_column df rest else Some c
  end.

Definition project (df : DataFrame) (cols : list string) : result DataFrame :=
  match missing_column df cols with
  | Some c => Raise (KeyError c)
  | None => Ok {| df_columns := cols; df_rows := df_rows df |}
  end.

(** [df.drop(labels)]: every row whose label is among [labels] goes. *)
Definition drop (labels : list cell) (df : DataFrame) : DataFrame :=
  {| df_columns := df_columns df;
     df_rows := filter (fun r => negb (existsb (cell_eqb (row_label r)) labels))
                       (df_rows df) |}.

(** [series < n] for an integer [n]: numbers compare, anything else is a
    type error. *)
Definition lt_cell (n : Z) (v : cell) : result bool :=
  match v with
  | CNum x => Ok (Qltb x (inject_Z n))
  | _ => Raise TypeError
  end.

Fixpoint lt_scalar (series : list cell) (n : Z) : result (list bool) :=
  match series with
  | [] => Ok []
  | v :: rest =>
      b <- lt_cell n v ;;
      bs <- lt_scalar rest n ;;
      Ok (b :: bs)
  end.

(** [series == 0.0]: only a number equal to zero answers [True]. *)
Definition is_zero (v : cell) : bool :=
  match v with
  | CNum x => Qeq_bool x 0
  | _ => false
  end.

Definition eq_zero (series : list cell) : list bool := map is_zero series.

(** [series.to_numpy()] of a numeric column. *)
Fixpoint to_numpy (series : list cell) : result (list Q) :=
  match series with
  | [] => Ok []
  | CNum x :: rest =>
      xs <- to_numpy rest ;;
      Ok (x :: xs)
  | _ :: _ => Raise TypeError
  end.

(** [row["MolWt"] < MolWt] *)
Definition weight_below (MolWt : Z) (r : row) : bool :=
  match row_cells r "MolWt" with
  | CNum w => Qltb w (inject_Z MolWt)
  | _ => false
  end.

Definition numeric (c : string) (df : DataFrame) : Prop :=
  forall r, In r (df_rows df) -> exists x, row_cells r c = CNum x.

(** [df[mask].index] for [mask = df[c] == 0.0]. *)
Definition zero_labels (c : string) (df : DataFrame) : list cell :=
  map row_label (filter (fun r => is_zero (row_cells r c)) (df_rows df)).

(** The rows left by [drop]. *)
Definition kept_rows (c : string) (df : DataFrame) : list row :=
  filter (fun r => negb (existsb (cell_eqb (row_label r)) (zero_labels c df)))
         (df_rows df).

(** No two rows carry the same index label. *)
Definition labels_distinct (df : DataFrame) : Prop :=
  forall r r', In r (df_rows df) -> In r' (df_rows df) ->
               cell_eqb (row_label r) (row_label r') = true -> r = r'.

(** The value of the receptor column in a row, as a number. *)
Definition receptor_value (c : string) (r : row) : Q :=
  match row_cells r c with
  | CNum x => x
  | _ => 0%Q
  end.

(** ** Properties of the table operations *)

Lemma bind_Ok {A B : Type} (r : result A) (k : A -> result B) (b : B) :
  bind r k = Ok b -> exists a, r = Ok a /\ k a = Ok b.
Proof. destruct r as [a|e]; cbn; [eauto|discriminate]. Qed.

Lemma Qltb_lt (x y : Q) : Qltb x y = true <-> (x < y)%Q.
Proof.
  unfold Qltb. rewrite negb_true_iff. split.
  - intros H. apply Qnot_le_lt. intros Hle. apply Qle_bool_iff in Hle. congruence.
  - intros H. destruct (Qle_bool y x) eqn:E; [|reflexivity].
    apply Qle_bool_iff in E. exfalso. exact (Qlt_not_le _ _ H E).
Qed.

Lemma has_column_setitem (df : DataFrame) (c : string) (values : list cell) :
  has_column (setitem df c values) c = true.
Proof.
  unfold has_column at 1. cbn [setitem df_columns].
  destruct (has_column df c) eqn:E; [exact E|].
  rewrite existsb_app. cbn. rewrite String.eqb_refl, orb_true_r. reflexivity.
Qed.

Lemma mask_rows {A : Type} (f : A -> bool) (l : list A) :
  map fst (filter snd (combine l (map f l))) = filter f l.
Proof.
  induction l as [|x l IH]; [reflexivity|].
  cbn. destruct (f x); cbn; rewrite IH; reflexivity.
Qed.

Lemma lt_scalar_numeric (rows : list row) (n : Z) :
  (forall r, In r rows -> exists x, row_cells r "MolWt" = CNum x) ->
  lt_scalar (map (fun r => row_cells r "MolWt") rows) n =
  Ok (map (weight_below n) rows).
Proof.
  induction rows as [|r rows IH]; intros Hnum; [reflexivity|].
  cbn [map lt_scalar]. destruct (Hnum r (or_introl eq_refl)) as [x Hx].
  unfold weight_below at 1. rewrite Hx. cbn [lt_cell bind].
  rewrite IH; [reflexivity|]. intros r' Hr'. apply Hnum. right. assumption.
Qed.

Lemma getitem_has (df : DataFrame) (c : string) :
  In c (df_columns df) ->
  getitem df c = Ok (map (fun r => row_cells r c) (df_rows df)).
Proof.
  intros Hin. unfold getitem, has_column.
  replace (existsb (String.eqb c) (df_columns df)) with true; [reflexivity|].
  symmetry. apply existsb_exists. exists c. split; [assumption|apply String.eqb_refl].
Qed.

Lemma cell_eqb_refl (c : cell) : cell_eqb c c = true.
Proof.
  destruct c as [x|t|m|]; cbn.
  - apply Qeq_bool_refl.
  - apply String.eqb_refl.
  - destruct (Mol_eq_dec m m); [reflexivity|contradiction].
  - reflexivity.
Qed.

Lemma kept_rows_nonzero (c : string) (df : DataFrame) (r : row) :
  In r (kept_rows c df) -> In r (df_rows df) /\ is_zero (row_cells r c) = false.
Proof.
  unfold kept_rows. intros H. apply filter_In in H as [Hin Hk].
  split; [assumption|].
  destruct (is_zero (row_cells r c)) eqn:Hz; [|reflexivity].
  apply negb_true_iff in Hk.
  assert (Hex : existsb (cell_eqb (row_label r)) (zero_labels c df) = true).
  { apply existsb_exists. exists (row_label r). split; [|apply cell_eqb_refl].
    unfold zero_labels. apply in_map. apply filter_In. split; assumption. }
  congruence.
Qed.

Lemma kept_rows_distinct (c : string) (df : DataFrame) :
  labels_distinct df ->
  kept_rows c df = filter (fun r => negb (is_zero (row_cells r c))) (df_rows df).
Proof.
  intros Hd. unfold kept_rows. apply filter_ext_in. intros r Hr. f_equal.
  destruct (is_zero (row_cells r c)) eqn:Hz.
  - apply existsb_exists. exists (row_label r). split; [|apply cell_eqb_refl].
    unfold zero_labels. apply in_map. apply filter_In. split; assumption.
  - destruct (existsb _ _) eqn:Hex; [|reflexivity].
    apply existsb_exists in Hex as (l & Hl & Heq).
    unfold zero_labels in Hl. apply in_map_iff in Hl as (r' & <- & Hr').
    apply filter_In in Hr' as [Hin' Hz'].
    rewrite (Hd r r' Hr Hin' Heq) in Hz. congruence.
Qed.

Lemma to_numpy_numeric (c : string) (rows : list row) :
  (forall r, In r rows -> exists x, row_cells r c = CNum x) ->
  to_numpy (map (fun r => row_cells r c) rows) = Ok (map (receptor_value c) rows).
Proof.
  induction rows as [|r rows IH]; intros Hnum; [reflexivity|].
  cbn [map to_numpy]. destruct (Hnum r (or_introl eq_refl)) as [x Hx].
  unfold receptor_value at 1. rewrite Hx.
  rewrite IH; [reflexivity|]. intros r' Hr'. apply Hnum. right. assumption.
Qed.

(** ** [load_data] *)

Section LoadData.
(** The file system and RDKit: [pd.read_csv], [Chem.MolFromSmiles] (which
    answers [None] for a string it cannot parse) and [Descriptors.MolWt]. *)
Variable read_csv : string -> result DataFrame.
Variable MolFromSmiles : string -> option Mol.
Variable Descriptors_MolWt : Mol -> Q.

Definition Chem_MolFromSmiles (v : cell) : result cell :=
  match v with
  | CStr s => Ok (match MolFromSmiles s with Some m => CMol m | None => CNone end)
  | _ => Raise TypeError
  end.

Definition Descriptors_MolWt_cell (v : cell) : result cell :=
  match v with
  | CMol m => Ok (CNum (Descriptors_MolWt m))
  | _ => Raise TypeError
  end.

(** The table as read, re-indexed and completed with its derived columns:
    everything up to the weight filter. *)
Definition load_table (datafile : string) (first_index : bool) : result DataFrame :=
  df <- read_csv datafile ;;
  df <- (if first_index then set_index "1" df else Ok df) ;;
  df <- (if has_column df "molecules" then Ok df
         else
           smiles <- getitem df "SMILES" ;;
           molecules <- apply Chem_MolFromSmiles smiles ;;
           Ok (setitem df "molecules" molecules)) ;;
  if has_column df "MolWt" then Ok df
  else
    molecules <- getitem df "molecules" ;;
    weights <- apply Descriptors_MolWt_cell molecules ;;
    Ok (setitem df "MolWt" weights).

Definition load_data (datafile : string) (MolWt : Z) (first_index : bool) :
  result DataFrame :=
  df <- load_table datafile first_index ;;
  weights <- getitem df "MolWt" ;;
  mask <- lt_scalar weights MolWt ;;
  Ok (mask_select df mask).

Lemma load_table_has_MolWt (datafile : string) (first_index : bool) (df : DataFrame) :
  load_table datafile first_index = Ok df -> has_column df "MolWt" = true.
Proof.
  unfold load_table. intros H.
  apply bind_Ok in H as (df1 & _ & H).
  apply bind_Ok in H as (df2 & _ & H).
  apply bind_Ok in H as (df3 & _ & H).
  destruct (has_column df3 "MolWt") eqn:E.
  - injection H as <-. exact E.
  - apply bind_Ok in H as (ms & _ & H).
    apply bind_Ok in H as (ws & _ & H).
    injection H as <-. apply has_column_setitem.
Qed.

(** On a loaded table whose weights are numbers, [load_data] returns, and
    what it returns is the sub-table of the rows whose weight is strictly
    below the threshold. *)
Lemma load_data_filters (datafile : string) (MolWt : Z) (first_index : bool)
    (df : DataFrame) :
  load_table datafile first_index = Ok df ->
  numeric "MolWt" df ->
  exists out,
    load_data datafile MolWt first_index = Ok out /\
    df_columns out = df_columns df /\
    df_rows out = filter (weight_below MolWt) (df_rows df) /\
    (forall r w, In r (df_rows out) -> row_cells r "MolWt" = CNum w ->
                 (w < inject_Z MolWt)%Q /\ ~ (inject_Z MolWt <= w)%Q) /\
    (forall r w, In r (df_rows df) -> row_cells r "MolWt" = CNum w ->
                 (w < inject_Z MolWt)%Q -> In r (df_rows out)).
Proof.
  intros Hload Hnum. unfold load_data. rewrite Hload. cbn [bind].
  unfold getitem. rewrite (load_table_has_MolWt _ _ _ Hload). cbn [bind].
  rewrite lt_scalar_numeric by exact Hnum. cbn [bind].
  eexists. split; [reflexivity|]. cbn [mask_select df_columns df_rows].
  rewrite mask_rows. split; [reflexivity|]. split; [reflexivity|]. split.
  - intros r w Hin Hw. apply filter_In in Hin as [_ Hb].
    unfold weight_below in Hb. rewrite Hw in Hb. apply Qltb_lt in Hb.
    split; [assumption|]. intros Hle. exact (Qlt_not_le _ _ Hb Hle).
  - intros r w Hin Hw Hlt. apply filter_In. split; [assumption|].
    unfold weight_below. rewrite Hw. apply Qltb_lt. assumption.
Qed.

Lemma apply_map (f : cell -> result cell) (h g : row -> cell) (rows : list row) :
  (forall r, In r rows -> f (h r) = Ok (g r)) ->
  apply f (map h rows) = Ok (map g rows).
Proof.
  induction rows as [|r rows IH]; intros Hf; [reflexivity|].
  cbn [map apply]. rewrite (Hf r (or_introl eq_refl)). cbn [bind].
  rewrite IH; [reflexivity|]. intros r' Hr'. apply Hf. right. exact Hr'.
Qed.

Lemma setitem_rows_map (df : DataFrame) (c : string) (f : row -> row)
    (g : row -> cell) (rows : list row) :
  df_rows df = map f rows ->
  df_rows (setitem df c (map g rows)) = map (fun r => set_cell c (g r) (f r)) rows.
Proof.
  intros Hrows. cbn [setitem df_rows]. rewrite Hrows. clear Hrows.
  induction rows as [|r rows IH]; [reflexivity|].
  cbn. f_equal. exact IH.
Qed.

Lemma setitem_rows (df : DataFrame) (c : string) (g : row -> cell) :
  df_rows (setitem df c (map g (df_rows df))) =
  map (fun r => set_cell c (g r) r) (df_rows df).
Proof. apply (setitem_rows_map df c (fun r => r)). symmetry. apply map_id. Qed.

(** A file that holds a [SMILES] column of strings RDKit can parse, and
    neither a [molecules] nor a [MolWt] column, loads: every row gets its
    molecule and the weight RDKit computes for it. *)
Lemma load_table_returns (datafile : string) (df0 : DataFrame)
    (mol : row -> Mol) :
  read_csv datafile = Ok df0 ->
  has_column df0 "molecules" = false ->
  has_column df0 "MolWt" = false ->
  has_column df0 "SMILES" = true ->
  (forall r, In r (df_rows df0) ->
             exists s, row_cells r "SMILES" = CStr s /\
                       MolFromSmiles s = Some (mol r)) ->
  exists df,
    load_table datafile false = Ok df /\
    numeric "MolWt" df /\
    df_rows df =
      map (fun r => set_cell "MolWt" (CNum (Descriptors_MolWt (mol r)))
                      (set_cell "molecules" (CMol (mol r)) r))
          (df_rows df0).
Proof.
  intros Hread Hnm Hnw Hs Hparse.
  unfold load_table. rewrite Hread. cbn [bind]. rewrite Hnm.
  unfold getitem at 1. rewrite Hs. cbn [bind].
  rewrite (apply_map Chem_MolFromSmiles (fun r => row_cells r "SMILES")
             (fun r => CMol (mol r))).
  2:{ intros r Hr. destruct (Hparse r Hr) as (t & -> & Hm). cbn. rewrite Hm.
      reflexivity. }
  cbn [bind].
  assert (Hnw' : has_column (setitem df0 "molecules"
                               (map (fun r => CMol (mol r)) (df_rows df0)))
                            "MolWt" = false).
  { unfold has_column at 1. cbn [setitem df_columns]. rewrite Hnm.
    unfold has_column in Hnw. rewrite existsb_app, Hnw. reflexivity. }
  rewrite Hnw'. unfold getitem.
  rewrite has_column_setitem. cbn [bind]. rewrite setitem_rows.
  rewrite (map_map (fun r => set_cell "molecules" (CMol (mol r)) r)
                   (fun r => row_cells r "molecules")).
  assert (Hw : apply Descriptors_MolWt_cell
                 (map (fun r => row_cells (set_cell "molecules" (CMol (mol r)) r)
                                          "molecules") (df_rows df0)) =
               Ok (map (fun r => CNum (Descriptors_MolWt (mol r))) (df_rows df0))).
  { apply apply_map. intros r _. cbn [set_cell row_cells].
    rewrite String.eqb_refl. reflexivity. }
  rewrite Hw. cbn [bind].
  eexists. split; [reflexivity|].
  assert (Hrows :
            df_rows (setitem
                       (setitem df0 "molecules"
                          (map (fun r => CMol (mol r)) (df_rows df0)))
                       "MolWt"
                       (map (fun r => CNum (Descriptors_MolWt (mol r)))
                            (df_rows df0))) =
            map (fun r => set_cell "MolWt" (CNum (Descriptors_MolWt (mol r)))
                            (set_cell "molecules" (CMol (mol r)) r))
                (df_rows df0)).
  { apply (setitem_rows_map _ "MolWt"
             (fun r => set_cell "molecules" (CMol (mol r)) r)).
    apply setitem_rows. }
  split; [|exact Hrows].
  intros r Hr. rewrite Hrows in Hr. apply in_map_iff in Hr as (r0 & <- & _).
  eexists. cbn [set_cell row_cells]. rewrite String.eqb_refl. reflexivity.
Qed.

(** ** Further properties of [load_data] *)

Lemma has_column_setitem_other (df : DataFrame) (c c' : string) (values : list cell) :
  has_column (setitem df c values) c' = has_column df c' || String.eqb c' c.
Proof.
  unfold has_column at 1. cbn [setitem df_columns].
  destruct (has_column df c) eqn:Hc.
  - fold (has_column df c'). destruct (String.eqb_spec c' c) as [->|_].
    + rewrite Hc. reflexivity.
    + rewrite orb_false_r. reflexivity.
  - rewrite existsb_app. cbn. rewrite orb_false_r. reflexivity.
Qed.

Lemma has_column_set_index (df df' : DataFrame) (c c' : string) :
  set_index c df = Ok df' ->
  has_column df' c' = has_column df c' && negb (String.eqb c c').
Proof.
  unfold set_index. destruct (has_column df c); [|discriminate].
  intros H. injection H as <-. unfold has_column. cbn [df_columns].
  induction (df_columns df) as [|x l IH]; [reflexivity|].
  cbn. destruct (String.eqb_spec c x) as [->|Hne]; cbn.
  - rewrite IH. destruct (String.eqb_spec c' x) as [->|Hne'].
    + rewrite String.eqb_refl. cbn. rewrite andb_false_r. reflexivity.
    + reflexivity.
  - rewrite IH. destruct (String.eqb_spec c' x) as [->|Hne'].
    + destruct (String.eqb_spec c x); [contradiction|]. reflexivity.
    + reflexivity.
Qed.

Lemma Forall2_In_l {A B : Type} (R : A -> B -> Prop) (l : list A) (l' : list B)
    (v : A) :
  Forall2 R l l' -> In v l -> exists w, In w l' /\ R v w.
Proof.
  induction 1 as [|a b l l' Hab _ IH]; [contradiction|].
  intros [->|Hin].
  - exists b. split; [left; reflexivity|exact Hab].
  - destruct (IH Hin) as (w & Hw & Hvw). exists w. split; [right; exact Hw|exact Hvw].
Qed.

(** [apply] answers the images of the values, in order. *)
Lemma apply_Ok (f : cell -> result cell) (l l' : list cell) :
  apply f l = Ok l' -> Forall2 (fun v w => f v = Ok w) l l'.
Proof.
  revert l'. induction l as [|v l IH]; intros l' H; cbn in H.
  - injection H as <-. constructor.
  - destruct (f v) as [w|e] eqn:Hv; [|discriminate]. cbn in H.
    destruct (apply f l) as [ws|e]; [|discriminate]. cbn in H.
    injection H as <-. constructor; [exact Hv|]. apply IH. reflexivity.
Qed.

Lemma apply_raises (f : cell -> result cell) (l : list cell) (x e : exn) :
  (forall v e', f v = Raise e' -> e' = x) ->
  apply f l = Raise e -> e = x.
Proof.
  intros Hf. induction l as [|v l IH]; cbn; [discriminate|].
  destruct (f v) as [w|e'] eqn:Hv; cbn.
  - destruct (apply f l) as [ws|e'']; cbn; [discriminate|].
    intros H. injection H as <-. apply IH. reflexivity.
  - intros H. injection H as <-. exact (Hf _ _ Hv).
Qed.

Lemma apply_raises_at (f : cell -> result cell) (l : list cell) (v : cell) (x : exn) :
  (forall v e', f v = Raise e' -> e' = x) ->
  In v l -> f v = Raise x -> apply f l = Raise x.
Proof.
  intros Hf Hin Hv. destruct (apply f l) as [l'|e] eqn:Happ.
  - exfalso. apply apply_Ok in Happ. clear Hf.
    induction Happ as [|a b l l' Hab _ IH]; [contradiction|].
    destruct Hin as [->|Hin]; [congruence|exact (IH Hin)].
  - f_equal. exact (apply_raises f l x e Hf Happ).
Qed.

Lemma setitem_column (df : DataFrame) (c : string) (values : list cell) :
  List.length values = List.length (df_rows df) ->
  map (fun r => row_cells r c) (df_rows (setitem df c values)) = values.
Proof.
  cbn [setitem df_rows]. revert values.
  induction (df_rows df) as [|r rows IH]; intros [|v values] Hlen;
    try discriminate; [reflexivity|].
  cbn. rewrite String.eqb_refl. f_equal. apply IH. cbn in Hlen. lia.
Qed.

Lemma Chem_raises_TypeError (v : cell) (e : exn) :
  Chem_MolFromSmiles v = Raise e -> e = TypeError.
Proof. destruct v; cbn; intros H; try discriminate; injection H as <-; reflexivity. Qed.

Lemma MolWt_raises_TypeError (v : cell) (e : exn) :
  Descriptors_MolWt_cell v = Raise e -> e = TypeError.
Proof. destruct v; cbn; intros H; try discriminate; injection H as <-; reflexivity. Qed.

(** A row whose [SMILES] cell is no string RDKit can parse. *)
Definition unparsed (r : row) : Prop :=
  match row_cells r "SMILES" with
  | CStr s => MolFromSmiles s = None
  | _ => True
  end.

(** X11. How [load_data] fails on a file that was read.  Asked to use the
    first column as index, it raises [KeyError] when no column is called
    ["1"].  Without a [molecules] column it needs the [SMILES] column and
    raises [KeyError] when that is absent too.  When both the molecules and
    the weights have to be derived, one row whose [SMILES] cell RDKit cannot
    parse makes the call raise [TypeError]: the molecule is [None] and its
    weight cannot be computed. *)
Theorem load_data_errors (datafile : string) (MolWt : Z) (first_index : bool)
    (df0 : DataFrame) :
  read_csv datafile = Ok df0 ->
  (first_index = true -> has_column df0 "1" = false ->
   load_data datafile MolWt first_index = Raise (KeyError "1")) /\
  (first_index = false -> has_column df0 "molecules" = false ->
   has_column df0 "SMILES" = false ->
   load_data datafile MolWt first_index = Raise (KeyError "SMILES")) /\
  (first_index = false -> has_column df0 "molecules" = false ->
   has_column df0 "MolWt" = false -> has_column df0 "SMILES" = true ->
   (exists r, In r (df_rows df0) /\ unparsed r) ->
   load_data datafile MolWt first_index = Raise TypeError).
Proof.
  intros Hread. split; [|split].
  - intros -> H1. unfold load_data, load_table, set_index.
    rewrite Hread. cbn [bind]. rewrite H1. reflexivity.
  - intros -> Hm Hs. unfold load_data, load_table, getitem.
    rewrite Hread. cbn [bind]. rewrite Hm, Hs. reflexivity.
  - intros -> Hm Hw Hs (r & Hin & Hbad).
    unfold load_data, load_table. rewrite Hread. cbn [bind]. rewrite Hm.
    unfold getitem at 1. rewrite Hs. cbn [bind].
    destruct (apply Chem_MolFromSmiles
                (map (fun r0 => row_cells r0 "SMILES") (df_rows df0)))
      as [mols|e] eqn:Happ.
    + cbn [bind]. rewrite has_column_setitem_other, Hw. cbn [orb String.eqb].
      cbn. unfold getitem. rewrite has_column_setitem. cbn [bind].
      pose proof (apply_Ok _ _ _ Happ) as Hall.
      assert (Hlen : List.length mols = List.length (df_rows df0)).
      { apply Forall2_length in Hall. rewrite length_map in Hall. lia. }
      rewrite (setitem_column df0 "molecules" mols Hlen).
      assert (Hnone : In CNone mols).
      { assert (Hv : In (row_cells r "SMILES")
                        (map (fun r0 => row_cells r0 "SMILES") (df_rows df0))).
        { apply in_map_iff. exists r. split; [reflexivity|exact Hin]. }
        destruct (Forall2_In_l _ _ _ _ Hall Hv) as (w & Hw' & Hvw).
        unfold unparsed in Hbad.
        destruct (row_cells r "SMILES") as [x|s|m|]; cbn in Hvw;
          try discriminate.
        rewrite Hbad in Hvw. injection Hvw as <-. exact Hw'. }
      rewrite (apply_raises_at Descriptors_MolWt_cell mols CNone TypeError
                 MolWt_raises_TypeError Hnone eq_refl).
      reflexivity.
    + cbn [bind]. f_equal.
      exact (apply_raises _ _ TypeError e Chem_raises_TypeError Happ).
Qed.

(** X12. Columns the file already has are trusted.  On a file that carries
    both a [molecules] and a [MolWt] column, [load_data] consults RDKit for
    nothing and returns the file's own rows, unchanged, whose stored weight
    is below the threshold. *)
Theorem stored_columns_are_trusted (datafile : string) (MolWt : Z) (df0 : DataFrame) :
  read_csv datafile = Ok df0 ->
  has_column df0 "molecules" = true ->
  has_column df0 "MolWt" = true ->
  numeric "MolWt" df0 ->
  load_table datafile false = Ok df0 /\
  load_data datafile MolWt false =
    Ok {| df_columns := df_columns df0;
          df_rows := filter (weight_below MolWt) (df_rows df0) |}.
Proof.
  intros Hread Hm Hw Hnum.
  assert (Hload : load_table datafile false = Ok df0).
  { unfold load_table. rewrite Hread. cbn [bind]. rewrite Hm. cbn [bind].
    rewrite Hw. reflexivity. }
  split; [exact Hload|].
  unfold load_data. rewrite Hload. cbn [bind]. unfold getitem. rewrite Hw.
  cbn [bind]. rewrite lt_scalar_numeric by exact Hnum. cbn [bind].
  unfold mask_select. rewrite mask_rows. reflexivity.
Qed.

(** The molecule cell [load_data] derives for a row. *)
Definition parsed (r : row) : cell :=
  match row_cells r "SMILES" with
  | CStr s => match MolFromSmiles s with Some m => CMol m | None => CNone end
  | _ => CNone
  end.

(** X13. With a stored [MolWt] column but no [molecules] column, a string
    RDKit cannot parse raises nothing: the row is kept, when its stored
    weight is below the threshold, with [None] for its molecule. *)
Theorem unparsed_smiles_pass_with_stored_weights (datafile : string) (MolWt : Z)
    (df0 : DataFrame) :
  read_csv datafile = Ok df0 ->
  has_column df0 "molecules" = false ->
  has_column df0 "MolWt" = true ->
  has_column df0 "SMILES" = true ->
  (forall r, In r (df_rows df0) -> exists s, row_cells r "SMILES" = CStr s) ->
  numeric "MolWt" df0 ->
  load_data datafile MolWt false =
    Ok {| df_columns := df_columns df0 ++ ["molecules"%string];
          df_rows := map (fun r => set_cell "molecules" (parsed r) r)
                         (filter (weight_below MolWt) (df_rows df0)) |}.
Proof.
  intros Hread Hm Hw Hs Hstr Hnum.
  unfold load_data, load_table. rewrite Hread. cbn [bind]. rewrite Hm.
  unfold getitem at 1. rewrite Hs. cbn [bind].
  rewrite (apply_map Chem_MolFromSmiles (fun r => row_cells r "SMILES") parsed).
  2:{ intros r Hr. destruct (Hstr r Hr) as [s Hrs]. unfold parsed.
      rewrite Hrs. reflexivity. }
  cbn [bind]. rewrite has_column_setitem_other, Hw. cbn [orb bind].
  unfold getitem. rewrite has_column_setitem_other, Hw. cbn [orb bind].
  rewrite setitem_rows.
  rewrite (map_map (fun r => set_cell "molecules" (parsed r) r)
                   (fun r => row_cells r "MolWt")).
  change (map (fun x => row_cells (set_cell "molecules" (parsed x) x) "MolWt")
              (df_rows df0))
    with (map (fun r => row_cells r "MolWt") (df_rows df0)).
  rewrite lt_scalar_numeric by exact Hnum. cbn [bind].
  unfold mask_select. cbn [df_columns df_rows setitem]. rewrite Hm.
  f_equal. f_equal. clear.
  induction (df_rows df0) as [|r rows IH]; [reflexivity|].
  cbn [map combine filter snd fst].
  change (weight_below MolWt (set_cell "molecules" (parsed r) r))
    with (weight_below MolWt r).
  destruct (weight_below MolWt r); cbn [map fst snd]; rewrite IH; reflexivity.
Qed.


Lemma lt_scalar_Ok_inv (rows : list row) (n : Z) (mask : list bool) :
  lt_scalar (map (fun r => row_cells r "MolWt") rows) n = Ok mask ->
  forall r, In r rows -> exists x, row_cells r "MolWt" = CNum x.
Proof.
  revert mask. induction rows as [|r0 rows IH]; intros mask H r Hin;
    [contradiction|].
  cbn [map lt_scalar] in H.
  apply bind_Ok in H as (b & Hb & H).
  apply bind_Ok in H as (bs & Hbs & _).
  destruct Hin as [<-|Hin]; [|exact (IH bs Hbs r Hin)].
  destruct (row_cells r0 "MolWt") as [x|s|m|]; try discriminate.
  exists x. reflexivity.
Qed.

(** Whenever [load_data] returns, the completed table had numbers for
    weights, and the result is that table filtered. *)
Lemma load_data_Ok_inv (datafile : string) (MolWt : Z) (first_index : bool)
    (out : DataFrame) :
  load_data datafile MolWt first_index = Ok out ->
  exists df,
    load_table datafile first_index = Ok df /\
    numeric "MolWt" df /\
    df_columns out = df_columns df /\
    df_rows out = filter (weight_below MolWt) (df_rows df).
Proof.
  unfold load_data. intros H.
  apply bind_Ok in H as (df & Hload & H).
  apply bind_Ok in H as (ws & Hws & H).
  apply bind_Ok in H as (mask & Hmask & H).
  unfold getitem in Hws. rewrite (load_table_has_MolWt _ _ _ Hload) in Hws.
  injection Hws as <-.
  pose proof (lt_scalar_Ok_inv _ _ _ Hmask) as Hnum.
  rewrite (lt_scalar_numeric _ _ Hnum) in Hmask. injection Hmask as <-.
  injection H as <-. exists df. split; [exact Hload|]. split; [exact Hnum|].
  cbn [mask_select df_columns df_rows]. rewrite mask_rows. split; reflexivity.
Qed.

Lemma filter_filter_implies {A : Type} (f g : A -> bool) (l : list A) :
  (forall x, f x = true -> g x = true) ->
  filter f (filter g l) = filter f l.
Proof.
  intros Hfg. induction l as [|x l IH]; [reflexivity|].
  cbn. destruct (g x) eqn:Hg; cbn.
  - rewrite IH. reflexivity.
  - destruct (f x) eqn:Hf; [|exact IH]. rewrite (Hfg x Hf) in Hg. discriminate.
Qed.

Lemma weight_below_mono (T1 T2 : Z) (r : row) :
  (T1 <= T2)%Z -> weight_below T1 r = true -> weight_below T2 r = true.
Proof.
  intros Hle. unfold weight_below. destruct (row_cells r "MolWt") as [w|s|m|];
    try discriminate.
  rewrite !Qltb_lt. intros Hlt. apply (Qlt_le_trans _ (inject_Z T1)); [exact Hlt|].
  rewrite <- Zle_Qle. exact Hle.
Qed.

(** X14. The threshold decides which rows are returned and nothing else.
    If [load_data] returns for one threshold it returns for every other one,
    with the same columns; and for a lower threshold the result is the
    higher threshold's result filtered again: loading with the lower
    threshold and filtering an already loaded table give the same rows. *)
Theorem lower_threshold_refilters (datafile : string) (T1 T2 : Z)
    (first_index : bool) (out2 : DataFrame) :
  load_data datafile T2 first_index = Ok out2 ->
  exists out1,
    load_data datafile T1 first_index = Ok out1 /\
    df_columns out1 = df_columns out2 /\
    ((T1 <= T2)%Z ->
     df_rows out1 = filter (weight_below T1) (df_rows out2) /\
     (forall r, In r (df_rows out1) -> In r (df_rows out2))).
Proof.
  intros H2.
  destruct (load_data_Ok_inv _ _ _ _ H2) as (df & Hload & Hnum & Hc2 & Hr2).
  destruct (load_data_filters datafile T1 first_index df Hload Hnum)
    as (out1 & H1 & Hc1 & Hr1 & _).
  exists out1. split; [exact H1|]. split; [congruence|].
  intros Hle.
  assert (Hrows : df_rows out1 = filter (weight_below T1) (df_rows out2)).
  { rewrite Hr1, Hr2. symmetry. apply filter_filter_implies.
    intros r. apply weight_below_mono. exact Hle. }
  split; [exact Hrows|].
  intros r Hin. rewrite Hrows in Hin. apply filter_In in Hin. tauto.
Qed.

Lemma setitem_row_inv (df : DataFrame) (c : string) (values : list cell) (r : row) :
  In r (df_rows (setitem df c values)) ->
  exists r0 v, In r0 (df_rows df) /\ r = set_cell c v r0.
Proof.
  cbn [setitem df_rows]. intros H. apply in_map_iff in H as ([r0 v] & <- & Hin).
  exists r0, v. split; [exact (in_combine_l _ _ _ _ Hin)|reflexivity].
Qed.

(** What one completion step of [load_data] does to the columns and the
    rows: the column [c] is added when the table lacks it, and only then
    are cells of [c] written. *)
Lemma completion_step (df df' : DataFrame) (c : string) :
  (df' = df /\ has_column df c = true) \/
  (exists values, df' = setitem df c values /\ has_column df c = false) ->
  (forall c', has_column df' c' = has_column df c' || String.eqb c' c) /\
  (forall r, In r (df_rows df') ->
     exists r0, In r0 (df_rows df) /\ row_label r = row_label r0 /\
       forall c', (c' = c -> has_column df c = true) ->
                  row_cells r c' = row_cells r0 c').
Proof.
  intros [[-> Hc]|(values & -> & Hc)]; split.
  - intros c'. destruct (String.eqb_spec c' c) as [->|_].
    + rewrite Hc. reflexivity.
    + rewrite orb_false_r. reflexivity.
  - intros r Hin. exists r. split; [exact Hin|]. split; reflexivity.
  - intros c'. apply has_column_setitem_other.
  - intros r Hin. apply setitem_row_inv in Hin as (r0 & v & Hin & ->).
    exists r0. split; [exact Hin|]. split; [reflexivity|].
    intros c' Hc'. cbn. destruct (String.eqb_spec c' c) as [Heq|_]; [|reflexivity].
    rewrite (Hc' Heq) in Hc. discriminate.
Qed.

(** X15. The shape of what [load_data] returns.  The columns are the
    file's, without ["1"] when it became the index, and with [molecules]
    and [MolWt].  Every returned row comes from a row of the file: its
    label is that row's label, or its ["1"] cell when that is the index,
    and its cells are the file's in every column; only a [molecules] or a
    [MolWt] column the file did not have holds derived values. *)
Theorem load_data_schema (datafile : string) (MolWt : Z) (first_index : bool)
    (df0 out : DataFrame) :
  read_csv datafile = Ok df0 ->
  load_data datafile MolWt first_index = Ok out ->
  (forall c, has_column out c =
             has_column df0 c && negb (first_index && String.eqb "1" c)
             || String.eqb c "molecules" || String.eqb c "MolWt") /\
  (forall r, In r (df_rows out) ->
     exists r0, In r0 (df_rows df0) /\
       row_label r = (if first_index then row_cells r0 "1" else row_label r0) /\
       forall c, (c = "molecules"%string -> has_column df0 c = true) ->
                 (c = "MolWt"%string -> has_column df0 c = true) ->
                 row_cells r c = row_cells r0 c).
Proof.
  intros Hread Hout.
  destruct (load_data_Ok_inv _ _ _ _ Hout) as (df & Hload & _ & Hcols & Hrows).
  unfold load_table in Hload. rewrite Hread in Hload. cbn [bind] in Hload.
  apply bind_Ok in Hload as (df2 & H2 & Hload).
  apply bind_Ok in Hload as (df3 & H3 & H4).
  assert (S2 : (forall c, has_column df2 c =
                          has_column df0 c && negb (first_index && String.eqb "1" c)) /\
               (forall r, In r (df_rows df2) ->
                  exists r0, In r0 (df_rows df0) /\
                    row_label r =
                      (if first_index then row_cells r0 "1" else row_label r0) /\
                    forall c, row_cells r c = row_cells r0 c)).
  { destruct first_index.
    - split.
      + intros c. exact (has_column_set_index df0 df2 "1" c H2).
      + unfold set_index in H2. destruct (has_column df0 "1"); [|discriminate].
        injection H2 as <-. cbn [df_rows]. intros r Hin.
        apply in_map_iff in Hin as (r0 & <- & Hin).
        exists r0. split; [exact Hin|]. split; reflexivity.
    - injection H2 as <-. split.
      + intros c. cbn. rewrite andb_true_r. reflexivity.
      + intros r Hin. exists r. split; [exact Hin|]. split; reflexivity. }
  assert (S3 : (df3 = df2 /\ has_column df2 "molecules" = true) \/
               (exists values, df3 = setitem df2 "molecules" values /\
                               has_column df2 "molecules" = false)).
  { destruct (has_column df2 "molecules") eqn:Hm.
    - injection H3 as <-. left. split; reflexivity.
    - apply bind_Ok in H3 as (ss & _ & H3). apply bind_Ok in H3 as (ms & _ & H3).
      injection H3 as <-. right. exists ms. split; reflexivity. }
  assert (S4 : (df = df3 /\ has_column df3 "MolWt" = true) \/
               (exists values, df = setitem df3 "MolWt" values /\
                               has_column df3 "MolWt" = false)).
  { destruct (has_column df3 "MolWt") eqn:Hw.
    - injection H4 as <-. left. split; reflexivity.
    - apply bind_Ok in H4 as (ms & _ & H4). apply bind_Ok in H4 as (ws & _ & H4).
      injection H4 as <-. right. exists ws. split; reflexivity. }
  destruct S2 as [C2 R2].
  destruct (completion_step df2 df3 "molecules" S3) as [C3 R3].
  destruct (completion_step df3 df "MolWt" S4) as [C4 R4].
  split.
  - intros c. unfold has_column at 1. rewrite Hcols. fold (has_column df c).
    rewrite C4, C3, C2. reflexivity.
  - intros r Hin. rewrite Hrows in Hin. apply filter_In in Hin as [Hin _].
    destruct (R4 r Hin) as (r3 & Hin3 & Hl3 & Hc3).
    destruct (R3 r3 Hin3) as (r2 & Hin2 & Hl2 & Hc2).
    destruct (R2 r2 Hin2) as (r0 & Hin0 & Hl0 & Hc0).
    exists r0. split; [exact Hin0|]. split; [congruence|].
    intros c Hm Hw. rewrite Hc3, Hc2, Hc0; [reflexivity| |].
    + intros ->. rewrite C2, (Hm eq_refl). destruct first_index; reflexivity.
    + intros ->. rewrite C3, C2, (Hw eq_refl). destruct first_index; reflexivity.
Qed.



End LoadData.

(** ** [receptor_data] *)

Section ReceptorData.
(** Feature vectors, NumPy's square root, and NumPy's global random
    generator: [np.random.seed] replaces its state, and a draw below a
    bound advances it. *)
Variable Feat : Type.
Variable sqrtQ : Q -> Q.
Variable RngState : Type.
Variable np_random_seed : Z -> RngState.
Variable draw : RngState -> nat -> nat * RngState.

(** One datapoint of a [NumpyDataset]: features, label, identifier. *)
Record sample : Type := {
  sample_X : Feat;
  sample_y : Q;
  sample_id : cell
}.

(** [dc.data.NumpyDataset(X=X, y=y, ids=ids)] *)
Definition NumpyDataset (X : list Feat) (y : list Q) (ids : list cell) : list sample :=
  map (fun xyi => {| sample_X := fst (fst xyi); sample_y := snd (fst xyi);
                     sample_id := snd xyi |})
      (combine (combine X y) ids).

Definition Qsum (l : list Q) : Q := fold_right Qplus 0%Q l.

(** Modelled from the spec: DeepChem's [NormalizationTransformer] with
    [transform_y=True].  It is fitted once on the labels of the whole
    dataset, keeping their mean and their standard deviation (1 in place of
    a zero deviation), and replaces a label [y] by [(y - mean) / std]. *)
Record Transformer : Type := {
  y_means : Q;
  y_stds : Q
}.

Definition NormalizationTransformer (dataset : list sample) : Transformer :=
  let y := map sample_y dataset in
  let n := inject_Z (Z.of_nat (List.length y)) in
  let mean := (Qsum y / n)%Q in
  let variance := (Qsum (map (fun v => (v - mean) * (v - mean)) y) / n)%Q in
  let std := sqrtQ variance in
  {| y_means := mean; y_stds := if Qeq_bool std 0 then 1%Q else std |}.

Definition transform_y (t : Transformer) (y : Q) : Q :=
  ((y - y_means t) / y_stds t)%Q.

Definition transform (t : Transformer) (dataset : list sample) : list sample :=
  map (fun d => {| sample_X := sample_X d; sample_y := transform_y t (sample_y d);
                   sample_id := sample_id d |}) dataset.

Fixpoint remove_nth {A : Type} (j : nat) (l : list A) : list A :=
  match l, j with
  | [], _ => []
  | _ :: rest, O => rest
  | x :: rest, S j' => x :: remove_nth j' rest
  end.

(** Modelled from the spec: the random permutation behind DeepChem's
    [RandomSplitter] (NumPy's [np.random.permutation]).  One element is
    drawn out of the pool at a time. *)
Fixpoint shuffle (n : nat) (pool : list nat) (rng : RngState) : list nat * RngState :=
  match n, pool with
  | S n', x :: _ =>
      let (j, rng) := draw rng (List.length pool) in
      let j := (j mod List.length pool)%nat in
      let (rest, rng) := shuffle n' (remove_nth j pool) rng in
      (nth j pool x :: rest, rng)
  | _, _ => ([], rng)
  end.

(** Modelled from the spec: DeepChem's [dataset.select(indices)], the
    datapoints at the given positions, in that order. *)
Definition select (dataset : list sample) (indices : list nat) : list sample :=
  flat_map (fun i => match nth_error dataset i with
                     | Some d => [d]
                     | None => []
                     end) indices.

(** Modelled from the spec: DeepChem's [RandomSplitter] with fractions
    0.8 / 0.1 / 0.1.  A given seed re-seeds the global generator; the row
    indices are shuffled and cut at [int(0.8 * n)] and [int(0.9 * n)]. *)
Definition split_indices (n : nat) (seed : option Z) (rng : RngState) :
  (list nat * list nat * list nat) * RngState :=
  let rng := match seed with Some s => np_random_seed s | None => rng end in
  let train_cutoff := (8 * n / 10)%nat in
  let valid_cutoff := (9 * n / 10)%nat in
  let (shuffled, rng) := shuffle n (seq 0 n) rng in
  (firstn train_cutoff shuffled,
   firstn (valid_cutoff - train_cutoff) (skipn train_cutoff shuffled),
   skipn valid_cutoff shuffled, rng).

(** Modelled from the spec: [splitter.train_valid_test_split], the three
    selections of the dataset at the split indices. *)
Definition train_valid_test_split (dataset : list sample) (seed : option Z)
    (rng : RngState) : (list sample * list sample * list sample) * RngState :=
  let '(train_inds, valid_inds, test_inds, rng) :=
    split_indices (List.length dataset) seed rng in
  (select dataset train_inds, select dataset valid_inds, select dataset test_inds,
   rng).

(** What [receptor_data] returns. *)
Record datasets : Type := {
  train_dataset : list sample;
  valid_dataset : list sample;
  test_dataset : list sample;
  transformer : Transformer
}.

(** [receptor_data(df, receptor_name, featurizer, seed)], called with the
    global generator in state [rng]; it answers the datasets together with
    the state the generator is left in. *)
Definition receptor_data (df : DataFrame) (receptor_name : string)
    (featurize : cell -> Feat) (seed : Z) (rng : RngState) :
  result (datasets * RngState) :=
  df_receptor <- project df [receptor_name; "molecules"%string; "SMILES"%string] ;;
  values <- getitem df_receptor receptor_name ;;
  let mask := eq_zero values in
  let df_receptor := drop (index (mask_select df mask)) df_receptor in
  molecules <- getitem df_receptor "molecules" ;;
  let X := map featurize molecules in
  values <- getitem df_receptor receptor_name ;;
  y <- to_numpy values ;;
  ids <- getitem df_receptor "SMILES" ;;
  let dataset := NumpyDataset X y ids in
  let transformer := NormalizationTransformer dataset in
  let dataset := transform transformer dataset in
  let '(train, valid, test, rng) :=
    train_valid_test_split dataset (Some seed) rng in
  Ok ({| train_dataset := train; valid_dataset := valid; test_dataset := test;
         transformer := transformer |}, rng).

(** The datapoint made of a row, before normalization. *)
Definition raw_sample (c : string) (featurize : cell -> Feat) (r : row) : sample :=
  {| sample_X := featurize (row_cells r "molecules");
     sample_y := receptor_value c r;
     sample_id := row_cells r "SMILES" |}.

Lemma NumpyDataset_rows (c : string) (featurize : cell -> Feat) (rows : list row) :
  NumpyDataset (map featurize (map (fun r => row_cells r "molecules") rows))
               (map (receptor_value c) rows)
               (map (fun r => row_cells r "SMILES") rows) =
  map (raw_sample c featurize) rows.
Proof.
  unfold NumpyDataset. induction rows as [|r rows IH]; [reflexivity|].
  cbn. f_equal. exact IH.
Qed.

(** *** The random split *)

Lemma remove_nth_perm {A : Type} (l : list A) (j : nat) (d : A) :
  (j < List.length l)%nat -> Permutation (nth j l d :: remove_nth j l) l.
Proof.
  revert j. induction l as [|x l IH]; intros j Hj; [cbn in Hj; lia|].
  destruct j as [|j]; cbn.
  - apply Permutation_refl.
  - cbn in Hj. eapply perm_trans; [apply perm_swap|].
    apply perm_skip. apply IH. lia.
Qed.

Lemma remove_nth_length {A : Type} (l : list A) (j : nat) :
  (j < List.length l)%nat -> List.length (remove_nth j l) = pred (List.length l).
Proof.
  revert j. induction l as [|x l IH]; intros j Hj; [cbn in Hj; lia|].
  destruct j as [|j]; cbn; [reflexivity|].
  cbn in Hj. rewrite IH by lia. lia.
Qed.

Lemma shuffle_perm (n : nat) :
  forall (pool : list nat) (rng : RngState),
    List.length pool = n -> Permutation (fst (shuffle n pool rng)) pool.
Proof.
  induction n as [|n IH]; intros pool rng Hlen.
  - destruct pool; [apply Permutation_refl|discriminate].
  - destruct pool as [|x pool']; [discriminate|].
    cbn [shuffle]. set (pool := x :: pool') in *.
    destruct (draw rng (List.length pool)) as [j0 rng1].
    assert (Hj : (j0 mod List.length pool < List.length pool)%nat)
      by (apply Nat.mod_upper_bound; rewrite Hlen; discriminate).
    specialize (IH (remove_nth (j0 mod List.length pool) pool) rng1).
    destruct (shuffle n (remove_nth (j0 mod List.length pool) pool) rng1)
      as [rest rng2].
    cbn [fst] in *.
    eapply perm_trans; [|apply (remove_nth_perm pool _ x Hj)].
    apply perm_skip. apply IH. rewrite remove_nth_length by exact Hj. lia.
Qed.

Lemma cut_in_three {A : Type} (l : list A) (a b : nat) :
  (a <= b)%nat ->
  firstn a l ++ firstn (b - a) (skipn a l) ++ skipn b l = l.
Proof.
  intros Hab.
  replace (skipn b l) with (skipn (b - a) (skipn a l)).
  - rewrite firstn_skipn. apply firstn_skipn.
  - rewrite skipn_skipn. f_equal. lia.
Qed.

(** The three index lists partition [0..n-1], and have the 80/10/10 sizes. *)
Lemma split_indices_partition (n : nat) (seed : option Z) (rng : RngState) :
  let '(train_inds, valid_inds, test_inds, _) := split_indices n seed rng in
  Permutation (train_inds ++ valid_inds ++ test_inds) (seq 0 n) /\
  List.length train_inds = (8 * n / 10)%nat /\
  List.length valid_inds = (9 * n / 10 - 8 * n / 10)%nat /\
  List.length test_inds = (n - 9 * n / 10)%nat.
Proof.
  unfold split_indices.
  set (rng0 := match seed with Some s => np_random_seed s | None => rng end).
  pose proof (shuffle_perm n (seq 0 n) rng0 (length_seq n 0)) as Hperm.
  destruct (shuffle n (seq 0 n) rng0) as [shuffled rng1]. cbn [fst] in Hperm.
  assert (Hlen : List.length shuffled = n)
    by (rewrite (Permutation_length Hperm); apply length_seq).
  assert (H8 : (8 * n / 10 <= 9 * n / 10)%nat)
    by (apply Nat.Div0.div_le_mono; lia).
  assert (H9 : (9 * n / 10 <= n)%nat)
    by (apply Nat.Div0.div_le_upper_bound; lia).
  split; [|split; [|split]].
  - rewrite cut_in_three by exact H8. exact Hperm.
  - rewrite length_firstn, Hlen. lia.
  - rewrite length_firstn, length_skipn, Hlen. lia.
  - rewrite length_skipn, Hlen. lia.
Qed.

Lemma select_app (dataset : list sample) (a b : list nat) :
  select dataset (a ++ b) = select dataset a ++ select dataset b.
Proof. apply flat_map_app. Qed.

Lemma select_perm (dataset : list sample) (p q : list nat) :
  Permutation p q -> Permutation (select dataset p) (select dataset q).
Proof.
  unfold select. induction 1 as [|i p q Hpq IH|i j p|p q r H1 IH1 H2 IH2]; cbn.
  - apply Permutation_refl.
  - apply Permutation_app_head. exact IH.
  - rewrite !app_assoc. apply Permutation_app_tail. apply Permutation_app_comm.
  - eapply perm_trans; eassumption.
Qed.

Lemma select_seq_from (done todo : list sample) :
  select (done ++ todo) (seq (List.length done) (List.length todo)) = todo.
Proof.
  revert done. induction todo as [|d todo IH]; intros done; [reflexivity|].
  cbn [List.length seq select flat_map].
  rewrite nth_error_app2, Nat.sub_diag by lia. cbn [nth_error app]. f_equal.
  specialize (IH (done ++ [d])).
  rewrite <- app_assoc, length_app in IH. cbn [app List.length] in IH.
  rewrite Nat.add_1_r in IH. exact IH.
Qed.

Lemma select_seq (dataset : list sample) :
  select dataset (seq 0 (List.length dataset)) = dataset.
Proof. exact (select_seq_from [] dataset). Qed.

Lemma select_length (dataset : list sample) (p : list nat) :
  (forall i, In i p -> (i < List.length dataset)%nat) ->
  List.length (select dataset p) = List.length p.
Proof.
  induction p as [|i p IH]; intros Hin; [reflexivity|].
  cbn [select flat_map]. rewrite length_app.
  destruct (nth_error dataset i) as [d|] eqn:E.
  - cbn [List.length]. fold (select dataset p). rewrite IH; [lia|].
    intros j Hj. apply Hin. right. exact Hj.
  - exfalso. apply nth_error_None in E. specialize (Hin i (or_introl eq_refl)). lia.
Qed.

Lemma length_transform (t : Transformer) (dataset : list sample) :
  List.length (transform t dataset) = List.length dataset.
Proof. apply length_map. Qed.

(** [receptor_data] returns on a table that has the three columns and a
    numeric receptor column.  The rows kept are exactly those left by the
    removal of the zero-valued rows' labels; the transformer is fitted on
    them; the three returned datasets select the normalized datapoints at
    three index lists that partition the positions of the kept rows. *)
Lemma receptor_data_partition (df : DataFrame) (receptor_name : string)
    (featurize : cell -> Feat) (seed : Z) (rng : RngState) :
  has_column df receptor_name = true ->
  has_column df "molecules" = true ->
  has_column df "SMILES" = true ->
  numeric receptor_name df ->
  let raw := map (raw_sample receptor_name featurize) (kept_rows receptor_name df) in
  let dataset := transform (NormalizationTransformer raw) raw in
  let n := List.length (kept_rows receptor_name df) in
  exists out rng' train_inds valid_inds test_inds,
    receptor_data df receptor_name featurize seed rng = Ok (out, rng') /\
    transformer out = NormalizationTransformer raw /\
    train_dataset out = select dataset train_inds /\
    valid_dataset out = select dataset valid_inds /\
    test_dataset out = select dataset test_inds /\
    Permutation (train_inds ++ valid_inds ++ test_inds) (seq 0 n) /\
    List.length train_inds = (8 * n / 10)%nat /\
    List.length valid_inds = (9 * n / 10 - 8 * n / 10)%nat /\
    List.length test_inds = (n - 9 * n / 10)%nat.
Proof.
  intros Hc Hm Hs Hnum raw dataset n.
  unfold receptor_data, project. cbn [missing_column]. rewrite Hc, Hm, Hs.
  cbn [bind].
  rewrite getitem_has by (cbn; tauto). cbn [bind df_rows].
  assert (Hkept :
            drop (index (mask_select df
                           (eq_zero (map (fun r => row_cells r receptor_name)
                                         (df_rows df)))))
                 {| df_columns := [receptor_name; "molecules"%string; "SMILES"%string];
                    df_rows := df_rows df |} =
            {| df_columns := [receptor_name; "molecules"%string; "SMILES"%string];
               df_rows := kept_rows receptor_name df |}).
  { unfold drop, index, mask_select, eq_zero, kept_rows, zero_labels.
    cbn [df_rows df_columns].
    rewrite (map_map (fun r => row_cells r receptor_name) is_zero).
    rewrite (mask_rows (fun r => is_zero (row_cells r receptor_name))).
    reflexivity. }
  rewrite Hkept.
  rewrite !getitem_has by (cbn; tauto). cbn [bind df_rows].
  rewrite to_numpy_numeric.
  2:{ intros r Hr. apply Hnum. apply (kept_rows_nonzero _ _ _ Hr). }
  cbn [bind]. rewrite NumpyDataset_rows. fold raw. fold dataset.
  unfold train_valid_test_split.
  pose proof (split_indices_partition (List.length dataset) (Some seed) rng) as Hsplit.
  destruct (split_indices (List.length dataset) (Some seed) rng)
    as [[[train_inds valid_inds] test_inds] rng'].
  assert (Hn : List.length dataset = n).
  { unfold dataset, raw, n. rewrite length_transform, length_map. reflexivity. }
  rewrite Hn in Hsplit.
  eexists _, rng', train_inds, valid_inds, test_inds.
  split; [reflexivity|]. cbn [transformer train_dataset valid_dataset test_dataset].
  repeat split; apply Hsplit.
Qed.

(** The datasets returned do not depend on the state the global generator
    was in: the split re-seeds it. *)
Lemma receptor_data_reseeds (df : DataFrame) (receptor_name : string)
    (featurize : cell -> Feat) (seed : Z) (rng1 rng2 : RngState) :
  receptor_data df receptor_name featurize seed rng1 =
  receptor_data df receptor_name featurize seed rng2.
Proof. reflexivity. Qed.

(** C4 (amended). On a table that has the receptor column (a numeric one),
    [molecules] and [SMILES], [receptor_data] returns, and no datapoint it
    returns comes from a row whose receptor value is exactly 0.0: every such
    row is dropped, by index label, before featurization, normalization and
    splitting (with distinct labels nothing else is dropped).  The three
    datasets select the normalized datapoints of the kept rows at index
    lists that are pairwise disjoint and together cover every position once,
    with sizes [8n/10], [9n/10 - 8n/10] and [n - 9n/10].  The labels of the
    returned datapoints are the normalized values [(y - mean) / std]. *)
Theorem receptor_data_excludes_zero_rows (df : DataFrame) (receptor_name : string)
    (featurize : cell -> Feat) (seed : Z) (rng : RngState) :
  has_column df receptor_name = true ->
  has_column df "molecules" = true ->
  has_column df "SMILES" = true ->
  numeric receptor_name df ->
  let kept := kept_rows receptor_name df in
  let raw := map (raw_sample receptor_name featurize) kept in
  let n := List.length kept in
  exists out rng',
    receptor_data df receptor_name featurize seed rng = Ok (out, rng') /\
    transformer out = NormalizationTransformer raw /\
    (forall r, In r kept ->
               In r (df_rows df) /\ is_zero (row_cells r receptor_name) = false) /\
    (forall r, In r (df_rows df) -> is_zero (row_cells r receptor_name) = true ->
               ~ In r kept) /\
    (labels_distinct df ->
     kept = filter (fun r => negb (is_zero (row_cells r receptor_name))) (df_rows df)) /\
    (forall d,
        In d (train_dataset out ++ valid_dataset out ++ test_dataset out) ->
        exists r,
          In r (df_rows df) /\ is_zero (row_cells r receptor_name) = false /\
          sample_X d = featurize (row_cells r "molecules") /\
          sample_y d = transform_y (transformer out) (receptor_value receptor_name r) /\
          sample_id d = row_cells r "SMILES") /\
    Permutation (train_dataset out ++ valid_dataset out ++ test_dataset out)
                (transform (transformer out) raw) /\
    (exists train_inds valid_inds test_inds,
        train_dataset out = select (transform (transformer out) raw) train_inds /\
        valid_dataset out = select (transform (transformer out) raw) valid_inds /\
        test_dataset out = select (transform (transformer out) raw) test_inds /\
        Permutation (train_inds ++ valid_inds ++ test_inds) (seq 0 n) /\
        NoDup (train_inds ++ valid_inds ++ test_inds)) /\
    List.length (train_dataset out) = (8 * n / 10)%nat /\
    List.length (valid_dataset out) = (9 * n / 10 - 8 * n / 10)%nat /\
    List.length (test_dataset out) = (n - 9 * n / 10)%nat.
Proof.
  intros Hc Hm Hs Hnum kept raw n.
  destruct (receptor_data_partition df receptor_name featurize seed rng Hc Hm Hs Hnum)
    as (out & rng' & ti & vi & tei & Hrun & Ht & Htr & Hva & Hte & Hperm & L1 & L2 & L3).
  fold kept in Hperm, L1, L2, L3. fold raw in Ht, Htr, Hva, Hte. fold n in Hperm, L1, L2, L3.
  rewrite <- Ht in Htr, Hva, Hte.
  set (dataset := transform (transformer out) raw) in *.
  assert (Hn : List.length dataset = n).
  { unfold dataset, raw, n. rewrite length_transform, length_map. reflexivity. }
  assert (Hall : Permutation (train_dataset out ++ valid_dataset out ++ test_dataset out)
                             dataset).
  { rewrite Htr, Hva, Hte, <- !select_app.
    pose proof (select_perm dataset _ _ Hperm) as Hp.
    rewrite <- Hn, select_seq in Hp. exact Hp. }
  assert (Hrange : forall i, In i (ti ++ vi ++ tei) -> (i < List.length dataset)%nat).
  { intros i Hi. apply (Permutation_in _ Hperm) in Hi. apply in_seq in Hi. lia. }
  exists out, rng'.
  split; [exact Hrun|]. split; [exact Ht|].
  split; [intros r Hr; apply (kept_rows_nonzero _ _ _ Hr)|].
  split.
  { intros r _ Hz Hr. apply kept_rows_nonzero in Hr as [_ Hnz]. congruence. }
  split; [apply kept_rows_distinct|].
  split.
  { intros d Hd. apply (Permutation_in _ Hall) in Hd.
    unfold dataset, transform, raw in Hd. rewrite map_map in Hd.
    apply in_map_iff in Hd as (r & <- & Hr).
    apply kept_rows_nonzero in Hr as [Hin Hnz].
    exists r. repeat split; assumption. }
  split; [exact Hall|].
  split.
  { exists ti, vi, tei. repeat split; try assumption.
    apply (Permutation_NoDup (Permutation_sym Hperm)). apply seq_NoDup. }
  split; [|split].
  - rewrite Htr, select_length, L1; [reflexivity|].
    intros i Hi. apply Hrange. apply in_or_app. left. exact Hi.
  - rewrite Hva, select_length, L2; [reflexivity|].
    intros i Hi. apply Hrange. apply in_or_app. right. apply in_or_app. left. exact Hi.
  - rewrite Hte, select_length, L3; [reflexivity|].
    intros i Hi. apply Hrange. apply in_or_app. right. apply in_or_app. right. exact Hi.
Qed.

(** C6. For a given table, receptor column, featurizer and seed,
    [receptor_data] returns the same datasets whatever state the global
    random generator is in when it is called, because the split starts by
    re-seeding the generator with the seed; in particular a second call,
    made in the state the first one left behind, returns what the first
    returned. *)
Theorem receptor_data_deterministic (df : DataFrame) (receptor_name : string)
    (featurize : cell -> Feat) (seed : Z) :
  (forall rng1 rng2 : RngState,
      receptor_data df receptor_name featurize seed rng1 =
      receptor_data df receptor_name featurize seed rng2) /\
  (forall (rng : RngState) (out : datasets) (rng' : RngState),
      receptor_data df receptor_name featurize seed rng = Ok (out, rng') ->
      receptor_data df receptor_name featurize seed rng' = Ok (out, rng')).
Proof.
  split.
  - intros rng1 rng2. apply receptor_data_reseeds.
  - intros rng out rng' H. rewrite <- H. apply receptor_data_reseeds.
Qed.


(** ** Further properties of [receptor_data] *)

(** What [receptor_data] does with the rows the removal leaves. *)
Definition datasets_of_rows (rows : list row) (receptor_name : string)
    (featurize : cell -> Feat) (seed : Z) (rng : RngState) :
  result (datasets * RngState) :=
  y <- to_numpy (map (fun r => row_cells r receptor_name) rows) ;;
  let dataset :=
    NumpyDataset (map featurize (map (fun r => row_cells r "molecules") rows)) y
                 (map (fun r => row_cells r "SMILES") rows) in
  let transformer := NormalizationTransformer dataset in
  let dataset := transform transformer dataset in
  let '(train, valid, test, rng) :=
    train_valid_test_split dataset (Some seed) rng in
  Ok ({| train_dataset := train; valid_dataset := valid; test_dataset := test;
         transformer := transformer |}, rng).

Lemma receptor_data_kept (df : DataFrame) (receptor_name : string)
    (featurize : cell -> Feat) (seed : Z) (rng : RngState) :
  has_column df receptor_name = true ->
  has_column df "molecules" = true ->
  has_column df "SMILES" = true ->
  receptor_data df receptor_name featurize seed rng =
  datasets_of_rows (kept_rows receptor_name df) receptor_name featurize seed rng.
Proof.
  intros Hc Hm Hs.
  unfold receptor_data, project. cbn [missing_column]. rewrite Hc, Hm, Hs.
  cbn [bind].
  rewrite getitem_has by (cbn; tauto). cbn [bind df_rows].
  assert (Hkept :
            drop (index (mask_select df
                           (eq_zero (map (fun r => row_cells r receptor_name)
                                         (df_rows df)))))
                 {| df_columns := [receptor_name; "molecules"%string; "SMILES"%string];
                    df_rows := df_rows df |} =
            {| df_columns := [receptor_name; "molecules"%string; "SMILES"%string];
               df_rows := kept_rows receptor_name df |}).
  { unfold drop, index, mask_select, eq_zero, kept_rows, zero_labels.
    cbn [df_rows df_columns].
    rewrite (map_map (fun r => row_cells r receptor_name) is_zero).
    rewrite (mask_rows (fun r => is_zero (row_cells r receptor_name))).
    reflexivity. }
  rewrite Hkept.
  rewrite !getitem_has by (cbn; tauto). cbn [bind df_rows].
  reflexivity.
Qed.

Lemma to_numpy_raises (series : list cell) (e : exn) :
  to_numpy series = Raise e -> e = TypeError.
Proof.
  induction series as [|v l IH]; cbn; [discriminate|].
  destruct v as [x|s|m|]; try (intros H; injection H as <-; reflexivity).
  destruct (to_numpy l) as [xs|e']; cbn; [discriminate|].
  intros H. injection H as <-. apply IH. reflexivity.
Qed.

Lemma to_numpy_Ok_inv (c : string) (rows : list row) (ys : list Q) :
  to_numpy (map (fun r => row_cells r c) rows) = Ok ys ->
  forall r, In r rows -> exists x, row_cells r c = CNum x.
Proof.
  revert ys. induction rows as [|r0 rows IH]; intros ys H r Hin; [contradiction|].
  cbn [map to_numpy] in H.
  destruct (row_cells r0 c) as [x|s|m|] eqn:Hx; try discriminate.
  apply bind_Ok in H as (xs & Hxs & _).
  destruct Hin as [<-|Hin]; [exists x; exact Hx|exact (IH xs Hxs r Hin)].
Qed.

Lemma datasets_of_rows_raises (rows : list row) (receptor_name : string)
    (featurize : cell -> Feat) (seed : Z) (rng : RngState) (e : exn) :
  datasets_of_rows rows receptor_name featurize seed rng = Raise e -> e = TypeError.
Proof.
  unfold datasets_of_rows.
  destruct (to_numpy (map (fun r => row_cells r receptor_name) rows))
    as [ys|e'] eqn:Hy; cbn [bind].
  - destruct (train_valid_test_split _ _ _) as [[[tr va] te] rng']. discriminate.
  - intros H. injection H as <-. exact (to_numpy_raises _ _ Hy).
Qed.

(** The split of the kept rows: together the three datasets hold the
    normalized datapoints of the kept rows, each once. *)
Lemma datasets_of_rows_returns (rows : list row) (receptor_name : string)
    (featurize : cell -> Feat) (seed : Z) (rng : RngState) :
  (forall r, In r rows -> exists x, row_cells r receptor_name = CNum x) ->
  let raw := map (raw_sample receptor_name featurize) rows in
  exists out rng',
    datasets_of_rows rows receptor_name featurize seed rng = Ok (out, rng') /\
    transformer out = NormalizationTransformer raw /\
    Permutation (train_dataset out ++ valid_dataset out ++ test_dataset out)
                (transform (NormalizationTransformer raw) raw).
Proof.
  intros Hnum raw. unfold datasets_of_rows.
  rewrite to_numpy_numeric by exact Hnum. cbn [bind].
  rewrite NumpyDataset_rows. fold raw.
  set (dataset := transform (NormalizationTransformer raw) raw).
  unfold train_valid_test_split.
  pose proof (split_indices_partition (List.length dataset) (Some seed) rng) as Hsplit.
  destruct (split_indices (List.length dataset) (Some seed) rng)
    as [[[train_inds valid_inds] test_inds] rng'].
  destruct Hsplit as (Hperm & _).
  eexists _, rng'. split; [reflexivity|].
  cbn [transformer train_dataset valid_dataset test_dataset].
  split; [reflexivity|].
  rewrite <- !select_app.
  pose proof (select_perm dataset _ _ Hperm) as Hp.
  rewrite select_seq in Hp. exact Hp.
Qed.

Lemma receptor_data_Ok_inv (df : DataFrame) (receptor_name : string)
    (featurize : cell -> Feat) (seed : Z) (rng : RngState)
    (out : datasets) (rng' : RngState) :
  receptor_data df receptor_name featurize seed rng = Ok (out, rng') ->
  has_column df receptor_name = true /\
  has_column df "molecules" = true /\
  has_column df "SMILES" = true /\
  (forall r, In r (kept_rows receptor_name df) ->
             exists x, row_cells r receptor_name = CNum x).
Proof.
  intros H.
  assert (Hcols : has_column df receptor_name = true /\
                  has_column df "molecules" = true /\
                  has_column df "SMILES" = true).
  { unfold receptor_data, project in H. cbn [missing_column] in H.
    destruct (has_column df receptor_name); [|discriminate].
    destruct (has_column df "molecules"); [|discriminate].
    destruct (has_column df "SMILES"); [|discriminate].
    repeat split. }
  destruct Hcols as (Hc & Hm & Hs). repeat split; try assumption.
  rewrite (receptor_data_kept _ _ _ _ _ Hc Hm Hs) in H.
  unfold datasets_of_rows in H. apply bind_Ok in H as (ys & Hys & _).
  exact (to_numpy_Ok_inv _ _ _ Hys).
Qed.

(** X16. [receptor_data] needs the receptor's column, [molecules] and
    [SMILES].  When one of them is missing it raises [KeyError] for a
    missing one of the three, before anything is featurized or split; and
    it never raises a [KeyError] for any other reason. *)
Theorem receptor_data_missing_column (df : DataFrame) (receptor_name : string)
    (featurize : cell -> Feat) (seed : Z) (rng : RngState) :
  let needed := [receptor_name; "molecules"%string; "SMILES"%string] in
  ((exists c, In c needed /\ has_column df c = false) ->
   exists c, In c needed /\ has_column df c = false /\
             receptor_data df receptor_name featurize seed rng = Raise (KeyError c)) /\
  (forall c, receptor_data df receptor_name featurize seed rng = Raise (KeyError c) ->
             In c needed /\ has_column df c = false).
Proof.
  intros needed.
  destruct (has_column df receptor_name) eqn:Hc;
    [destruct (has_column df "molecules") eqn:Hm;
     [destruct (has_column df "SMILES") eqn:Hs|]|].
  - split.
    + intros (c & Hin & Hmiss). exfalso.
      destruct Hin as [<-|[<-|[<-|[]]]]; congruence.
    + intros c H. rewrite (receptor_data_kept _ _ _ _ _ Hc Hm Hs) in H.
      apply datasets_of_rows_raises in H. discriminate.
  - assert (Hrun : receptor_data df receptor_name featurize seed rng =
                   Raise (KeyError "SMILES")).
    { unfold receptor_data, project. cbn [missing_column].
      rewrite Hc, Hm, Hs. reflexivity. }
    split.
    + intros _. exists "SMILES"%string. split; [right; right; left; reflexivity|].
      split; assumption.
    + intros c H. rewrite Hrun in H. injection H as <-.
      split; [right; right; left; reflexivity|assumption].
  - assert (Hrun : receptor_data df receptor_name featurize seed rng =
                   Raise (KeyError "molecules")).
    { unfold receptor_data, project. cbn [missing_column].
      rewrite Hc, Hm. reflexivity. }
    split.
    + intros _. exists "molecules"%string. split; [right; left; reflexivity|].
      split; assumption.
    + intros c H. rewrite Hrun in H. injection H as <-.
      split; [right; left; reflexivity|assumption].
  - assert (Hrun : receptor_data df receptor_name featurize seed rng =
                   Raise (KeyError receptor_name)).
    { unfold receptor_data, project. cbn [missing_column].
      rewrite Hc. reflexivity. }
    split.
    + intros _. exists receptor_name. split; [left; reflexivity|].
      split; assumption.
    + intros c H. rewrite Hrun in H. injection H as <-.
      split; [left; reflexivity|assumption].
Qed.

(** X17. Rows are removed by index label, not by position.  Whenever
    [receptor_data] returns, a row that shares its label with a row of
    value 0.0 is removed with it, whatever its own value: the datapoints
    returned are as many as the rows whose label no zero-valued row
    carries, and each of them comes from such a row. *)
Theorem rows_sharing_a_zero_label_are_dropped (df : DataFrame)
    (receptor_name : string) (featurize : cell -> Feat) (seed : Z)
    (rng : RngState) (out : datasets) (rng' : RngState) :
  receptor_data df receptor_name featurize seed rng = Ok (out, rng') ->
  let returned := train_dataset out ++ valid_dataset out ++ test_dataset out in
  let zero r := is_zero (row_cells r receptor_name) in
  let shares_zero_label r :=
    existsb (fun r' => zero r' && cell_eqb (row_label r) (row_label r')) (df_rows df) in
  List.length returned =
    List.length (filter (fun r => negb (shares_zero_label r)) (df_rows df)) /\
  (forall d, In d returned ->
     exists r, In r (df_rows df) /\ shares_zero_label r = false /\
               sample_X d = featurize (row_cells r "molecules") /\
               sample_id d = row_cells r "SMILES") /\
  (forall r r', In r (df_rows df) -> In r' (df_rows df) ->
                zero r' = true ->
                cell_eqb (row_label r) (row_label r') = true ->
                shares_zero_label r = true).
Proof.
  intros Hrun returned zero shares.
  destruct (receptor_data_Ok_inv _ _ _ _ _ _ _ Hrun) as (Hc & Hm & Hs & Hnum).
  rewrite (receptor_data_kept _ _ _ _ _ Hc Hm Hs) in Hrun.
  destruct (datasets_of_rows_returns (kept_rows receptor_name df) receptor_name
              featurize seed rng Hnum) as (out0 & rng0 & Hrun0 & _ & Hperm).
  rewrite Hrun0 in Hrun. injection Hrun as -> ->.
  fold returned in Hperm.
  assert (Hshare : forall r,
             existsb (cell_eqb (row_label r)) (zero_labels receptor_name df) =
             shares r).
  { intros r. unfold zero_labels, shares, zero.
    induction (df_rows df) as [|r' rows IH]; [reflexivity|].
    cbn [filter existsb]. destruct (is_zero (row_cells r' receptor_name)).
    - cbn [map existsb andb]. rewrite IH. reflexivity.
    - cbn [andb orb]. exact IH. }
  assert (Hkept : kept_rows receptor_name df =
                  filter (fun r => negb (shares r)) (df_rows df)).
  { unfold kept_rows. apply filter_ext. intros r. rewrite Hshare. reflexivity. }
  split; [|split].
  - rewrite (Permutation_length Hperm). unfold transform.
    rewrite !length_map, Hkept. reflexivity.
  - intros d Hd. apply (Permutation_in _ Hperm) in Hd.
    unfold transform in Hd. rewrite map_map in Hd.
    apply in_map_iff in Hd as (r & <- & Hr).
    rewrite Hkept in Hr. apply filter_In in Hr as [Hin Hsh].
    exists r. split; [exact Hin|]. split; [|split; reflexivity].
    apply negb_true_iff. exact Hsh.
  - intros r r' _ Hin' Hz Heq. unfold shares. apply existsb_exists.
    exists r'. split; [exact Hin'|]. rewrite Hz, Heq. reflexivity.
Qed.

Lemma filter_none {A : Type} (p : A -> bool) (l : list A) :
  (forall x, In x l -> p x = false) -> filter p l = [].
Proof.
  induction l as [|x l IH]; intros Hp; [reflexivity|].
  cbn. rewrite (Hp x (or_introl eq_refl)). apply IH.
  intros y Hy. apply Hp. right. exact Hy.
Qed.

Lemma filter_all {A : Type} (p : A -> bool) (l : list A) :
  (forall x, In x l -> p x = true) -> filter p l = l.
Proof.
  induction l as [|x l IH]; intros Hp; [reflexivity|].
  cbn. rewrite (Hp x (or_introl eq_refl)). f_equal. apply IH.
  intros y Hy. apply Hp. right. exact Hy.
Qed.

Lemma kept_rows_no_zero (c : string) (df : DataFrame) :
  (forall r, In r (df_rows df) -> is_zero (row_cells r c) = false) ->
  kept_rows c df = df_rows df.
Proof.
  intros Hnz. unfold kept_rows, zero_labels.
  rewrite (filter_none (fun r => is_zero (row_cells r c)) (df_rows df) Hnz).
  apply filter_all. reflexivity.
Qed.

(** X18. On a table whose index labels are distinct, removing the rows of
    value 0.0 before the call changes nothing: [receptor_data] answers the
    same on the table and on the table without those rows, datasets,
    transformer, generator state, or exception. *)
Theorem prefiltering_zero_rows_is_redundant (df : DataFrame)
    (receptor_name : string) (featurize : cell -> Feat) (seed : Z)
    (rng : RngState) :
  labels_distinct df ->
  receptor_data
    {| df_columns := df_columns df;
       df_rows := filter (fun r => negb (is_zero (row_cells r receptor_name)))
                         (df_rows df) |}
    receptor_name featurize seed rng =
  receptor_data df receptor_name featurize seed rng.
Proof.
  intros Hd.
  set (df' := {| df_columns := df_columns df;
                 df_rows := filter (fun r => negb (is_zero (row_cells r receptor_name)))
                                   (df_rows df) |}).
  assert (Hcols : forall c, has_column df' c = has_column df c) by reflexivity.
  destruct (has_column df receptor_name) eqn:Hc;
    [destruct (has_column df "molecules") eqn:Hm;
     [destruct (has_column df "SMILES") eqn:Hs|]|].
  - rewrite (receptor_data_kept df _ _ _ _ Hc Hm Hs).
    rewrite (receptor_data_kept df' receptor_name featurize seed rng)
      by (rewrite Hcols; assumption).
    f_equal. rewrite (kept_rows_distinct _ _ Hd).
    apply kept_rows_no_zero. intros r Hr. unfold df' in Hr. cbn [df_rows] in Hr.
    apply filter_In in Hr as [_ Hr]. apply negb_true_iff. exact Hr.
  - unfold receptor_data, project. cbn [missing_column].
    rewrite !Hcols, Hc, Hm, Hs. reflexivity.
  - unfold receptor_data, project. cbn [missing_column].
    rewrite !Hcols, Hc, Hm. reflexivity.
  - unfold receptor_data, project. cbn [missing_column].
    rewrite !Hcols, Hc. reflexivity.
Qed.

Lemma Forall2_filter {A : Type} (R : A -> A -> Prop) (p q : A -> bool)
    (l l' : list A) :
  (forall a b, R a b -> p a = q b) ->
  Forall2 R l l' -> Forall2 R (filter p l) (filter q l').
Proof.
  intros Hpq. induction 1 as [|a b l l' Hab _ IH]; [constructor|].
  cbn. rewrite <- (Hpq a b Hab). destruct (p a); [constructor; assumption|exact IH].
Qed.

Lemma Forall2_map_eq {A B : Type} (R : A -> A -> Prop) (f : A -> B)
    (l l' : list A) :
  (forall a b, R a b -> f a = f b) ->
  Forall2 R l l' -> map f l = map f l'.
Proof.
  intros Hf. induction 1 as [|a b l l' Hab _ IH]; [reflexivity|].
  cbn. rewrite (Hf a b Hab), IH. reflexivity.
Qed.

(** Two rows that [receptor_data] cannot tell apart for a receptor. *)
Definition same_for (receptor_name : string) (r r' : row) : Prop :=
  row_label r = row_label r' /\
  row_cells r receptor_name = row_cells r' receptor_name /\
  row_cells r "molecules" = row_cells r' "molecules" /\
  row_cells r "SMILES" = row_cells r' "SMILES".

(** X19. [receptor_data] reads the index and three columns only.  Two
    tables that both hold the three columns, and whose rows agree, one by
    one, on the index label and on the cells of these columns, get the
    same answer: the columns of the other receptors play no part. *)
Theorem other_columns_play_no_part (df df' : DataFrame) (receptor_name : string)
    (featurize : cell -> Feat) (seed : Z) (rng : RngState) :
  (forall c, In c [receptor_name; "molecules"%string; "SMILES"%string] ->
             has_column df' c = has_column df c) ->
  Forall2 (same_for receptor_name) (df_rows df) (df_rows df') ->
  receptor_data df' receptor_name featurize seed rng =
  receptor_data df receptor_name featurize seed rng.
Proof.
  intros Hcols Hrows.
  assert (H1 := Hcols receptor_name (or_introl eq_refl)).
  assert (H2 := Hcols "molecules"%string (or_intror (or_introl eq_refl))).
  assert (H3 := Hcols "SMILES"%string (or_intror (or_intror (or_introl eq_refl)))).
  destruct (has_column df receptor_name) eqn:Hc;
    [destruct (has_column df "molecules") eqn:Hm;
     [destruct (has_column df "SMILES") eqn:Hs|]|].
  - rewrite (receptor_data_kept df _ _ _ _ Hc Hm Hs).
    rewrite (receptor_data_kept df' _ _ _ _ H1 H2 H3).
    assert (Hzero : zero_labels receptor_name df = zero_labels receptor_name df').
    { unfold zero_labels.
      apply (Forall2_map_eq (same_for receptor_name)).
      - intros a b Hab. apply Hab.
      - apply Forall2_filter; [|exact Hrows].
        intros a b (_ & Hab & _). rewrite Hab. reflexivity. }
    assert (Hkept : Forall2 (same_for receptor_name)
                            (kept_rows receptor_name df) (kept_rows receptor_name df')).
    { unfold kept_rows. rewrite <- Hzero.
      apply Forall2_filter; [|exact Hrows].
      intros a b (Hab & _). rewrite Hab. reflexivity. }
    unfold datasets_of_rows.
    rewrite (Forall2_map_eq (same_for receptor_name)
               (fun r => row_cells r receptor_name) _ _
               (fun a b Hab => proj1 (proj2 Hab)) Hkept).
    rewrite (Forall2_map_eq (same_for receptor_name)
               (fun r => row_cells r "molecules") _ _
               (fun a b Hab => proj1 (proj2 (proj2 Hab))) Hkept).
    rewrite (Forall2_map_eq (same_for receptor_name)
               (fun r => row_cells r "SMILES") _ _
               (fun a b Hab => proj2 (proj2 (proj2 Hab))) Hkept).
    reflexivity.
  - unfold receptor_data, project. cbn [missing_column].
    rewrite H1, H2, H3, Hc, Hm, Hs. reflexivity.
  - unfold receptor_data, project. cbn [missing_column].
    rewrite H1, H2, Hc, Hm. reflexivity.
  - unfold receptor_data, project. cbn [missing_column].
    rewrite H1, Hc. reflexivity.
Qed.

End ReceptorData.


(** ** From the file to the datasets *)

Section Pipeline.
Variable read_csv : string -> result DataFrame.
Variable MolFromSmiles : string -> option Mol.
Variable Descriptors_MolWt : Mol -> Q.
Variable Feat : Type.
Variable sqrtQ : Q -> Q.
Variable RngState : Type.
Variable np_random_seed : Z -> RngState.
Variable draw : RngState -> nat -> nat * RngState.


End Pipeline.

End DataFrames.

(** ** A table of five molecules *)

(** The parsed file: one [SMILES] column and the default index 0..4. *)
Definition five_molecules : DataFrame string :=
  {| df_columns := ["SMILES"%string];
     df_rows :=
       map (fun i_s => {| row_label := CNum string (inject_Z (fst i_s));
                          row_cells := fun c =>
                            if String.eqb c "SMILES" then CStr string (snd i_s)
                            else CNone string |})
           [(0, "A"); (1, "B"); (2, "C"); (3, "D"); (4, "E")]%string |}.

(** The molecule object of a string is the string itself, and the five
    molecules weigh 100, 250, 300, 450 and 500. *)
Definition five_weights (m : string) : Q :=
  if String.eqb m "A" then 100
  else if String.eqb m "B" then 250
  else if String.eqb m "C" then 300
  else if String.eqb m "D" then 450
  else 500.

Definition observe (r : row string) : cell string * cell string * cell string :=
  (row_label string r, row_cells string r "SMILES", row_cells string r "MolWt").

(** C5. Whatever the threshold, [load_data] applied to a table that loads
    and whose weights are numbers returns exactly the loaded rows whose
    weight is strictly below the threshold: no returned row has a weight
    greater than or equal to it, and every loaded row strictly below it is
    kept.  For five molecules of weights 100, 250, 300, 450, 500 and the
    threshold 300 it returns exactly the rows of weights 100 and 250. *)
Theorem load_data_weight_threshold :
  (forall (Mol : Type) (read_csv : string -> result (DataFrame Mol))
          (MolFromSmiles : string -> option Mol) (Descriptors_MolWt : Mol -> Q)
          (datafile : string) (MolWt : Z) (first_index : bool) (df : DataFrame Mol),
      load_table Mol read_csv MolFromSmiles Descriptors_MolWt datafile first_index
        = Ok df ->
      numeric Mol "MolWt" df ->
      exists out,
        load_data Mol read_csv MolFromSmiles Descriptors_MolWt datafile MolWt
          first_index = Ok out /\
        df_rows Mol out = filter (weight_below Mol MolWt) (df_rows Mol df) /\
        (forall r w, In r (df_rows Mol out) -> row_cells Mol r "MolWt" = CNum Mol w ->
                     (w < inject_Z MolWt)%Q /\ ~ (inject_Z MolWt <= w)%Q) /\
        (forall r w, In r (df_rows Mol df) -> row_cells Mol r "MolWt" = CNum Mol w ->
                     (w < inject_Z MolWt)%Q -> In r (df_rows Mol out))) /\
  (exists out,
      load_data string (fun _ => Ok five_molecules) Some five_weights
        "molecules.csv" 300 false = Ok out /\
      map observe (df_rows string out) =
        [(CNum string 0, CStr string "A", CNum string 100);
         (CNum string 1, CStr string "B", CNum string 250)]).
Proof.
  split.
  - intros Mol read_csv MolFromSmiles Descriptors_MolWt datafile MolWt first_index df
           Hload Hnum.
    destruct (load_data_filters Mol read_csv MolFromSmiles Descriptors_MolWt
                datafile MolWt first_index df Hload Hnum)
      as (out & H1 & _ & H3 & H4 & H5).
    exists out. repeat split; try assumption; apply (H4 r w); assumption.
  - eexists. split; [vm_compute; reflexivity|]. vm_compute. reflexivity.
Qed.

Lemma load_data_weight_threshold_witness :
  exists df,
    load_table string (fun _ => Ok five_molecules) Some five_weights
      "molecules.csv" false = Ok df /\
    numeric string "MolWt" df /\
    exists out,
      load_data string (fun _ => Ok five_molecules) Some five_weights
        "molecules.csv" 300 false = Ok out /\
      df_rows string out = filter (weight_below string 300) (df_rows string df).
Proof.
  eexists. split; [vm_compute; reflexivity|].
  match goal with
  | |- numeric _ _ ?df /\ _ =>
      assert (Hnum : numeric string "MolWt" df)
  end.
  { intros r Hin. cbn in Hin.
    repeat (destruct Hin as [<-|Hin]; [eexists; vm_compute; reflexivity|]).
    contradiction. }
  split; [exact Hnum|].
  destruct (proj1 load_data_weight_threshold string (fun _ => Ok five_molecules)
              Some five_weights "molecules.csv"%string 300 false _ eq_refl Hnum)
    as (out & H1 & H2 & _).
  exists out. split; assumption.
Defined.

(** ** A table of docking scores *)

(** A square root on rationals that is exact on the squares of rationals. *)
Definition Qsqrt (q : Q) : Q :=
  let r := Qred q in Qmake (Z.sqrt (Qnum r)) (Pos.sqrt (Qden r)).

(** Six molecules and their scores for receptor [R]; molecule [B] was not
    docked and carries the value 0. *)
Definition docking_scores : DataFrame string :=
  {| df_columns := ["SMILES"; "molecules"; "R"]%string;
     df_rows :=
       map (fun isv => let '(i, s, v) := isv in
                       {| row_label := CNum string (inject_Z i);
                          row_cells := fun c =>
                            if String.eqb c "SMILES" then CStr string s
                            else if String.eqb c "molecules" then CMol string s
                            else if String.eqb c "R" then CNum string v
                            else CNone string |})
           [(0, "A"%string, 1%Q); (1, "B"%string, 0%Q); (2, "C"%string, 3%Q);
            (3, "D"%string, 4%Q); (4, "E"%string, 5%Q); (5, "F"%string, 7%Q)] |}.

(** A small congruential generator standing for NumPy's. *)
Definition lcg_draw (rng : Z) (bound : nat) : nat * Z :=
  (Z.to_nat (rng mod Z.of_nat bound), (rng * 5 + 3) mod 64).

Definition docking_datasets (seed rng : Z) :
  result (datasets string (cell string) * Z) :=
  receptor_data string string_dec (cell string) Qsqrt Z (fun s => s) lcg_draw
    docking_scores "R" (fun c => c) seed rng.

(** Identifier and label of a datapoint, the label in lowest terms. *)
Definition show (d : sample string (cell string)) : cell string * Q :=
  (sample_id string (cell string) d, Qred (sample_y string (cell string) d)).

(** [int(x) = k] for a double [x >= 0]: [k <= x < k + 1]. *)
Definition float_of_nat (n : nat) : float :=
  PrimFloat.of_uint63 (Uint63.of_Z (Z.of_nat n)).

Definition int_is (x : float) (k : nat) : bool :=
  PrimFloat.leb (float_of_nat k) x && PrimFloat.ltb x (float_of_nat (S k)).

(** The cut-offs of the split as computed in double arithmetic, with the
    doubles nearest to 0.8 and 0.1 for [frac_train] and [frac_valid], against
    the integer quotients of [split_indices]. *)
Definition cutoffs_agree (n : nat) : bool :=
  let frac_train := 0x1.999999999999ap-1%float in
  let frac_valid := 0x1.999999999999ap-4%float in
  int_is (frac_train * float_of_nat n)%float (8 * n / 10) &&
  int_is ((frac_train + frac_valid) * float_of_nat n)%float (9 * n / 10).

Lemma docking_scores_numeric : numeric string "R" docking_scores.
Proof.
  intros r Hin. cbn in Hin.
  repeat (destruct Hin as [<-|Hin]; [eexists; reflexivity|]).
  contradiction.
Qed.

Lemma receptor_data_excludes_zero_rows_witness :
  has_column string docking_scores "R" = true /\
  has_column string docking_scores "molecules" = true /\
  has_column string docking_scores "SMILES" = true /\
  numeric string "R" docking_scores /\
  exists out rng',
    docking_datasets 1 0 = Ok (out, rng') /\
    (forall r, In r (df_rows string docking_scores) ->
               is_zero string (row_cells string r "R") = true ->
               ~ In r (kept_rows string string_dec "R" docking_scores)) /\
    Permutation
      (train_dataset string (cell string) out ++
       valid_dataset string (cell string) out ++
       test_dataset string (cell string) out)
      (transform string (cell string) (transformer string (cell string) out)
         (map (raw_sample string (cell string) "R" (fun c => c))
              (kept_rows string string_dec "R" docking_scores))).
Proof.
  split; [reflexivity|]. split; [reflexivity|]. split; [reflexivity|].
  split; [exact docking_scores_numeric|].
  destruct (receptor_data_excludes_zero_rows string string_dec (cell string) Qsqrt Z
              (fun s => s) lcg_draw docking_scores "R" (fun c => c) 1 0
              eq_refl eq_refl eq_refl docking_scores_numeric)
    as (out & rng' & H1 & _ & _ & H4 & _ & _ & H7 & _).
  exists out, rng'. split; [exact H1|]. split; [exact H4|exact H7].
Defined.

(** For every dataset size below 1000, [int(0.8 * n)] and
    [int((0.8 + 0.1) * n)] are [8n/10] and [9n/10]. *)
Lemma cutoffs_agree_with_doubles : forallb cutoffs_agree (seq 0 1000) = true.
Proof. vm_compute. reflexivity. Qed.

(** Without a seed the split does depend on the state of the generator. *)
Lemma unseeded_split_depends_on_state :
  split_indices Z (fun s => s) lcg_draw 5 None 0 <>
  split_indices Z (fun s => s) lcg_draw 5 None 1 /\
  split_indices Z (fun s => s) lcg_draw 5 (Some 7) 0 =
  split_indices Z (fun s => s) lcg_draw 5 (Some 7) 1.
Proof. split; [vm_compute; discriminate|reflexivity]. Qed.

(** C4, as stated, fails: the labels of the returned datapoints are the
    normalized ones.  The kept scores 1, 3, 4, 5, 7 have mean 4 and standard
    deviation 2, so molecule [D], whose score is the mean, is returned with
    the label exactly 0. *)
Lemma normalized_label_zero_counterexample :
  exists out rng',
    docking_datasets 1 0 = Ok (out, rng') /\
    map show (train_dataset string (cell string) out) =
      [(CStr string "C", -1 # 2); (CStr string "A", -3 # 2);
       (CStr string "E", 1 # 2); (CStr string "D", 0)]%Q /\
    map show (valid_dataset string (cell string) out) = [] /\
    map show (test_dataset string (cell string) out) = [(CStr string "F", 3 # 2)%Q] /\
    existsb (fun d => Qeq_bool (sample_y string (cell string) d) 0)
            (train_dataset string (cell string) out ++
             valid_dataset string (cell string) out ++
             test_dataset string (cell string) out) = true.
Proof.
  eexists _, _. split; [vm_compute; reflexivity|].
  repeat split; vm_compute; reflexivity.
Qed.


(** ** Files with stored columns, shared labels and a second receptor *)

Definition stored_row (i : Z) (smiles : string) (mol : cell string) (w : Q) :
  row string :=
  {| row_label := CNum string (inject_Z i);
     row_cells := fun c =>
       if String.eqb c "SMILES" then CStr string smiles
       else if String.eqb c "molecules" then mol
       else if String.eqb c "MolWt" then CNum string w
       else CNone string |}.

(** A curated file: molecules and weights are stored, and the stored
    weights are not the ones [five_weights] gives. *)
Definition curated : DataFrame string :=
  {| df_columns := ["SMILES"; "molecules"; "MolWt"]%string;
     df_rows := [stored_row 0 "A" (CMol string "A"%string) 120;
                 stored_row 1 "B" (CMol string "B"%string) 310] |}.

(** A file with weights and no molecules; its second string is no SMILES. *)
Definition weighed : DataFrame string :=
  {| df_columns := ["SMILES"; "MolWt"]%string;
     df_rows := [stored_row 0 "A" (CNone string) 120;
                 stored_row 1 "not a molecule" (CNone string) 130;
                 stored_row 2 "C" (CNone string) 400] |}.

Definition parse (s : string) : option string :=
  if String.eqb s "not a molecule" then None else Some s.

(** Scores in which molecule [C] carries the index label of the undocked
    molecule [B]. *)
Definition shared_labels : DataFrame string :=
  {| df_columns := ["SMILES"; "molecules"; "R"]%string;
     df_rows :=
       map (fun isv => let '(i, s, v) := isv in
                       {| row_label := CNum string (inject_Z i);
                          row_cells := fun c =>
                            if String.eqb c "SMILES" then CStr string s
                            else if String.eqb c "molecules" then CMol string s
                            else if String.eqb c "R" then CNum string v
                            else CNone string |})
           [(0, "A"%string, 1%Q); (1, "B"%string, 0%Q); (1, "C"%string, 3%Q);
            (3, "D"%string, 4%Q)] |}.

(** The docking scores with the column of a second receptor, all zeros. *)
Definition two_receptors : DataFrame string :=
  {| df_columns := ["SMILES"; "molecules"; "R"; "R2"]%string;
     df_rows :=
       map (fun r => {| row_label := row_label string r;
                        row_cells := fun c =>
                          if String.eqb c "R2" then CNum string 0
                          else row_cells string r c |})
           (df_rows string docking_scores) |}.


Lemma docking_scores_distinct : labels_distinct string string_dec docking_scores.
Proof.
  intros r r' Hr Hr' Heq. cbn in Hr, Hr'.
  repeat (destruct Hr as [<-|Hr]; [|]); try contradiction;
    repeat (destruct Hr' as [<-|Hr']; [|]); try contradiction;
    try reflexivity; vm_compute in Heq; discriminate.
Qed.

Lemma load_data_errors_witness :
  (fun _ : string => Ok five_molecules) "molecules.csv"%string = Ok five_molecules /\
  load_data string (fun _ => Ok five_molecules) Some five_weights
    "molecules.csv" 300 true = Raise (KeyError "1") /\
  load_data string (fun _ => Ok five_molecules)
    (fun s => if String.eqb s "C" then None else Some s) five_weights
    "molecules.csv" 300 false = Raise TypeError.
Proof.
  split; [reflexivity|]. split.
  - exact (proj1 (load_data_errors string (fun _ => Ok five_molecules) Some
                    five_weights "molecules.csv" 300 true five_molecules eq_refl)
                 eq_refl eq_refl).
  - apply (proj2 (proj2 (load_data_errors string (fun _ => Ok five_molecules)
                           (fun s => if String.eqb s "C" then None else Some s)
                           five_weights "molecules.csv" 300 false five_molecules
                           eq_refl)));
      try reflexivity.
    eexists. split; [cbn; right; right; left; reflexivity|reflexivity].
Defined.

Lemma stored_columns_are_trusted_witness :
  numeric string "MolWt" curated /\
  load_data string (fun _ => Ok curated) Some five_weights "curated.csv" 300 false =
    Ok {| df_columns := ["SMILES"; "molecules"; "MolWt"]%string;
          df_rows := [stored_row 0 "A" (CMol string "A"%string) 120] |}.
Proof.
  assert (Hnum : numeric string "MolWt" curated).
  { intros r Hin. cbn in Hin.
    repeat (destruct Hin as [<-|Hin]; [eexists; reflexivity|]). contradiction. }
  split; [exact Hnum|].
  exact (proj2 (stored_columns_are_trusted string (fun _ => Ok curated) Some
                  five_weights "curated.csv" 300 curated eq_refl eq_refl eq_refl
                  Hnum)).
Defined.

Lemma unparsed_smiles_pass_with_stored_weights_witness :
  numeric string "MolWt" weighed /\
  exists out,
    load_data string (fun _ => Ok weighed) parse five_weights "weighed.csv" 300 false
      = Ok out /\
    df_columns string out = ["SMILES"; "MolWt"; "molecules"]%string /\
    map (fun r => (row_cells string r "SMILES", row_cells string r "molecules"))
        (df_rows string out) =
      [(CStr string "A"%string, CMol string "A"%string);
       (CStr string "not a molecule"%string, CNone string)].
Proof.
  assert (Hnum : numeric string "MolWt" weighed).
  { intros r Hin. cbn in Hin.
    repeat (destruct Hin as [<-|Hin]; [eexists; reflexivity|]). contradiction. }
  assert (Hstr : forall r, In r (df_rows string weighed) ->
                           exists s, row_cells string r "SMILES" = CStr string s).
  { intros r Hin. cbn in Hin.
    repeat (destruct Hin as [<-|Hin]; [eexists; reflexivity|]). contradiction. }
  split; [exact Hnum|].
  eexists. split.
  - exact (unparsed_smiles_pass_with_stored_weights string (fun _ => Ok weighed)
             parse five_weights "weighed.csv" 300 weighed eq_refl eq_refl eq_refl
             eq_refl Hstr Hnum).
  - split; vm_compute; reflexivity.
Defined.

Lemma lower_threshold_refilters_witness :
  exists out2 out1,
    load_data string (fun _ => Ok five_molecules) Some five_weights
      "molecules.csv" 460 false = Ok out2 /\
    load_data string (fun _ => Ok five_molecules) Some five_weights
      "molecules.csv" 300 false = Ok out1 /\
    df_rows string out1 = filter (weight_below string 300) (df_rows string out2).
Proof.
  destruct (load_data string (fun _ => Ok five_molecules) Some five_weights
              "molecules.csv" 460 false) as [out2|e] eqn:H2;
    [|vm_compute in H2; discriminate].
  destruct (lower_threshold_refilters string (fun _ => Ok five_molecules) Some
              five_weights "molecules.csv" 300 460 false out2 H2)
    as (out1 & H1 & _ & Hrows).
  exists out2, out1. split; [reflexivity|]. split; [exact H1|].
  apply Hrows. lia.
Defined.

Lemma load_data_schema_witness :
  exists out,
    load_data string (fun _ => Ok five_molecules) Some five_weights
      "molecules.csv" 300 false = Ok out /\
    (forall c, has_column string out c =
               has_column string five_molecules c && negb (false && String.eqb "1" c)
               || String.eqb c "molecules" || String.eqb c "MolWt") /\
    (forall r, In r (df_rows string out) ->
       exists r0, In r0 (df_rows string five_molecules) /\
                  row_label string r = row_label string r0 /\
                  row_cells string r "SMILES" = row_cells string r0 "SMILES").
Proof.
  destruct (load_data string (fun _ => Ok five_molecules) Some five_weights
              "molecules.csv" 300 false) as [out|e] eqn:Hout;
    [|vm_compute in Hout; discriminate].
  destruct (load_data_schema string (fun _ => Ok five_molecules) Some five_weights
              "molecules.csv" 300 false five_molecules out eq_refl Hout)
    as [Hcols Hrows].
  exists out. split; [reflexivity|]. split; [exact Hcols|].
  intros r Hin. destruct (Hrows r Hin) as (r0 & Hin0 & Hl & Hc).
  exists r0. split; [exact Hin0|]. split; [exact Hl|].
  apply Hc; discriminate.
Defined.

Lemma rows_sharing_a_zero_label_are_dropped_witness :
  exists out rng',
    receptor_data string string_dec (cell string) Qsqrt Z (fun s => s) lcg_draw
      shared_labels "R" (fun c => c) 1 0 = Ok (out, rng') /\
    List.length (train_dataset string (cell string) out ++
                 valid_dataset string (cell string) out ++
                 test_dataset string (cell string) out) = 2%nat.
Proof.
  destruct (receptor_data string string_dec (cell string) Qsqrt Z (fun s => s)
              lcg_draw shared_labels "R" (fun c => c) 1 0)
    as [[out rng']|e] eqn:Hrun; [|vm_compute in Hrun; discriminate].
  exists out, rng'. split; [reflexivity|].
  pose proof (rows_sharing_a_zero_label_are_dropped string string_dec (cell string)
                Qsqrt Z (fun s => s) lcg_draw shared_labels "R" (fun c => c) 1 0
                out rng' Hrun) as H.
  cbv zeta in H. destruct H as [Hlen _]. rewrite Hlen. reflexivity.
Defined.

Lemma prefiltering_zero_rows_is_redundant_witness :
  labels_distinct string string_dec docking_scores /\
  receptor_data string string_dec (cell string) Qsqrt Z (fun s => s) lcg_draw
    {| df_columns := df_columns string docking_scores;
       df_rows := filter (fun r => negb (is_zero string (row_cells string r "R")))
                         (df_rows string docking_scores) |}
    "R" (fun c => c) 1 0 =
  docking_datasets 1 0.
Proof.
  split; [exact docking_scores_distinct|].
  exact (prefiltering_zero_rows_is_redundant string string_dec (cell string) Qsqrt Z
           (fun s => s) lcg_draw docking_scores "R" (fun c => c) 1 0
           docking_scores_distinct).
Defined.

Lemma other_columns_play_no_part_witness :
  Forall2 (same_for string "R") (df_rows string docking_scores)
          (df_rows string two_receptors) /\
  receptor_data string string_dec (cell string) Qsqrt Z (fun s => s) lcg_draw
    two_receptors "R" (fun c => c) 1 0 =
  docking_datasets 1 0.
Proof.
  assert (Hrows : Forall2 (same_for string "R") (df_rows string docking_scores)
                          (df_rows string two_receptors)).
  { cbn. repeat constructor. }
  split; [exact Hrows|].
  apply (other_columns_play_no_part string string_dec (cell string) Qsqrt Z
           (fun s => s) lcg_draw docking_scores two_receptors "R" (fun c => c) 1 0);
    [|exact Hrows].
  intros c [<-|[<-|[<-|[]]]]; reflexivity.
Defined.


End Tables.
